(** * Viewstamped replication core ([src/vrr.go]): model and properties

    The replica of [vrr.go] is embedded as a record of its fields; every
    method that runs under the replica mutex becomes a function from the
    state before the critical section to the state after it.  What a method
    sends on [commitChan] is returned as a list of commit entries, what it
    writes through its reply pointer is returned as the new reply value, and
    [time.Now()] is an explicit argument.  Go's [int] is a 64-bit machine
    integer: every [+ 1], [++], [- 1] and [* 2] of the source is followed by
    [wrap64].  [len] of a slice or a map always fits an [int] and is not
    wrapped. *)

From stdpp Require Import gmap strings list fin_maps.
From Stdlib Require Import ZArith Lia.

Local Open Scope Z_scope.

(** ** Machine integers *)

Definition wrap (bits : Z) (z : Z) : Z :=
  (z + 2 ^ (bits - 1)) mod 2 ^ bits - 2 ^ (bits - 1).

Definition wrap64 (z : Z) : Z := wrap 64 z.
Definition wrap32 (z : Z) : Z := wrap 32 z.

Definition max_int : Z := 2 ^ 63 - 1.
Definition min_int : Z := - 2 ^ 63.
Definition max_int32 : Z := 2 ^ 31 - 1.

Definition in_int (z : Z) : Prop := min_int <= z <= max_int.

(** [len] of a Go slice. *)
Definition len {A : Type} (l : list A) : Z := Z.of_nat (length l).

(** [len] of a Go map. *)
Definition maplen {V : Type} (m : gmap Z V) : Z := Z.of_nat (size m).

(** ** Data model *)

(** A value of type [interface{}]; the replica never inspects payloads. *)
Inductive iface : Type :=
| INil
| IStr (s : string)
| IInt (z : Z).

#[global] Instance iface_eq_dec : EqDecision iface.
Proof. solve_decision. Defined.

Module Status.
Inductive ReplicaStatus : Type :=
| Normal
| Recovery
| ViewChange
| Transitioning
| Dead
| DoViewChange
| StartView.

#[global] Instance eq_dec : EqDecision ReplicaStatus.
Proof. solve_decision. Defined.

(** The [iota] value of each constant. *)
Definition to_Z (rs : ReplicaStatus) : Z :=
  match rs with
  | Normal => 0
  | Recovery => 1
  | ViewChange => 2
  | Transitioning => 3
  | Dead => 4
  | DoViewChange => 5
  | StartView => 6
  end.

Definition String (rs : ReplicaStatus) : string :=
  match rs with
  | Normal => "Normal"
  | Recovery => "Recovery"
  | ViewChange => "View-Change"
  | Transitioning => "Transitioning"
  | Dead => "Dead"
  | DoViewChange => "DoViewChange"
  | StartView => "StartView"
  end.
End Status.
Export Status(ReplicaStatus).

Record opLogEntry : Type := mkOpLogEntry {
  opID : Z;
  operation : iface
}.

Record clientRequest : Type := mkClientRequest {
  clientID : Z;
  reqNum : Z;
  reqOp : iface
}.

Module clientTableEntry.
Record t : Type := mk {
  reqNum : Z;
  reqOp : iface;
  resp : iface
}.
(** The zero value, which a Go map lookup yields for a missing key. *)
Definition zero : t := mk 0 INil INil.
End clientTableEntry.

Module CommitEntry.
Record t : Type := mk {
  ViewNum : Z;
  OpNum : Z;
  CommitNum : Z;
  ClientReq : clientRequest;
  Resp : iface
}.
End CommitEntry.

(** The fields of [Replica] that hold protocol state.  [mu], [server],
    [commitChan] and [newCommitReadyChan] are the lock, the transport and the
    channels; they are represented by the shape of the model and not by
    fields. *)
Record Replica : Type := mkReplica {
  ID : Z;
  oldViewNum : Z;
  viewNum : Z;
  commitNum : Z;
  opNum : Z;
  opLog : list opLogEntry;
  primaryID : Z;
  doViewChangeCount : Z;
  tempViewNum : Z;
  tempOpLog : list opLogEntry;
  tempOpNum : Z;
  tempCommitNum : Z;
  status : ReplicaStatus;
  configuration : gmap Z string;
  clientTable : gmap Z clientTableEntry.t;
  viewChangeResetEvent : Z
}.

(** Field updates. *)
Definition set_oldViewNum (v : Z) (r : Replica) : Replica :=
  mkReplica (ID r) v (viewNum r) (commitNum r) (opNum r) (opLog r)
    (primaryID r) (doViewChangeCount r) (tempViewNum r) (tempOpLog r)
    (tempOpNum r) (tempCommitNum r) (status r) (configuration r)
    (clientTable r) (viewChangeResetEvent r).

Definition set_viewNum (v : Z) (r : Replica) : Replica :=
  mkReplica (ID r) (oldViewNum r) v (commitNum r) (opNum r) (opLog r)
    (primaryID r) (doViewChangeCount r) (tempViewNum r) (tempOpLog r)
    (tempOpNum r) (tempCommitNum r) (status r) (configuration r)
    (clientTable r) (viewChangeResetEvent r).

Definition set_commitNum (v : Z) (r : Replica) : Replica :=
  mkReplica (ID r) (oldViewNum r) (viewNum r) v (opNum r) (opLog r)
    (primaryID r) (doViewChangeCount r) (tempViewNum r) (tempOpLog r)
    (tempOpNum r) (tempCommitNum r) (status r) (configuration r)
    (clientTable r) (viewChangeResetEvent r).

Definition set_opNum (v : Z) (r : Replica) : Replica :=
  mkReplica (ID r) (oldViewNum r) (viewNum r) (commitNum r) v (opLog r)
    (primaryID r) (doViewChangeCount r) (tempViewNum r) (tempOpLog r)
    (tempOpNum r) (tempCommitNum r) (status r) (configuration r)
    (clientTable r) (viewChangeResetEvent r).

Definition set_opLog (v : list opLogEntry) (r : Replica) : Replica :=
  mkReplica (ID r) (oldViewNum r) (viewNum r) (commitNum r) (opNum r) v
    (primaryID r) (doViewChangeCount r) (tempViewNum r) (tempOpLog r)
    (tempOpNum r) (tempCommitNum r) (status r) (configuration r)
    (clientTable r) (viewChangeResetEvent r).

Definition set_primaryID (v : Z) (r : Replica) : Replica :=
  mkReplica (ID r) (oldViewNum r) (viewNum r) (commitNum r) (opNum r) (opLog r)
    v (doViewChangeCount r) (tempViewNum r) (tempOpLog r)
    (tempOpNum r) (tempCommitNum r) (status r) (configuration r)
    (clientTable r) (viewChangeResetEvent r).

Definition set_doViewChangeCount (v : Z) (r : Replica) : Replica :=
  mkReplica (ID r) (oldViewNum r) (viewNum r) (commitNum r) (opNum r) (opLog r)
    (primaryID r) v (tempViewNum r) (tempOpLog r)
    (tempOpNum r) (tempCommitNum r) (status r) (configuration r)
    (clientTable r) (viewChangeResetEvent r).

Definition set_tempViewNum (v : Z) (r : Replica) : Replica :=
  mkReplica (ID r) (oldViewNum r) (viewNum r) (commitNum r) (opNum r) (opLog r)
    (primaryID r) (doViewChangeCount r) v (tempOpLog r)
    (tempOpNum r) (tempCommitNum r) (status r) (configuration r)
    (clientTable r) (viewChangeResetEvent r).

Definition set_tempOpLog (v : list opLogEntry) (r : Replica) : Replica :=
  mkReplica (ID r) (oldViewNum r) (viewNum r) (commitNum r) (opNum r) (opLog r)
    (primaryID r) (doViewChangeCount r) (tempViewNum r) v
    (tempOpNum r) (tempCommitNum r) (status r) (configuration r)
    (clientTable r) (viewChangeResetEvent r).

Definition set_tempOpNum (v : Z) (r : Replica) : Replica :=
  mkReplica (ID r) (oldViewNum r) (viewNum r) (commitNum r) (opNum r) (opLog r)
    (primaryID r) (doViewChangeCount r) (tempViewNum r) (tempOpLog r)
    v (tempCommitNum r) (status r) (configuration r)
    (clientTable r) (viewChangeResetEvent r).

Definition set_tempCommitNum (v : Z) (r : Replica) : Replica :=
  mkReplica (ID r) (oldViewNum r) (viewNum r) (commitNum r) (opNum r) (opLog r)
    (primaryID r) (doViewChangeCount r) (tempViewNum r) (tempOpLog r)
    (tempOpNum r) v (status r) (configuration r)
    (clientTable r) (viewChangeResetEvent r).

Definition set_status (v : ReplicaStatus) (r : Replica) : Replica :=
  mkReplica (ID r) (oldViewNum r) (viewNum r) (commitNum r) (opNum r) (opLog r)
    (primaryID r) (doViewChangeCount r) (tempViewNum r) (tempOpLog r)
    (tempOpNum r) (tempCommitNum r) v (configuration r)
    (clientTable r) (viewChangeResetEvent r).

Definition set_clientTable (v : gmap Z clientTableEntry.t) (r : Replica) : Replica :=
  mkReplica (ID r) (oldViewNum r) (viewNum r) (commitNum r) (opNum r) (opLog r)
    (primaryID r) (doViewChangeCount r) (tempViewNum r) (tempOpLog r)
    (tempOpNum r) (tempCommitNum r) (status r) (configuration r)
    v (viewChangeResetEvent r).

Definition set_viewChangeResetEvent (v : Z) (r : Replica) : Replica :=
  mkReplica (ID r) (oldViewNum r) (viewNum r) (commitNum r) (opNum r) (opLog r)
    (primaryID r) (doViewChangeCount r) (tempViewNum r) (tempOpLog r)
    (tempOpNum r) (tempCommitNum r) (status r) (configuration r)
    (clientTable r) v.

(** [r.clientTable[c]]: the entry of client [c], or the zero value. *)
Definition clientTable_get (r : Replica) (c : Z) : clientTableEntry.t :=
  default clientTableEntry.zero (clientTable r !! c).

(** [NewReplica]: every field not assigned by the constructor has its zero
    value; [viewChangeResetEvent] is set when the [ready] signal arrives. *)
Definition NewReplica (id : Z) (config : gmap Z string) : Replica :=
  {| ID := id;
     oldViewNum := -1;
     viewNum := 0;
     commitNum := 0;
     opNum := 0;
     opLog := [];
     primaryID := 0;
     doViewChangeCount := 0;
     tempViewNum := 0;
     tempOpLog := [];
     tempOpNum := 0;
     tempCommitNum := 0;
     status := Status.Normal;
     configuration := config;
     clientTable := ∅;
     viewChangeResetEvent := 0 |}.

(** [Stop]. *)
Definition Stop (r : Replica) : Replica := set_status Status.Dead r.

(** [Report]. *)
Definition Report (r : Replica) : Z * Z * bool * ReplicaStatus :=
  (ID r, viewNum r, bool_decide (ID r = primaryID r), status r).

(** ** RPC messages *)

Module PrepareArgs.
Record t : Type := mk {
  ViewNum : Z;
  OpNum : Z;
  CommitNum : Z;
  ClientMessage : clientRequest
}.
End PrepareArgs.

Module PrepareOKReply.
Record t : Type := mk {
  IsReplied : bool;
  ViewNum : Z;
  OpNum : Z;
  ReplicaID : Z;
  Status : ReplicaStatus
}.
(** [var reply PrepareOKReply]. *)
Definition zero : t := mk false 0 0 0 Status.Normal.
End PrepareOKReply.

Module CommitArgs.
Record t : Type := mk {
  ViewNum : Z;
  CommitNum : Z
}.
End CommitArgs.

(** [CommitReply], [StartViewReply], [DoViewChangeReply] and
    [StartViewChangeReply] have the same two fields. *)
Module Ack.
Record t : Type := mk {
  IsReplied : bool;
  ReplicaID : Z
}.
Definition zero : t := mk false 0.
End Ack.

Module StartViewArgs.
Record t : Type := mk {
  ViewNum : Z;
  OpLog : list opLogEntry;
  OpNum : Z;
  PrimaryID : Z
}.
End StartViewArgs.

Module DoViewChangeArgs.
Record t : Type := mk {
  ViewNum : Z;
  OldViewNum : Z;
  CommitNum : Z;
  OpNum : Z;
  OpLog : list opLogEntry
}.
End DoViewChangeArgs.

Module StartViewChangeArgs.
Record t : Type := mk {
  ViewNum : Z;
  ReplicaID : Z
}.
End StartViewChangeArgs.

(** ** Normal-case operation *)

(** The local variables that the reply closures of one
    [primaryBlastPrepare] call share. *)
Record PrepareBlast : Type := mkPrepareBlast {
  savedViewNum : Z;
  savedOpNum : Z;
  savedCommitNum : Z;
  newRequest : clientRequest;
  prepareOKsReceived : Z;
  commitedAlready : bool
}.

(** [primaryBlastPrepare], first critical section: the snapshot taken
    before the [Prepare] calls are sent. *)
Definition primaryBlastPrepare (r : Replica) (req : clientRequest) : PrepareBlast :=
  {| savedViewNum := viewNum r;
     savedOpNum := opNum r;
     savedCommitNum := commitNum r;
     newRequest := req;
     prepareOKsReceived := 1;
     commitedAlready := false |}.

(** The arguments that [primaryBlastPrepare] sends to every peer. *)
Definition prepareArgsOf (b : PrepareBlast) : PrepareArgs.t :=
  PrepareArgs.mk (savedViewNum b) (savedOpNum b) (savedCommitNum b) (newRequest b).

(** [Submit]: the new state, the returned boolean and, on acceptance, the
    broadcast started by the call to [primaryBlastPrepare] when its snapshot
    is taken before any other critical section runs.  [Submit] unlocks before
    that call: the node model below also has the two critical sections as
    separate events. *)
Definition Submit (r : Replica) (req : clientRequest)
  : Replica * bool * option PrepareBlast :=
  if negb (bool_decide (ID r = primaryID r)) then (r, false, None)
  else if negb (bool_decide (status r = Status.Normal)) then (r, false, None)
  else if reqNum req <=? clientTableEntry.reqNum (clientTable_get r (clientID req))
  then (r, false, None)
  else
    let r1 := set_opLog (opLog r ++ [mkOpLogEntry (len (opLog r)) (reqOp req)]) r in
    let r2 := set_opNum (wrap64 (opNum r1 + 1)) r1 in
    let ctEntry := clientTableEntry.mk (reqNum req) (reqOp req) INil in
    let r3 := set_clientTable (<[clientID req := ctEntry]> (clientTable r2)) r2 in
    (r3, true, Some (primaryBlastPrepare r3 req)).

(** [replies*2 > len(r.configuration)+1], the quorum test of the reply
    closures. *)
Definition repliesQuorum (r : Replica) (replies : Z) : bool :=
  wrap64 (replies * 2) >? wrap64 (maplen (configuration r) + 1).

(** The body of the reply closure of [primaryBlastPrepare] for a call that
    returned without a transport error: new replica state, new closure
    variables, and the entries sent on [commitChan]. *)
Definition onPrepareOK (r : Replica) (b : PrepareBlast) (reply : PrepareOKReply.t)
  : Replica * PrepareBlast * list CommitEntry.t :=
  if PrepareOKReply.IsReplied reply && negb (commitedAlready b) then
    let replies := wrap32 (prepareOKsReceived b + 1) in
    let b1 := mkPrepareBlast (savedViewNum b) (savedOpNum b) (savedCommitNum b)
                (newRequest b) replies (commitedAlready b) in
    if repliesQuorum r replies then
      let r1 := set_commitNum (wrap64 (commitNum r + 1)) r in
      let b2 := mkPrepareBlast (savedViewNum b) (savedOpNum b) (savedCommitNum b)
                  (newRequest b) replies true in
      if negb (commitNum r1 =? savedCommitNum b) then
        let newReqCommitEntry :=
          CommitEntry.mk (savedViewNum b) (savedOpNum b) (savedCommitNum b)
            (newRequest b) INil in
        (r1, b2, [newReqCommitEntry])
      else (r1, b2, [])
    else (r, b1, [])
  else (r, b, []).

(** The replies of one broadcast handled one after the other with no other
    critical section of the replica in between. *)
Fixpoint feedReplies (r : Replica) (b : PrepareBlast) (replies : list PrepareOKReply.t)
  : Replica * PrepareBlast * list CommitEntry.t :=
  match replies with
  | [] => (r, b, [])
  | reply :: rest =>
      let '(r1, b1, out1) := onPrepareOK r b reply in
      let '(r2, b2, out2) := feedReplies r1 b1 rest in
      (r2, b2, out1 ++ out2)
  end.

(** What one broadcast sends on [commitChan] when each reply finds the
    replica in a state of its own: other critical sections may run between
    two replies. *)
Fixpoint emitted (b : PrepareBlast) (deliveries : list (Replica * PrepareOKReply.t))
  : list CommitEntry.t :=
  match deliveries with
  | [] => []
  | (r, reply) :: rest =>
      let '(_, b1, out1) := onPrepareOK r b reply in
      out1 ++ emitted b1 rest
  end.

(** The closure variables after a reply that is counted, with the latch as
    given. *)
Definition counted (b : PrepareBlast) (latch : bool) : PrepareBlast :=
  mkPrepareBlast (savedViewNum b) (savedOpNum b) (savedCommitNum b)
    (newRequest b) (wrap32 (prepareOKsReceived b + 1)) latch.

(** The entry built from the values saved at send time. *)
Definition savedCommitEntry (b : PrepareBlast) : CommitEntry.t :=
  CommitEntry.mk (savedViewNum b) (savedOpNum b) (savedCommitNum b)
    (newRequest b) INil.

(** [Prepare]: the new state and the reply as left by the handler. *)
Definition Prepare (r : Replica) (args : PrepareArgs.t) (reply : PrepareOKReply.t)
    (now : Z) : Replica * PrepareOKReply.t :=
  if bool_decide (status r = Status.Dead) then (r, reply)
  else
    let r1 := if viewNum r <? PrepareArgs.ViewNum args
              then set_status Status.Recovery r else r in
    if viewNum r1 =? PrepareArgs.ViewNum args then
      if negb (opNum r1 =? wrap64 (PrepareArgs.OpNum args - 1)) then
        (set_status Status.Recovery r1, reply)
      else
        let r2 := set_viewChangeResetEvent now r1 in
        let r3 := set_opNum (wrap64 (opNum r2 + 1)) r2 in
        let op := reqOp (PrepareArgs.ClientMessage args) in
        let r4 := set_opLog (opLog r3 ++ [mkOpLogEntry (len (opLog r3)) op]) r3 in
        let ctEntry :=
          clientTableEntry.mk (reqNum (PrepareArgs.ClientMessage args)) op INil in
        let r5 :=
          set_clientTable
            (<[clientID (PrepareArgs.ClientMessage args) := ctEntry]> (clientTable r4))
            r4 in
        (r5, PrepareOKReply.mk true (viewNum r5) (opNum r5) (ID r5) (status r5))
    else (r1, reply).

(** [Commit]: the handler reads neither field of its argument. *)
Definition Commit (r : Replica) (args : CommitArgs.t) (reply : Ack.t) (now : Z)
  : Replica * Ack.t :=
  if bool_decide (status r = Status.Dead) then (r, reply)
  else (set_viewChangeResetEvent now r, reply).

(** [primarySendCommit]: the heartbeat arguments. *)
Definition primarySendCommit (r : Replica) : CommitArgs.t :=
  CommitArgs.mk (viewNum r) (commitNum r).

(** ** View change *)

(** [nextPrimary]. *)
Definition nextPrimary (primaryID : Z) (config : gmap Z string) : Z :=
  let nextPrimaryID := wrap64 (primaryID + 1) in
  if nextPrimaryID =? wrap64 (maplen config + 1) then 0 else nextPrimaryID.

(** [initiateStartView], [initiateDoViewChange] and [initiateViewChange];
    each of them also starts a new [runViewChangeTimer] goroutine, which the
    node model below counts. *)
Definition initiateStartView (r : Replica) (now : Z) : Replica :=
  set_viewChangeResetEvent now (set_status Status.StartView r).

Definition initiateDoViewChange (r : Replica) (now : Z) : Replica :=
  set_viewChangeResetEvent now (set_status Status.DoViewChange r).

Definition initiateViewChange (r : Replica) (now : Z) : Replica :=
  let r1 := set_status Status.ViewChange r in
  let r2 := set_doViewChangeCount 0 r1 in
  let r3 := set_viewNum (wrap64 (viewNum r2 + 1)) r2 in
  set_viewChangeResetEvent now r3.

(** [sendDoViewChange]: the new state and the message sent, with its
    destination, when the next primary is another replica. *)
Definition sendDoViewChange (r : Replica) : Replica * option (Z * DoViewChangeArgs.t) :=
  let nextPrimaryID := nextPrimary (primaryID r) (configuration r) in
  if nextPrimaryID =? ID r then
    (set_doViewChangeCount (wrap64 (doViewChangeCount r + 1)) r, None)
  else
    (r, Some (nextPrimaryID,
              DoViewChangeArgs.mk (viewNum r) (oldViewNum r) (commitNum r)
                (opNum r) (opLog r))).

(** [primaryBlastStartView]: the arguments sent to every peer. *)
Definition primaryBlastStartView (r : Replica) : StartViewArgs.t :=
  StartViewArgs.mk (viewNum r) (opLog r) (opNum r) (ID r).

(** The local variables shared by the reply closures of one
    [blastStartViewChange] call. *)
Record StartViewChangeBlast : Type := mkStartViewChangeBlast {
  savedCurrentViewNum : Z;
  repliesReceived : Z;
  sendStartViewChangeAlready : bool
}.

Definition blastStartViewChange (r : Replica) : StartViewChangeBlast :=
  mkStartViewChangeBlast (viewNum r) 1 false.


(** The body of the reply closure of [blastStartViewChange]; the boolean
    tells whether [initiateDoViewChange] ran. *)
Definition onStartViewChangeReply (r : Replica) (b : StartViewChangeBlast)
    (reply : Ack.t) (now : Z) : Replica * StartViewChangeBlast * bool :=
  if Ack.IsReplied reply && negb (sendStartViewChangeAlready b) then
    let replies := wrap32 (repliesReceived b + 1) in
    if repliesQuorum r replies then
      (initiateDoViewChange r now,
       mkStartViewChangeBlast (savedCurrentViewNum b) replies true, true)
    else
      (r, mkStartViewChangeBlast (savedCurrentViewNum b) replies
            (sendStartViewChangeAlready b), false)
  else (r, b, false).

(** [StartView]. *)
Definition StartView (r : Replica) (args : StartViewArgs.t) (reply : Ack.t)
  : Replica * Ack.t :=
  if bool_decide (status r = Status.Dead) then (r, reply)
  else
    let reply1 := Ack.mk true (ID r) in
    let r1 := set_opLog (StartViewArgs.OpLog args) r in
    let r2 := set_opNum (StartViewArgs.OpNum args) r1 in
    let r3 := set_viewNum (StartViewArgs.ViewNum args) r2 in
    let r4 := set_primaryID (StartViewArgs.PrimaryID args) r3 in
    (set_status Status.Normal r4, reply1).

(** The first part of [DoViewChange]: counting the message and recording
    its log and commit number in the [temp] fields. *)
Definition recordDoViewChange (r : Replica) (args : DoViewChangeArgs.t) : Replica :=
  if DoViewChangeArgs.ViewNum args =? viewNum r then
    let r1 := set_doViewChangeCount (wrap64 (doViewChangeCount r + 1)) r in
    let r2 :=
      if DoViewChangeArgs.OldViewNum args >=? oldViewNum r1 then
        if DoViewChangeArgs.OpNum args >? opNum r1 then
          set_tempOpLog (DoViewChangeArgs.OpLog args)
            (set_tempOpNum (len (DoViewChangeArgs.OpLog args))
               (set_tempViewNum (DoViewChangeArgs.ViewNum args) r1))
        else r1
      else r1 in
    if DoViewChangeArgs.CommitNum args >=? commitNum r2
    then set_tempCommitNum (DoViewChangeArgs.CommitNum args) r2
    else r2
  else r.

(** The quorum test of [DoViewChange]; [/] on [int] truncates. *)
Definition doViewChangeQuorum (r : Replica) : bool :=
  (doViewChangeCount r >? wrap64 (maplen (configuration r) ÷ 2 + 1))
  && negb (bool_decide (status r = Status.StartView)).

(** The second part of [DoViewChange]: the [temp] fields become the live
    state. *)
Definition adoptDoViewChange (r : Replica) (now : Z) : Replica :=
  let r1 := set_viewNum (tempViewNum r) r in
  let r2 := set_opNum (tempOpNum r1) r1 in
  let r3 := set_opLog (tempOpLog r2) r2 in
  let r4 := set_commitNum (tempCommitNum r3) r3 in
  let r5 := set_status Status.Normal r4 in
  let r6 := set_primaryID (ID r5) r5 in
  initiateStartView r6 now.

(** [DoViewChange]; the boolean tells whether the quorum branch ran (and
    with it [initiateStartView]).  The handler never writes its reply.  On a
    [Dead] replica it returns with the mutex still held; the state is not
    touched.  The function gives the state, the reply and the flag; the
    mutex is kept by the node model, see [DoViewChange_keeps_mutex]. *)
Definition DoViewChange (r : Replica) (args : DoViewChangeArgs.t) (reply : Ack.t)
    (now : Z) : Replica * Ack.t * bool :=
  if bool_decide (status r = Status.Dead) then (r, reply, false)
  else
    let r1 := recordDoViewChange r args in
    if doViewChangeQuorum r1 then (adoptDoViewChange r1 now, reply, true)
    else (r1, reply, false).

(** [StartViewChange]. *)
Definition StartViewChange (r : Replica) (args : StartViewChangeArgs.t)
    (reply : Ack.t) (now : Z) : Replica * Ack.t :=
  if bool_decide (status r = Status.Dead) then (r, reply)
  else if StartViewChangeArgs.ViewNum args >? viewNum r then
    let reply1 := Ack.mk true (ID r) in
    let r1 := set_status Status.ViewChange r in
    let r2 := set_oldViewNum (viewNum r1) r1 in
    let r3 := set_viewNum (StartViewChangeArgs.ViewNum args) r2 in
    (set_viewChangeResetEvent now r3, reply1)
  else if StartViewChangeArgs.ViewNum args =? viewNum r then
    (r, Ack.mk true (ID r))
  else (r, reply).

(** ** Timer *)

Definition millisecond : Z := 1000000.

(** [time.Duration(150+rand.Intn(150)) * time.Millisecond] for the random
    draw [k]. *)
Definition timeoutDuration (k : Z) : Z := (150 + k mod 150) * millisecond.

(** What one iteration of the loop of [runViewChangeTimer] decides. *)
Inductive TimerAction : Type :=
| SendPeriodicCommits
| BlastStartViewChange
| SendDoViewChange
| BlastStartView
| InitiateViewChange
| KeepWaiting.

Definition timerAction (r : Replica) (now : Z) (timeout : Z) : TimerAction :=
  if bool_decide (status r = Status.Normal) && bool_decide (primaryID r = ID r)
  then SendPeriodicCommits
  else if bool_decide (status r = Status.ViewChange) then BlastStartViewChange
  else if bool_decide (status r = Status.DoViewChange) then SendDoViewChange
  else if bool_decide (status r = Status.StartView) then BlastStartView
  else if now - viewChangeResetEvent r >=? timeout then InitiateViewChange
  else KeepWaiting.

(** The replica state after one iteration of the timer loop. *)
Definition timerTick (r : Replica) (now : Z) (timeout : Z) : Replica :=
  match timerAction r now timeout with
  | SendDoViewChange => fst (sendDoViewChange r)
  | InitiateViewChange => initiateViewChange r now
  | SendPeriodicCommits | BlastStartViewChange | BlastStartView | KeepWaiting => r
  end.

(** ** One replica process as a state machine

    A node is the replica state together with what lives outside the
    [Replica] struct: the closure variables of the broadcasts in flight, the
    number of running [runViewChangeTimer] goroutines, the entries sent on
    [commitChan] so far, the accepted requests whose [Submit] has left its
    critical section and has not yet entered the one of
    [primaryBlastPrepare], and the mutex [mu].  Each event is one critical
    section.  The mutex is free between two events except after a
    [DoViewChange] on a [Dead] replica, which returns without unlocking: from
    then on every critical section waits forever. *)

Record Node : Type := mkNode {
  replica : Replica;
  prepares : list PrepareBlast;
  viewChanges : list StartViewChangeBlast;
  timers : nat;
  commitChan : list CommitEntry.t;
  pending : list clientRequest;
  mu : bool
}.

Definition with_replica (r : Replica) (n : Node) : Node :=
  mkNode r (prepares n) (viewChanges n) (timers n) (commitChan n) (pending n)
    (mu n).

(** [EvSubmit] is a [Submit] whose call of [primaryBlastPrepare] takes its
    snapshot before any other critical section runs.  [EvSubmitCall] is the
    critical section of [Submit] alone and [EvSnapshot] the first critical
    section of a [primaryBlastPrepare] that an accepted [Submit] has called:
    other events may come between the two. *)
Inductive Event : Type :=
| EvSubmit (req : clientRequest)
| EvPrepareOK (i : nat) (reply : PrepareOKReply.t)
| EvPrepare (args : PrepareArgs.t) (now : Z)
| EvCommit (args : CommitArgs.t) (now : Z)
| EvStartViewChange (args : StartViewChangeArgs.t) (now : Z)
| EvStartViewChangeReply (i : nat) (reply : Ack.t) (now : Z)
| EvDoViewChange (args : DoViewChangeArgs.t) (now : Z)
| EvStartView (args : StartViewArgs.t)
| EvTick (now : Z) (k : Z)
| EvStop
| EvSubmitCall (req : clientRequest)
| EvSnapshot (i : nat).

(** The node after the [ready] signal: one timer goroutine runs. *)
Definition startNode (id : Z) (config : gmap Z string) (now : Z) : Node :=
  mkNode (set_viewChangeResetEvent now (NewReplica id config)) [] [] 1 [] []
    false.

(** Whether [DoViewChange] returns with [r.mu] still locked: its [Dead]
    branch returns before any [Unlock]. *)
Definition DoViewChange_keeps_mutex (r : Replica) : bool :=
  bool_decide (status r = Status.Dead).

Definition stepTick (n : Node) (now : Z) (k : Z) : Node :=
  match timers n with
  | O => n
  | S t =>
    let r := replica n in
    match timerAction r now (timeoutDuration k) with
    | SendPeriodicCommits | BlastStartView =>
        mkNode r (prepares n) (viewChanges n) t (commitChan n) (pending n) (mu n)
    | BlastStartViewChange =>
        mkNode r (prepares n) (viewChanges n ++ [blastStartViewChange r]) t
          (commitChan n) (pending n) (mu n)
    | SendDoViewChange =>
        mkNode (fst (sendDoViewChange r)) (prepares n) (viewChanges n) t
          (commitChan n) (pending n) (mu n)
    | InitiateViewChange =>
        mkNode (initiateViewChange r now) (prepares n) (viewChanges n) (S t)
          (commitChan n) (pending n) (mu n)
    | KeepWaiting => n
    end
  end.

(** One critical section with the mutex free. *)
Definition stepUnlocked (n : Node) (e : Event) : Node :=
  let r := replica n in
  match e with
  | EvSubmit req =>
      match Submit r req with
      | (r', _, Some b) =>
          mkNode r' (prepares n ++ [b]) (viewChanges n) (timers n) (commitChan n)
            (pending n) (mu n)
      | (r', _, None) => with_replica r' n
      end
  | EvPrepareOK i reply =>
      match prepares n !! i with
      | Some b =>
          let '(r', b', out) := onPrepareOK r b reply in
          mkNode r' (<[i := b']> (prepares n)) (viewChanges n) (timers n)
            (commitChan n ++ out) (pending n) (mu n)
      | None => n
      end
  | EvPrepare args now => with_replica (fst (Prepare r args PrepareOKReply.zero now)) n
  | EvCommit args now => with_replica (fst (Commit r args Ack.zero now)) n
  | EvStartViewChange args now =>
      with_replica (fst (StartViewChange r args Ack.zero now)) n
  | EvStartViewChangeReply i reply now =>
      match viewChanges n !! i with
      | Some b =>
          let '(r', b', started) := onStartViewChangeReply r b reply now in
          mkNode r' (prepares n) (<[i := b']> (viewChanges n))
            (if started then S (timers n) else timers n) (commitChan n)
            (pending n) (mu n)
      | None => n
      end
  | EvDoViewChange args now =>
      let '(r', _, started) := DoViewChange r args Ack.zero now in
      mkNode r' (prepares n) (viewChanges n)
        (if started then S (timers n) else timers n) (commitChan n)
        (pending n) (DoViewChange_keeps_mutex r)
  | EvStartView args => with_replica (fst (StartView r args Ack.zero)) n
  | EvTick now k => stepTick n now k
  | EvStop => with_replica (Stop r) n
  | EvSubmitCall req =>
      match Submit r req with
      | (r', true, _) =>
          mkNode r' (prepares n) (viewChanges n) (timers n) (commitChan n)
            (pending n ++ [req]) (mu n)
      | (r', false, _) => with_replica r' n
      end
  | EvSnapshot i =>
      match pending n !! i with
      | Some req =>
          mkNode r (prepares n ++ [primaryBlastPrepare r req]) (viewChanges n)
            (timers n) (commitChan n) (delete i (pending n)) (mu n)
      | None => n
      end
  end.

(** One event: with the mutex held for ever the critical section never
    starts. *)
Definition step (n : Node) (e : Event) : Node :=
  if mu n then n else stepUnlocked n e.

Definition run (n : Node) (es : list Event) : Node := fold_left step es n.

(** The states a replica process can be in. *)
Definition reachable (id : Z) (config : gmap Z string) (n : Node) : Prop :=
  ∃ (now : Z) (es : list Event), n = run (startNode id config now) es.

(** ** The predicates of the claims *)

(** [commitNum ≤ opNum ∧ opNum = len(log)]. *)
Definition log_invariant (r : Replica) : Prop :=
  commitNum r <= opNum r ∧ opNum r = len (opLog r).

(** The broadcasts whose latch is unset. *)
Fixpoint unlatched (bs : list PrepareBlast) : nat :=
  match bs with
  | [] => O
  | b :: rest => ((if commitedAlready b then 0 else 1) + unlatched rest)%nat
  end.

(** The invariant of a node behind [log_invariant]: every accepted request
    that has not been committed, whether its broadcast is in flight or its
    snapshot is still to be taken, has its entry in the log. *)
Definition commit_budget (n : Node) : Prop :=
  opNum (replica n) = len (opLog (replica n)) ∧
  0 <= commitNum (replica n) ∧
  commitNum (replica n) + Z.of_nat (unlatched (prepares n)) + len (pending n)
    <= opNum (replica n).

(** The acceptance condition of [Submit]. *)
Definition submit_accepts (r : Replica) (req : clientRequest) : Prop :=
  status r = Status.Normal ∧ ID r = primaryID r ∧
  reqNum req > clientTableEntry.reqNum (clientTable_get r (clientID req)).

(** A configuration of three replicas, as in the scenarios. *)
Definition config3 : gmap Z string :=
  <[0 := "a0"]> (<[1 := "a1"]> (<[2 := "a2"]> ∅)).

#[global] Instance submit_accepts_dec (r : Replica) (req : clientRequest) :
  Decision (submit_accepts r req).
Proof. unfold submit_accepts. apply _. Defined.

(** The state that an accepted [Submit] leaves behind. *)
Definition submitted (r : Replica) (req : clientRequest) : Replica :=
  set_clientTable
    (<[clientID req := clientTableEntry.mk (reqNum req) (reqOp req) INil]>
       (clientTable r))
    (set_opNum (wrap64 (opNum r + 1))
       (set_opLog (opLog r ++ [mkOpLogEntry (len (opLog r)) (reqOp req)]) r)).

(** The state that an accepted [Prepare] leaves behind. *)
Definition prepared (r : Replica) (msg : clientRequest) (now : Z) : Replica :=
  set_clientTable
    (<[clientID msg := clientTableEntry.mk (reqNum msg) (reqOp msg) INil]>
       (clientTable r))
    (set_opLog (opLog r ++ [mkOpLogEntry (len (opLog r)) (reqOp msg)])
       (set_opNum (wrap64 (opNum r + 1))
          (set_viewChangeResetEvent now r))).

(** ** Concrete data of the scenarios *)

Definition req_x : clientRequest := mkClientRequest 1 1 (IStr "x").
Definition req_y : clientRequest := mkClientRequest 1 2 (IStr "y").

Definition config5 : gmap Z string :=
  <[0 := "a0"]> (<[1 := "a1"]> (<[2 := "a2"]> (<[3 := "a3"]> (<[4 := "a4"]> ∅)))).

(** The [PrepareOK] of peer [i] for operation [op] in view 0. *)
Definition ok_from (i : Z) (op : Z) : PrepareOKReply.t :=
  PrepareOKReply.mk true 0 op i Status.Normal.

Definition ack (i : Z) : Ack.t := Ack.mk true i.

Definition log_a : list opLogEntry := [mkOpLogEntry 0 (IStr "a")].
Definition log_ab : list opLogEntry :=
  [mkOpLogEntry 0 (IStr "a"); mkOpLogEntry 1 (IStr "b")].
Definition log_abc : list opLogEntry :=
  [mkOpLogEntry 0 (IStr "a"); mkOpLogEntry 1 (IStr "b"); mkOpLogEntry 2 (IStr "c")].

(** Replica 1 of three times out in view 0, collects the replies to its
    [StartViewChange] for view 1 and, being the next primary, counts itself. *)
Definition becomeNextPrimary : list Event :=
  [EvTick (300 * millisecond) 0;
   EvTick (305 * millisecond) 0;
   EvStartViewChangeReply 0 (ack 0) (310 * millisecond);
   EvStartViewChangeReply 0 (ack 2) (311 * millisecond);
   EvTick (315 * millisecond) 0].

Definition nextPrimaryNode : Node := run (startNode 1 config3 0) becomeNextPrimary.

(** Primary 0 of three after the first request is committed (S1). *)
Definition committedPrimaryNode : Node :=
  run (startNode 0 config3 0)
    [EvSubmit req_x; EvPrepareOK 0 (ok_from 1 1); EvPrepareOK 0 (ok_from 2 1)].

(** ** Hello and the heartbeat loop *)

Module HelloArgs.
Record t : Type := mk {
  ID : Z
}.
End HelloArgs.

Module HelloReply.
Record t : Type := mk {
  ID : Z
}.
Definition zero : t := mk 0.
End HelloReply.

(** [Hello]. *)
Definition Hello (r : Replica) (args : HelloArgs.t) (reply : HelloReply.t)
  : Replica * HelloReply.t :=
  if bool_decide (status r = Status.Dead) then (r, reply)
  else (r, HelloReply.mk (ID r)).

(** The test that ends the loop of [primarySendPeriodicCommits] after a
    tick. *)
Definition heartbeatStops (r : Replica) : bool :=
  negb (bool_decide (primaryID r = ID r))
  || negb (bool_decide (status r = Status.Normal)).

(** ** Runs of handlers *)

(** The requests and RPCs that reach a replica from outside, as events. *)
Definition isRequest (e : Event) : bool :=
  match e with
  | EvSubmit _ | EvSubmitCall _ | EvPrepare _ _ | EvCommit _ _
  | EvStartViewChange _ _ | EvDoViewChange _ _ | EvStartView _ => true
  | EvPrepareOK _ _ | EvStartViewChangeReply _ _ _ | EvTick _ _ | EvStop
  | EvSnapshot _ => false
  end.

Definition isDoViewChange (e : Event) : bool :=
  match e with
  | EvDoViewChange _ _ => true
  | _ => false
  end.


(** The node with its mutex locked for ever. *)
Definition lockNode (n : Node) : Node :=
  mkNode (replica n) (prepares n) (viewChanges n) (timers n) (commitChan n)
    (pending n) true.

(** The events that install a log taken from a message. *)
Definition installsLog (e : Event) : bool :=
  match e with
  | EvDoViewChange _ _ | EvStartView _ => true
  | _ => false
  end.

(** Several [Submit] calls in a row. *)
Definition submitAll (r : Replica) (reqs : list clientRequest) : Replica :=
  fold_left (λ r0 req, (Submit r0 req).1.1) reqs r.

(** Several [DoViewChange] messages in a row, each with its arrival time. *)
Definition handleDoViewChanges (r : Replica) (msgs : list (DoViewChangeArgs.t * Z))
  : Replica :=
  fold_left (λ r0 m, (DoViewChange r0 m.1 Ack.zero m.2).1.1) msgs r.

(** The replies of one [blastStartViewChange] handled one after the other
    with no other critical section in between, each with its arrival time;
    the number counts the calls of [initiateDoViewChange]. *)
Fixpoint feedStartViewChangeReplies (r : Replica) (b : StartViewChangeBlast)
    (replies : list (Ack.t * Z)) : Replica * StartViewChangeBlast * nat :=
  match replies with
  | [] => (r, b, O)
  | (reply, now) :: rest =>
      let '(r1, b1, started) := onStartViewChangeReply r b reply now in
      let '(r2, b2, k) := feedStartViewChangeReplies r1 b1 rest in
      (r2, b2, ((if started then 1 else 0) + k)%nat)
  end.

(** The calls of [initiateDoViewChange] of one broadcast when each reply
    finds the replica in a state of its own. *)
Fixpoint doViewChangeStarts (b : StartViewChangeBlast)
    (deliveries : list (Replica * Ack.t * Z)) : nat :=
  match deliveries with
  | [] => O
  | (r, reply, now) :: rest =>
      let '(_, b1, started) := onStartViewChangeReply r b reply now in
      ((if started then 1 else 0) + doViewChangeStarts b1 rest)%nat
  end.

(** The number of replies with [IsReplied = true]. *)
Definition positives (replies : list PrepareOKReply.t) : Z :=
  len (filter (λ reply, PrepareOKReply.IsReplied reply = true) replies).

Definition positiveAcks (replies : list (Ack.t * Z)) : Z :=
  len (filter (λ reply, Ack.IsReplied reply.1 = true) replies).

(** The broadcasts whose latch is set. *)
Fixpoint latched (bs : list PrepareBlast) : nat :=
  match bs with
  | [] => O
  | b :: rest => ((if commitedAlready b then 1 else 0) + latched rest)%nat
  end.

(** ** Further predicates *)

(** Every entry carries its position as [opID]. *)
Definition wellIndexed (l : list opLogEntry) : Prop :=
  ∀ (i : nat) (e : opLogEntry), l !! i = Some e → opID e = Z.of_nat i.

(** The logs that an event carries are well indexed. *)
Definition carriesWellIndexed (e : Event) : Prop :=
  match e with
  | EvDoViewChange args _ => wellIndexed (DoViewChangeArgs.OpLog args)
  | EvStartView args => wellIndexed (StartViewArgs.OpLog args)
  | _ => True
  end.

(** A [StartView] event whose [OpNum] is the length of its log. *)
Definition carriesLength (e : Event) : Prop :=
  match e with
  | EvStartView args => StartViewArgs.OpNum args = len (StartViewArgs.OpLog args)
  | _ => True
  end.

(** [opNum] is the length of the log, for the live and the recorded log. *)
Definition lengths_agree (r : Replica) : Prop :=
  opNum r = len (opLog r) ∧ tempOpNum r = len (tempOpLog r).

(** The statuses in which the timer loop waits for the primary: every status
    that none of the first four tests of the loop catches. *)
Definition awaitsPrimary (r : Replica) : Prop :=
  ¬ (status r = Status.Normal ∧ primaryID r = ID r) ∧
  status r ≠ Status.ViewChange ∧ status r ≠ Status.DoViewChange ∧
  status r ≠ Status.StartView.

(** The replica IDs of a configuration are [0 .. N-1]. *)
Definition contiguous (config : gmap Z string) : Prop :=
  ∀ k : Z, is_Some (config !! k) ↔ 0 <= k < maplen config.

(** * Properties *)

(** ** Machine arithmetic *)

Lemma wrap64_small (z : Z) : in_int z → wrap64 z = z.
Proof.
  unfold in_int, min_int, max_int, wrap64, wrap. intros Hz.
  change (64 - 1) with 63.
  rewrite Z.mod_small; lia.
Qed.

Lemma wrap32_small (z : Z) : - 2 ^ 31 <= z <= max_int32 → wrap32 z = z.
Proof.
  unfold max_int32, wrap32, wrap. intros Hz.
  change (32 - 1) with 31.
  rewrite Z.mod_small; lia.
Qed.

Lemma wrap64_in_int (z : Z) : in_int (wrap64 z).
Proof.
  unfold in_int, min_int, max_int, wrap64, wrap.
  change (64 - 1) with 63.
  pose proof (Z.mod_pos_bound (z + 2 ^ 63) (2 ^ 64) ltac:(lia)). lia.
Qed.

Lemma wrap64_succ (z : Z) : in_int z → z < max_int → wrap64 (z + 1) = z + 1.
Proof. unfold in_int. intros Hz Hlt. apply wrap64_small. unfold in_int. lia. Qed.

(** [x == y - 1] and [y == x + 1] agree on machine integers. *)
Lemma wrap64_pred_succ (x y : Z) :
  in_int x → in_int y → (x = wrap64 (y - 1) ↔ y = wrap64 (x + 1)).
Proof.
  unfold in_int, min_int, max_int, wrap64, wrap.
  change (64 - 1) with 63. intros Hx Hy.
  destruct (Z.eq_dec y (- 2 ^ 63)) as [->|Hy'].
  - change ((- 2 ^ 63 - 1 + 2 ^ 63) mod 2 ^ 64) with (2 ^ 64 - 1).
    destruct (Z.eq_dec x (2 ^ 63 - 1)) as [->|Hx'].
    + change ((2 ^ 63 - 1 + 1 + 2 ^ 63) mod 2 ^ 64) with 0. lia.
    + rewrite Z.mod_small by lia. lia.
  - rewrite (Z.mod_small (y - 1 + 2 ^ 63)) by lia.
    destruct (Z.eq_dec x (2 ^ 63 - 1)) as [->|Hx'].
    + change ((2 ^ 63 - 1 + 1 + 2 ^ 63) mod 2 ^ 64) with 0. lia.
    + rewrite Z.mod_small by lia. lia.
Qed.

Lemma len_app_one {A : Type} (l : list A) (x : A) : len (l ++ [x]) = len l + 1.
Proof. unfold len. rewrite length_app. simpl. lia. Qed.

Lemma len_nonneg {A : Type} (l : list A) : 0 <= len l.
Proof. unfold len. lia. Qed.

Lemma maplen_nonneg {V : Type} (m : gmap Z V) : 0 <= maplen m.
Proof. unfold maplen. lia. Qed.

Lemma maplen_config3 : maplen config3 = 3.
Proof. reflexivity. Qed.

(** ** Submit *)

Lemma Submit_accept (r : Replica) (req : clientRequest) :
  submit_accepts r req →
  Submit r req =
    (submitted r req, true, Some (primaryBlastPrepare (submitted r req) req)).
Proof.
  intros (Hst & Hid & Hnum). unfold Submit.
  rewrite (bool_decide_eq_true_2 _ Hid), (bool_decide_eq_true_2 _ Hst). simpl.
  destruct (Z.leb_spec (reqNum req)
              (clientTableEntry.reqNum (clientTable_get r (clientID req))));
    [lia | reflexivity].
Qed.

Lemma Submit_reject (r : Replica) (req : clientRequest) :
  ¬ submit_accepts r req → Submit r req = (r, false, None).
Proof.
  intros Hno. unfold Submit.
  case_bool_decide as Hid; simpl; [|reflexivity].
  case_bool_decide as Hst; simpl; [|reflexivity].
  destruct (Z.leb_spec (reqNum req)
              (clientTableEntry.reqNum (clientTable_get r (clientID req))));
    [reflexivity|].
  exfalso. apply Hno. unfold submit_accepts. repeat split; [done | done | lia].
Qed.

(** C3.  [Submit] returns true exactly when the replica is [Normal], is the
    primary, and the request number is above the one recorded for the client.
    An accepted request is appended to the log with its operation, [opNum]
    is incremented, the client table records the request number and the
    operation, and nothing else changes.  A rejected request returns false and
    leaves the whole replica state as it was. *)
Theorem Submit_accepts_iff_and_effects (r : Replica) (req : clientRequest) :
  ((Submit r req).1.2 = true ↔ submit_accepts r req) ∧
  (submit_accepts r req →
     let r' := (Submit r req).1.1 in
     opLog r' = opLog r ++ [mkOpLogEntry (len (opLog r)) (reqOp req)] ∧
     opNum r' = wrap64 (opNum r + 1) ∧
     (in_int (opNum r) → opNum r < max_int → opNum r' = opNum r + 1) ∧
     clientTable_get r' (clientID req) =
       clientTableEntry.mk (reqNum req) (reqOp req) INil ∧
     (∀ c, c ≠ clientID req → clientTable_get r' c = clientTable_get r c) ∧
     commitNum r' = commitNum r ∧ viewNum r' = viewNum r ∧
     status r' = status r ∧ primaryID r' = primaryID r) ∧
  ((Submit r req).1.2 = false → (Submit r req).1.1 = r).
Proof.
  destruct (decide (submit_accepts r req)) as [Hyes|Hno].
  - rewrite (Submit_accept _ _ Hyes). simpl. split; [tauto|]. split; [|done].
    intros _. repeat split.
    + intros Hin Hlt. by apply wrap64_succ.
    + unfold clientTable_get, submitted. simpl. by rewrite lookup_insert_eq.
    + intros c Hc. unfold clientTable_get, submitted. simpl.
      by rewrite lookup_insert_ne.
  - rewrite (Submit_reject _ _ Hno). simpl. split; [|split]; [|tauto|done].
    split; [done | tauto].
Qed.

Lemma Submit_accepts_iff_and_effects_witness :
  submit_accepts (NewReplica 0 config3) req_x ∧
  (Submit (NewReplica 0 config3) req_x).1.2 = true ∧
  opNum (Submit (NewReplica 0 config3) req_x).1.1 = 0 + 1 ∧
  (Submit (Stop (NewReplica 0 config3)) req_x).1.1 = Stop (NewReplica 0 config3).
Proof.
  assert (Hacc : submit_accepts (NewReplica 0 config3) req_x).
  { unfold submit_accepts. simpl. repeat split; lia. }
  destruct (Submit_accepts_iff_and_effects (NewReplica 0 config3) req_x)
    as (Hiff & Heff & _).
  destruct (Submit_accepts_iff_and_effects (Stop (NewReplica 0 config3)) req_x)
    as (_ & _ & Hrej).
  split; [exact Hacc|]. split; [by apply Hiff|]. split.
  - destruct (Heff Hacc) as (_ & _ & Hinc & _). apply Hinc.
    + unfold in_int, min_int, max_int. simpl. lia.
    + unfold max_int. simpl. lia.
  - apply Hrej. reflexivity.
Defined.

(** S2: the same request number a second time is rejected and the log stays. *)
Example Submit_duplicate :
  let r1 := (Submit (NewReplica 0 config3) req_x).1.1 in
  Submit r1 (mkClientRequest 1 1 (IStr "y")) = (r1, false, None).
Proof. reflexivity. Qed.

(** ** StartView *)

(** C10.  On a replica that is not [Dead], [StartView] overwrites [opLog],
    [opNum], [viewNum] and [primaryID] with the fields of the message, sets
    [status] to [Normal], and leaves every other field as it was, in
    particular [commitNum], [clientTable], [oldViewNum], [doViewChangeCount]
    and [viewChangeResetEvent]; this holds whatever the message contains. *)
Theorem StartView_frame (r : Replica) (args : StartViewArgs.t) (reply : Ack.t) :
  status r ≠ Status.Dead →
  let r' := (StartView r args reply).1 in
  r' = mkReplica (ID r) (oldViewNum r) (StartViewArgs.ViewNum args) (commitNum r)
         (StartViewArgs.OpNum args) (StartViewArgs.OpLog args)
         (StartViewArgs.PrimaryID args) (doViewChangeCount r) (tempViewNum r)
         (tempOpLog r) (tempOpNum r) (tempCommitNum r) Status.Normal
         (configuration r) (clientTable r) (viewChangeResetEvent r) ∧
  opLog r' = StartViewArgs.OpLog args ∧
  opNum r' = StartViewArgs.OpNum args ∧
  viewNum r' = StartViewArgs.ViewNum args ∧
  primaryID r' = StartViewArgs.PrimaryID args ∧
  status r' = Status.Normal ∧
  commitNum r' = commitNum r ∧
  clientTable r' = clientTable r ∧
  oldViewNum r' = oldViewNum r ∧
  doViewChangeCount r' = doViewChangeCount r ∧
  viewChangeResetEvent r' = viewChangeResetEvent r.
Proof.
  intros Hlive. unfold StartView.
  rewrite (bool_decide_eq_false_2 _ Hlive). simpl. repeat split.
Qed.

Lemma StartView_frame_witness :
  status (NewReplica 2 config3) ≠ Status.Dead ∧
  commitNum (StartView (NewReplica 2 config3)
               (StartViewArgs.mk 1 [mkOpLogEntry 0 (IStr "x")] 1 1) Ack.zero).1 = 0.
Proof.
  assert (Hlive : status (NewReplica 2 config3) ≠ Status.Dead) by (simpl; congruence).
  split; [exact Hlive|].
  destruct (StartView_frame (NewReplica 2 config3)
              (StartViewArgs.mk 1 [mkOpLogEntry 0 (IStr "x")] 1 1) Ack.zero Hlive)
    as (_ & _ & _ & _ & _ & _ & Hcommit & _).
  rewrite Hcommit. reflexivity.
Defined.

(** A [Dead] replica ignores the message. *)
Lemma StartView_dead (r : Replica) (args : StartViewArgs.t) (reply : Ack.t) :
  status r = Status.Dead → StartView r args reply = (r, reply).
Proof. intros Hd. unfold StartView. by rewrite (bool_decide_eq_true_2 _ Hd). Qed.

(** ** Prepare *)

Lemma Prepare_dead (r : Replica) (args : PrepareArgs.t) (reply : PrepareOKReply.t)
    (now : Z) :
  status r = Status.Dead → Prepare r args reply now = (r, reply).
Proof. intros Hd. unfold Prepare. by rewrite (bool_decide_eq_true_2 _ Hd). Qed.

Lemma Prepare_gap (r : Replica) (args : PrepareArgs.t) (reply : PrepareOKReply.t)
    (now : Z) :
  status r ≠ Status.Dead →
  PrepareArgs.ViewNum args = viewNum r →
  opNum r ≠ wrap64 (PrepareArgs.OpNum args - 1) →
  Prepare r args reply now = (set_status Status.Recovery r, reply).
Proof.
  intros Hlive Hview Hgap. unfold Prepare.
  rewrite (bool_decide_eq_false_2 _ Hlive), Hview, Z.ltb_irrefl, Z.eqb_refl.
  destruct (Z.eqb_spec (opNum r) (wrap64 (PrepareArgs.OpNum args - 1))); done.
Qed.

Lemma Prepare_next (r : Replica) (args : PrepareArgs.t) (reply : PrepareOKReply.t)
    (now : Z) :
  status r ≠ Status.Dead →
  PrepareArgs.ViewNum args = viewNum r →
  opNum r = wrap64 (PrepareArgs.OpNum args - 1) →
  Prepare r args reply now =
    (prepared r (PrepareArgs.ClientMessage args) now,
     PrepareOKReply.mk true (viewNum r) (wrap64 (opNum r + 1)) (ID r) (status r)).
Proof.
  intros Hlive Hview Hnext. unfold Prepare.
  rewrite (bool_decide_eq_false_2 _ Hlive), Hview, Z.ltb_irrefl, Z.eqb_refl.
  destruct (Z.eqb_spec (opNum r) (wrap64 (PrepareArgs.OpNum args - 1))); done.
Qed.

(** A [Prepare] of an older view changes nothing. *)
Lemma Prepare_stale (r : Replica) (args : PrepareArgs.t) (reply : PrepareOKReply.t)
    (now : Z) :
  PrepareArgs.ViewNum args < viewNum r → Prepare r args reply now = (r, reply).
Proof.
  intros Hold. unfold Prepare. case_bool_decide; [done|].
  destruct (Z.ltb_spec (viewNum r) (PrepareArgs.ViewNum args)); [lia|].
  destruct (Z.eqb_spec (viewNum r) (PrepareArgs.ViewNum args)); [lia|done].
Qed.

(** A [Prepare] of a newer view only moves the replica to [Recovery]. *)
Lemma Prepare_ahead (r : Replica) (args : PrepareArgs.t) (reply : PrepareOKReply.t)
    (now : Z) :
  status r ≠ Status.Dead → viewNum r < PrepareArgs.ViewNum args →
  Prepare r args reply now = (set_status Status.Recovery r, reply).
Proof.
  intros Hlive Hnew. unfold Prepare. rewrite (bool_decide_eq_false_2 _ Hlive).
  destruct (Z.ltb_spec (viewNum r) (PrepareArgs.ViewNum args)); [|lia]. simpl.
  destruct (Z.eqb_spec (viewNum r) (PrepareArgs.ViewNum args)); [lia|done].
Qed.





(** S5: a peer with [opNum = 2] that receives [Prepare] with [OpNum = 4]. *)
Example Prepare_gap_S5 :
  let r := set_opNum 2 (set_opLog [mkOpLogEntry 0 (IStr "a"); mkOpLogEntry 1 (IStr "b")]
                          (NewReplica 1 config3)) in
  Prepare r (PrepareArgs.mk 0 4 0 req_x) PrepareOKReply.zero 9 =
    (set_status Status.Recovery r, PrepareOKReply.zero).
Proof. reflexivity. Qed.

(** ** The reply closure of primaryBlastPrepare *)

Section PrepareOK.
Variables (r : Replica) (b : PrepareBlast) (reply : PrepareOKReply.t).

Lemma onPrepareOK_ignored :
  PrepareOKReply.IsReplied reply = false ∨ commitedAlready b = true →
  onPrepareOK r b reply = (r, b, []).
Proof.
  intros [H|H]; unfold onPrepareOK; rewrite H; [done|].
  by rewrite andb_false_r.
Qed.

Lemma onPrepareOK_below_quorum :
  PrepareOKReply.IsReplied reply = true → commitedAlready b = false →
  repliesQuorum r (wrap32 (prepareOKsReceived b + 1)) = false →
  onPrepareOK r b reply = (r, counted b false, []).
Proof.
  intros Hrep Hlatch Hq. unfold onPrepareOK. rewrite Hrep, Hlatch, Hq. done.
Qed.

Lemma onPrepareOK_at_quorum :
  PrepareOKReply.IsReplied reply = true → commitedAlready b = false →
  repliesQuorum r (wrap32 (prepareOKsReceived b + 1)) = true →
  onPrepareOK r b reply =
    (set_commitNum (wrap64 (commitNum r + 1)) r, counted b true,
     if wrap64 (commitNum r + 1) =? savedCommitNum b then []
     else [savedCommitEntry b]).
Proof.
  intros Hrep Hlatch Hq. unfold onPrepareOK. rewrite Hrep, Hlatch, Hq. simpl.
  by destruct (wrap64 (commitNum r + 1) =? savedCommitNum b).
Qed.

(** A reply sends at most one entry, and only when it sets the latch. *)
Lemma onPrepareOK_out :
  let '(_, b', out) := onPrepareOK r b reply in
  out = [] ∨ (out = [savedCommitEntry b] ∧ commitedAlready b = false ∧
              commitedAlready b' = true).
Proof.
  destruct (PrepareOKReply.IsReplied reply) eqn:Hrep;
    [|rewrite onPrepareOK_ignored; auto].
  destruct (commitedAlready b) eqn:Hlatch;
    [rewrite onPrepareOK_ignored; auto|].
  destruct (repliesQuorum r (wrap32 (prepareOKsReceived b + 1))) eqn:Hq.
  - rewrite onPrepareOK_at_quorum by done.
    destruct (wrap64 (commitNum r + 1) =? savedCommitNum b); auto.
  - rewrite onPrepareOK_below_quorum by done. auto.
Qed.

(** The saved values never change. *)
Lemma onPrepareOK_saved :
  let '(_, b', _) := onPrepareOK r b reply in
  savedCommitEntry b' = savedCommitEntry b.
Proof.
  unfold onPrepareOK.
  destruct (PrepareOKReply.IsReplied reply && negb (commitedAlready b)); [|done].
  destruct (repliesQuorum r _); [|done].
  by destruct (negb _).
Qed.
End PrepareOK.

Lemma emitted_latched (b : PrepareBlast)
    (deliveries : list (Replica * PrepareOKReply.t)) :
  commitedAlready b = true → emitted b deliveries = [].
Proof.
  intros Hlatch. induction deliveries as [|[r reply] rest IH]; [done|].
  simpl. rewrite onPrepareOK_ignored by auto. exact IH.
Qed.

Lemma emitted_at_most_once (b : PrepareBlast)
    (deliveries : list (Replica * PrepareOKReply.t)) :
  emitted b deliveries = [] ∨ emitted b deliveries = [savedCommitEntry b].
Proof.
  revert b. induction deliveries as [|[r reply] rest IH]; intros b; [by left|].
  simpl.
  pose proof (onPrepareOK_out r b reply) as Hout.
  pose proof (onPrepareOK_saved r b reply) as Hsaved.
  destruct (onPrepareOK r b reply) as [[r1 b1] out1].
  destruct Hout as [->|(-> & _ & Hlatch)].
  - simpl. rewrite <- Hsaved. apply IH.
  - right. by rewrite (emitted_latched _ _ Hlatch).
Qed.

Lemma feedReplies_latched (r : Replica) (b : PrepareBlast)
    (replies : list PrepareOKReply.t) :
  commitedAlready b = true → feedReplies r b replies = (r, b, []).
Proof.
  intros Hlatch. induction replies as [|reply rest IH]; [done|].
  simpl. rewrite onPrepareOK_ignored by auto. by rewrite IH.
Qed.

(** With no other critical section in between, the replies either leave the
    latch unset and the replica as it was, or set it, advance [commitNum] by
    one and send the saved entry. *)
Lemma feedReplies_isolated (r : Replica) (b : PrepareBlast)
    (replies : list PrepareOKReply.t) :
  in_int (commitNum r) → commitNum r < max_int →
  savedCommitNum b = commitNum r → commitedAlready b = false →
  let '(r', b', out) := feedReplies r b replies in
  (commitedAlready b' = false ∧ r' = r ∧ out = []) ∨
  (commitedAlready b' = true ∧ r' = set_commitNum (commitNum r + 1) r ∧
   out = [savedCommitEntry b]).
Proof.
  intros Hin Hlt. revert b.
  induction replies as [|reply rest IH]; intros b Hsaved Hlatch; [by left|].
  simpl.
  destruct (PrepareOKReply.IsReplied reply) eqn:Hrep.
  - destruct (repliesQuorum r (wrap32 (prepareOKsReceived b + 1))) eqn:Hq.
    + rewrite onPrepareOK_at_quorum by done.
      rewrite feedReplies_latched by done.
      rewrite wrap64_succ by done.
      destruct (Z.eqb_spec (commitNum r + 1) (savedCommitNum b)); [lia|].
      right. done.
    + rewrite onPrepareOK_below_quorum by done.
      specialize (IH (mkPrepareBlast (savedViewNum b) (savedOpNum b)
                        (savedCommitNum b) (newRequest b)
                        (wrap32 (prepareOKsReceived b + 1)) false) Hsaved eq_refl).
      destruct (feedReplies r _ rest) as [[r2 b2] out2]. exact IH.
  - rewrite onPrepareOK_ignored by auto.
    specialize (IH b Hsaved Hlatch).
    destruct (feedReplies r b rest) as [[r2 b2] out2]. exact IH.
Qed.

(** C1, as the code has it.  A [PrepareOK] with [IsReplied = true] that
    arrives while the latch [commitedAlready] is unset increments the quorum
    counter; any other reply changes nothing and sends nothing.  When the new
    count satisfies [2 * count > N + 1] the primary advances [commitNum] by
    one and sets the latch, and it sends the entry built from the values saved
    at send time unless the advanced [commitNum] equals the saved commit
    number.  Below the threshold nothing but the counter changes.  Whatever
    runs between the replies, one broadcast sends at most one entry.  When
    nothing runs between the snapshot and the replies, reaching the quorum
    advances [commitNum] by exactly one and sends exactly one entry, whose
    [CommitNum] is the commit number before the advance. *)
Theorem PrepareOK_quorum_commit :
  (∀ r b reply,
     PrepareOKReply.IsReplied reply = true → commitedAlready b = false →
     prepareOKsReceived (onPrepareOK r b reply).1.2
       = wrap32 (prepareOKsReceived b + 1)) ∧
  (∀ r b reply,
     PrepareOKReply.IsReplied reply = false ∨ commitedAlready b = true →
     onPrepareOK r b reply = (r, b, [])) ∧
  (∀ r b reply,
     PrepareOKReply.IsReplied reply = true → commitedAlready b = false →
     repliesQuorum r (wrap32 (prepareOKsReceived b + 1)) = true →
     let '(r', b', out) := onPrepareOK r b reply in
     commitNum r' = wrap64 (commitNum r + 1) ∧
     (in_int (commitNum r) → commitNum r < max_int →
        commitNum r' = commitNum r + 1) ∧
     r' = set_commitNum (commitNum r') r ∧
     commitedAlready b' = true ∧
     (commitNum r' ≠ savedCommitNum b → out = [savedCommitEntry b]) ∧
     (commitNum r' = savedCommitNum b → out = [])) ∧
  (∀ r b reply,
     PrepareOKReply.IsReplied reply = true → commitedAlready b = false →
     repliesQuorum r (wrap32 (prepareOKsReceived b + 1)) = false →
     let '(r', b', out) := onPrepareOK r b reply in
     r' = r ∧ commitedAlready b' = false ∧ out = []) ∧
  (∀ b deliveries,
     emitted b deliveries = [] ∨ emitted b deliveries = [savedCommitEntry b]) ∧
  (∀ r req replies,
     in_int (commitNum r) → commitNum r < max_int →
     let '(r', b', out) := feedReplies r (primaryBlastPrepare r req) replies in
     (commitedAlready b' = false ∧ r' = r ∧ out = []) ∨
     (commitedAlready b' = true ∧ commitNum r' = commitNum r + 1 ∧
      out = [CommitEntry.mk (viewNum r) (opNum r) (commitNum r) req INil])).
Proof.
  split; [|split; [|split; [|split; [|split]]]].
  - intros r b reply Hrep Hlatch.
    destruct (repliesQuorum r (wrap32 (prepareOKsReceived b + 1))) eqn:Hq.
    + by rewrite onPrepareOK_at_quorum.
    + by rewrite onPrepareOK_below_quorum.
  - intros r b reply H. by apply onPrepareOK_ignored.
  - intros r b reply Hrep Hlatch Hq. rewrite onPrepareOK_at_quorum by done.
    simpl. split; [done|]. split; [intros; by apply wrap64_succ|].
    split; [done|]. split; [done|].
    destruct (Z.eqb_spec (wrap64 (commitNum r + 1)) (savedCommitNum b)); done.
  - intros r b reply Hrep Hlatch Hq. by rewrite onPrepareOK_below_quorum.
  - apply emitted_at_most_once.
  - intros r req replies Hin Hlt.
    pose proof (feedReplies_isolated r (primaryBlastPrepare r req) replies
                  Hin Hlt eq_refl eq_refl) as H.
    destruct (feedReplies r (primaryBlastPrepare r req) replies) as [[r' b'] out].
    destruct H as [H|(Hlatch & -> & ->)]; [by left|]. right. done.
Qed.

(** S1 on three replicas: the two peers answer and the primary sends
    [CommitEntry{v=0, op=1, commit=0, req, nil}]. *)
Lemma PrepareOK_quorum_commit_witness :
  let r := (Submit (NewReplica 0 config3) req_x).1.1 in
  let b := primaryBlastPrepare r req_x in
  (in_int (commitNum r) ∧ commitNum r < max_int) ∧
  (feedReplies r b [ok_from 1 1] = (r, (onPrepareOK r b (ok_from 1 1)).1.2, [])) ∧
  (let '(r', b', out) := feedReplies r b [ok_from 1 1; ok_from 2 1] in
   commitNum r' = 1 ∧ out = [CommitEntry.mk 0 1 0 req_x INil]).
Proof.
  intros r b.
  assert (Hin : in_int (commitNum r)) by (vm_compute; split; discriminate).
  assert (Hlt : commitNum r < max_int) by (vm_compute; reflexivity).
  split; [done|]. split; [vm_compute; reflexivity|].
  destruct PrepareOK_quorum_commit as (_ & _ & _ & _ & _ & Hiso).
  specialize (Hiso r req_x [ok_from 1 1; ok_from 2 1] Hin Hlt).
  fold b in Hiso.
  assert (Hset : commitedAlready
                   (feedReplies r b [ok_from 1 1; ok_from 2 1]).1.2 = true)
    by (vm_compute; reflexivity).
  destruct (feedReplies r b [ok_from 1 1; ok_from 2 1]) as [[r' b'] out].
  cbn [fst snd] in Hset.
  destruct Hiso as [(Hlatch & _)|(_ & Hc & Ho)]; [congruence|].
  split; [exact Hc | exact Ho].
Defined.

(** C1 as stated has every reply with [IsReplied = true] increment the
    counter, and has one entry sent whenever the threshold is reached.  On
    five replicas the fourth positive reply finds the latch set and leaves the
    counter at 4.  On three replicas a broadcast whose saved commit number is
    1 reaches its quorum after [commitNum] was set back to 0: the advanced
    [commitNum] equals the saved one and nothing is sent for the request. *)
Lemma PrepareOK_counter_counterexample :
  (let n := run (startNode 0 config5 0)
              [EvSubmit req_x; EvPrepareOK 0 (ok_from 1 1);
               EvPrepareOK 0 (ok_from 2 1); EvPrepareOK 0 (ok_from 3 1)] in
   let b := mkPrepareBlast 0 1 0 req_x 4 true in
   prepares n = [b] ∧
   PrepareOKReply.IsReplied (ok_from 4 1) = true ∧
   prepareOKsReceived (onPrepareOK (replica n) b (ok_from 4 1)).1.2 = 4 ∧
   ¬ prepareOKsReceived (onPrepareOK (replica n) b (ok_from 4 1)).1.2
       = prepareOKsReceived b + 1) ∧
  (let n := run (startNode 0 config3 0)
              [EvSubmit req_x; EvPrepareOK 0 (ok_from 1 1);
               EvPrepareOK 0 (ok_from 2 1); EvSubmit req_y;
               EvDoViewChange (DoViewChangeArgs.mk 0 0 0 0 []) 1;
               EvDoViewChange (DoViewChangeArgs.mk 0 0 0 0 []) 1;
               EvDoViewChange (DoViewChangeArgs.mk 0 0 0 0 []) 1;
               EvPrepareOK 1 (ok_from 1 2)] in
   let b := mkPrepareBlast 0 2 1 req_y 2 false in
   prepares n !! 1%nat = Some b ∧
   commitNum (replica n) = 0 ∧
   repliesQuorum (replica n) (wrap32 (prepareOKsReceived b + 1)) = true ∧
   commitNum (onPrepareOK (replica n) b (ok_from 2 2)).1.1 = 1 ∧
   commitedAlready (onPrepareOK (replica n) b (ok_from 2 2)).1.2 = true ∧
   (onPrepareOK (replica n) b (ok_from 2 2)).2 = []).
Proof.
  split.
  - vm_compute. repeat split. discriminate.
  - vm_compute. repeat split.
Qed.

(** ** nextPrimary *)

(** Below the last replica the rotation is [(primaryID + 1) mod N]. *)
Lemma nextPrimary_below_last (primaryID : Z) (config : gmap Z string) :
  maplen config < max_int → 0 <= primaryID < maplen config - 1 →
  nextPrimary primaryID config = (primaryID + 1) mod maplen config.
Proof.
  intros Hn Hp. unfold nextPrimary, max_int in *.
  rewrite !wrap64_small by (unfold in_int, min_int, max_int; lia).
  destruct (Z.eqb_spec (primaryID + 1) (maplen config + 1)); [lia|].
  by rewrite Z.mod_small by lia.
Qed.

(** The reset to 0 happens one step late, from [primaryID = N]. *)
Lemma nextPrimary_from_N (config : gmap Z string) :
  nextPrimary (maplen config) config = 0.
Proof. unfold nextPrimary. by rewrite Z.eqb_refl. Qed.

(** C8 fails on the code: from the last replica [N - 1] the function returns
    [N], which is no replica, where [(primaryID + 1) mod N] is 0. *)
Theorem nextPrimary_last_replica (config : gmap Z string) :
  0 < maplen config < max_int →
  nextPrimary (maplen config - 1) config = maplen config ∧
  (maplen config - 1 + 1) mod maplen config = 0 ∧
  nextPrimary (maplen config - 1) config
    ≠ (maplen config - 1 + 1) mod maplen config.
Proof.
  intros Hn. unfold max_int in Hn.
  assert (Hnext : nextPrimary (maplen config - 1) config = maplen config).
  { unfold nextPrimary.
    rewrite !wrap64_small by (unfold in_int, min_int, max_int; lia).
    destruct (Z.eqb_spec (maplen config - 1 + 1) (maplen config + 1)); lia. }
  assert (Hmod : (maplen config - 1 + 1) mod maplen config = 0).
  { replace (maplen config - 1 + 1) with (maplen config) by lia.
    apply Z.mod_same. lia. }
  rewrite Hnext, Hmod. repeat split. lia.
Qed.

Lemma nextPrimary_last_replica_witness :
  0 < maplen config3 < max_int ∧ nextPrimary 2 config3 = 3 ∧ (2 + 1) mod 3 = 0.
Proof.
  assert (Hn : 0 < maplen config3 < max_int) by (vm_compute; split; reflexivity).
  split; [exact Hn|].
  destruct (nextPrimary_last_replica config3 Hn) as (Hnext & Hmod & _).
  split; [exact Hnext | exact Hmod].
Defined.

(** ** Commit *)

(** C9 fails on the code for [Commit]: the handler never looks at
    [args.ViewNum], so a [Commit] of an older view refreshes
    [viewChangeResetEvent] like one of the current view. *)
Theorem Commit_stale_refreshes (r : Replica) (args : CommitArgs.t) (reply : Ack.t)
    (now : Z) :
  status r ≠ Status.Dead → CommitArgs.ViewNum args < viewNum r →
  Commit r args reply now = (set_viewChangeResetEvent now r, reply) ∧
  viewChangeResetEvent (Commit r args reply now).1 = now.
Proof.
  intros Hlive _. unfold Commit. by rewrite (bool_decide_eq_false_2 _ Hlive).
Qed.

Lemma Commit_stale_refreshes_witness :
  let r := replica (run (startNode 2 config3 0)
                      [EvStartViewChange (StartViewChangeArgs.mk 2 0) 10]) in
  let stale := CommitArgs.mk 1 0 in
  (status r ≠ Status.Dead ∧ CommitArgs.ViewNum stale < viewNum r) ∧
  viewChangeResetEvent r = 10 ∧
  viewChangeResetEvent (Commit r stale Ack.zero 500).1 = 500.
Proof.
  intros r stale.
  assert (Hlive : status r ≠ Status.Dead) by (vm_compute; discriminate).
  assert (Hold : CommitArgs.ViewNum stale < viewNum r) by (vm_compute; reflexivity).
  split; [done|]. split; [vm_compute; reflexivity|].
  exact (proj2 (Commit_stale_refreshes r stale Ack.zero 500 Hlive Hold)).
Defined.

(** The handler gives every message the same treatment. *)
Lemma Commit_ignores_args (r : Replica) (a1 a2 : CommitArgs.t) (reply : Ack.t)
    (now : Z) :
  Commit r a1 reply now = Commit r a2 reply now.
Proof. reflexivity. Qed.

(** ** DoViewChange *)

Lemma DoViewChange_dead (r : Replica) (args : DoViewChangeArgs.t) (reply : Ack.t)
    (now : Z) :
  status r = Status.Dead → DoViewChange r args reply now = (r, reply, false).
Proof. intros Hd. unfold DoViewChange. by rewrite (bool_decide_eq_true_2 _ Hd). Qed.

Lemma DoViewChange_at_quorum (r : Replica) (args : DoViewChangeArgs.t)
    (reply : Ack.t) (now : Z) :
  status r ≠ Status.Dead →
  doViewChangeQuorum (recordDoViewChange r args) = true →
  DoViewChange r args reply now =
    (adoptDoViewChange (recordDoViewChange r args) now, reply, true).
Proof.
  intros Hlive Hq. unfold DoViewChange.
  by rewrite (bool_decide_eq_false_2 _ Hlive), Hq.
Qed.

Lemma DoViewChange_below_quorum (r : Replica) (args : DoViewChangeArgs.t)
    (reply : Ack.t) (now : Z) :
  status r ≠ Status.Dead →
  doViewChangeQuorum (recordDoViewChange r args) = false →
  DoViewChange r args reply now = (recordDoViewChange r args, reply, false).
Proof.
  intros Hlive Hq. unfold DoViewChange.
  by rewrite (bool_decide_eq_false_2 _ Hlive), Hq.
Qed.

(** Recording a message touches the counter and the [temp] fields only. *)
Lemma recordDoViewChange_live (r : Replica) (args : DoViewChangeArgs.t) :
  let r' := recordDoViewChange r args in
  viewNum r' = viewNum r ∧ opNum r' = opNum r ∧ opLog r' = opLog r ∧
  commitNum r' = commitNum r ∧ status r' = status r ∧
  oldViewNum r' = oldViewNum r ∧ ID r' = ID r ∧ primaryID r' = primaryID r.
Proof.
  unfold recordDoViewChange.
  destruct (_ =? _); [|done].
  destruct (_ >=? oldViewNum _); [destruct (_ >? opNum _)|];
    destruct (_ >=? commitNum _); done.
Qed.

(** The log is recorded when the message beats the live [oldViewNum] and
    [opNum] of the receiver; the recorded candidate is not consulted. *)
Lemma recordDoViewChange_log (r : Replica) (args : DoViewChangeArgs.t) :
  DoViewChangeArgs.ViewNum args = viewNum r →
  tempOpLog (recordDoViewChange r args) =
    if (DoViewChangeArgs.OldViewNum args >=? oldViewNum r)
       && (DoViewChangeArgs.OpNum args >? opNum r)
    then DoViewChangeArgs.OpLog args else tempOpLog r.
Proof.
  intros Hview. unfold recordDoViewChange. rewrite Hview, Z.eqb_refl. simpl.
  destruct (_ >=? oldViewNum r); [destruct (_ >? opNum r)|];
    destruct (_ >=? commitNum _); done.
Qed.

(** The commit number is recorded when it is not below the live [commitNum]
    of the receiver; a message below it leaves the recorded value alone. *)
Lemma recordDoViewChange_commit (r : Replica) (args : DoViewChangeArgs.t) :
  DoViewChangeArgs.ViewNum args = viewNum r →
  tempCommitNum (recordDoViewChange r args) =
    if DoViewChangeArgs.CommitNum args >=? commitNum r
    then DoViewChangeArgs.CommitNum args else tempCommitNum r.
Proof.
  intros Hview. unfold recordDoViewChange. rewrite Hview, Z.eqb_refl. simpl.
  destruct (_ >=? oldViewNum r); [destruct (_ >? opNum r)|]; simpl;
    destruct (_ >=? commitNum r); done.
Qed.

Lemma recordDoViewChange_commit_below (r : Replica) (args : DoViewChangeArgs.t) :
  DoViewChangeArgs.CommitNum args < commitNum r →
  tempCommitNum (recordDoViewChange r args) = tempCommitNum r.
Proof.
  intros Hlow. unfold recordDoViewChange.
  destruct (_ =? _); [|done].
  assert (Hge : ∀ r0, commitNum r0 = commitNum r →
                  (DoViewChangeArgs.CommitNum args >=? commitNum r0) = false).
  { intros r0 ->. destruct (Z.geb_spec (DoViewChangeArgs.CommitNum args) (commitNum r));
      [lia|done]. }
  destruct (_ >=? oldViewNum _); [destruct (_ >? opNum _)|];
    by rewrite Hge.
Qed.

(** C4 fails on the code.  The next primary of view 1 (replica 1 of three,
    empty log, [oldViewNum = -1], counted once for itself) receives a
    [DoViewChange] with [OldViewNum = 0], [OpNum = 3], [CommitNum = 2] and log
    [a,b,c], then one with [OldViewNum = -1], [OpNum = 1], [CommitNum = 1] and
    log [a].  The second message completes the quorum, and the handler adopts
    the log and the commit number of the second message, the last one that
    beat the receiver's own state; the message with the largest [OldViewNum],
    the longest log and the largest commit number is the first. *)
Theorem DoViewChange_adopts_last_message :
  let first := DoViewChangeArgs.mk 1 0 2 3 log_abc in
  let second := DoViewChangeArgs.mk 1 (-1) 1 1 log_a in
  let r0 := replica nextPrimaryNode in
  let r1 := (DoViewChange r0 first Ack.zero (320 * millisecond)).1.1 in
  let r2 := (DoViewChange r1 second Ack.zero (321 * millisecond)).1.1 in
  (status r0 = Status.DoViewChange ∧ ID r0 = 1 ∧ viewNum r0 = 1 ∧
   oldViewNum r0 = -1 ∧ opNum r0 = 0 ∧ commitNum r0 = 0 ∧
   doViewChangeCount r0 = 1) ∧
  (doViewChangeCount r1 = 2 ∧ doViewChangeQuorum r1 = false ∧
   tempOpLog r1 = log_abc ∧ tempCommitNum r1 = 2) ∧
  (doViewChangeCount r2 = 3 ∧
   doViewChangeQuorum (recordDoViewChange r1 second) = true ∧
   opLog r2 = log_a ∧ opNum r2 = 1 ∧ commitNum r2 = 1 ∧
   primaryID r2 = 1 ∧ status r2 = Status.StartView) ∧
  opLog r2 ≠ log_abc ∧ commitNum r2 ≠ 2.
Proof. vm_compute. repeat split; discriminate. Qed.

(** S4 itself goes through when the quorum is reached: the receiver holds
    [a,b], the message of replica 2 carries [a,b,c], and a third message with
    a log no longer than the receiver's completes the count. *)
Example DoViewChange_S4 :
  let r0 := set_opNum 2 (set_opLog log_ab (replica nextPrimaryNode)) in
  let r1 := (DoViewChange r0 (DoViewChangeArgs.mk 1 0 0 3 log_abc) Ack.zero 1).1.1 in
  let r2 := (DoViewChange r1 (DoViewChangeArgs.mk 1 0 0 2 log_ab) Ack.zero 2).1.1 in
  opLog r1 = log_ab ∧ tempOpLog r1 = log_abc ∧
  opLog r2 = log_abc ∧ opNum r2 = 3 ∧ status r2 = Status.StartView.
Proof. vm_compute. repeat split. Qed.

(** ** viewNum and commitNum over the steps *)

(** C5 fails on the code: [StartView] installs the view number of the
    message without comparing it with the replica's own, so a message of an
    older view lowers [viewNum]. *)
Theorem StartView_lowers_viewNum (r : Replica) (args : StartViewArgs.t)
    (reply : Ack.t) :
  status r ≠ Status.Dead → StartViewArgs.ViewNum args < viewNum r →
  viewNum (StartView r args reply).1 = StartViewArgs.ViewNum args ∧
  viewNum (StartView r args reply).1 < viewNum r.
Proof.
  intros Hlive Hold. unfold StartView.
  rewrite (bool_decide_eq_false_2 _ Hlive). simpl. done.
Qed.

Lemma StartView_lowers_viewNum_witness :
  let n := run (startNode 2 config3 0)
             [EvStartViewChange (StartViewChangeArgs.mk 2 0) 10] in
  let late := StartViewArgs.mk 1 [] 0 1 in
  (status (replica n) ≠ Status.Dead ∧ StartViewArgs.ViewNum late < viewNum (replica n)) ∧
  viewNum (replica n) = 2 ∧
  viewNum (replica (step n (EvStartView late))) < 2.
Proof.
  intros n late.
  assert (Hlive : status (replica n) ≠ Status.Dead) by (vm_compute; discriminate).
  assert (Hold : StartViewArgs.ViewNum late < viewNum (replica n))
    by (vm_compute; reflexivity).
  assert (Hview : viewNum (replica n) = 2) by (vm_compute; reflexivity).
  split; [done|]. split; [exact Hview|].
  rewrite <- Hview.
  exact (proj2 (StartView_lowers_viewNum (replica n) late Ack.zero Hlive Hold)).
Defined.

(** The view also falls back when a new primary completes its quorum with
    messages whose logs are no longer than its own: [tempViewNum] still holds
    its zero value.  Replica 1 is in view 1 and ends in view 0. *)
Example DoViewChange_lowers_viewNum :
  let m := DoViewChangeArgs.mk 1 0 0 0 [] in
  let n := run nextPrimaryNode
             [EvDoViewChange m (320 * millisecond);
              EvDoViewChange m (321 * millisecond)] in
  viewNum (replica nextPrimaryNode) = 1 ∧ viewNum (replica n) = 0.
Proof. vm_compute. done. Qed.

(** The other steps keep [viewNum] or raise it. *)
Lemma viewNum_monotone_elsewhere (r : Replica) :
  (∀ req, viewNum (Submit r req).1.1 = viewNum r) ∧
  (∀ b reply, viewNum (onPrepareOK r b reply).1.1 = viewNum r) ∧
  (∀ args reply now, viewNum (Prepare r args reply now).1 = viewNum r) ∧
  (∀ args reply now, viewNum (Commit r args reply now).1 = viewNum r) ∧
  (∀ args reply now, viewNum r <= viewNum (StartViewChange r args reply now).1) ∧
  (∀ b reply now, viewNum (onStartViewChangeReply r b reply now).1.1 = viewNum r) ∧
  (∀ now timeout, in_int (viewNum r) → viewNum r < max_int →
     viewNum r <= viewNum (timerTick r now timeout)) ∧
  viewNum (Stop r) = viewNum r.
Proof.
  repeat split.
  - intros req. unfold Submit. repeat case_match; done.
  - intros b reply. unfold onPrepareOK. repeat case_match; done.
  - intros args reply now. unfold Prepare. repeat case_match; done.
  - intros args reply now. unfold Commit. case_match; done.
  - intros args reply now. unfold StartViewChange.
    case_bool_decide; [done|].
    destruct (Z.gtb_spec (StartViewChangeArgs.ViewNum args) (viewNum r)); simpl;
      [lia|]. case_match; done.
  - intros b reply now. unfold onStartViewChangeReply. repeat case_match; done.
  - intros now timeout Hin Hlt. unfold timerTick, sendDoViewChange.
    destruct (timerAction r now timeout); try done.
    + case_match; done.
    + simpl. rewrite wrap64_succ by done. lia.
Qed.

(** C6 fails on the code: at its quorum [DoViewChange] installs
    [tempCommitNum], and a message whose commit number is below the live
    [commitNum] leaves [tempCommitNum] at its older value. *)
Theorem DoViewChange_lowers_commitNum (r : Replica) (args : DoViewChangeArgs.t)
    (reply : Ack.t) (now : Z) :
  status r ≠ Status.Dead →
  doViewChangeQuorum (recordDoViewChange r args) = true →
  DoViewChangeArgs.CommitNum args < commitNum r →
  tempCommitNum r < commitNum r →
  commitNum (DoViewChange r args reply now).1.1 = tempCommitNum r ∧
  commitNum (DoViewChange r args reply now).1.1 < commitNum r.
Proof.
  intros Hlive Hq Hlow Htemp.
  rewrite DoViewChange_at_quorum by done. simpl.
  rewrite recordDoViewChange_commit_below by done. done.
Qed.

Lemma DoViewChange_lowers_commitNum_witness :
  let m := DoViewChangeArgs.mk 0 (-1) 0 1 [mkOpLogEntry 0 (IStr "x")] in
  let n := run committedPrimaryNode [EvDoViewChange m 1; EvDoViewChange m 2] in
  (status (replica n) ≠ Status.Dead ∧
   doViewChangeQuorum (recordDoViewChange (replica n) m) = true ∧
   DoViewChangeArgs.CommitNum m < commitNum (replica n) ∧
   tempCommitNum (replica n) < commitNum (replica n)) ∧
  commitNum (replica n) = 1 ∧
  commitNum (DoViewChange (replica n) m Ack.zero 3).1.1 = 0.
Proof.
  intros m n.
  assert (Hlive : status (replica n) ≠ Status.Dead) by (vm_compute; discriminate).
  assert (Hq : doViewChangeQuorum (recordDoViewChange (replica n) m) = true)
    by (vm_compute; reflexivity).
  assert (Hlow : DoViewChangeArgs.CommitNum m < commitNum (replica n))
    by (vm_compute; reflexivity).
  assert (Htemp : tempCommitNum (replica n) < commitNum (replica n))
    by (vm_compute; reflexivity).
  split; [exact (conj Hlive (conj Hq (conj Hlow Htemp)))|].
  split; [vm_compute; reflexivity|].
  refine (eq_trans (proj1 (DoViewChange_lowers_commitNum (replica n) m Ack.zero 3
                             Hlive Hq Hlow Htemp)) _).
  vm_compute. reflexivity.
Defined.

(** The reply closure of [primaryBlastPrepare] is the only other place that
    writes [commitNum], and it adds one. *)
Lemma commitNum_monotone_elsewhere (r : Replica) :
  (∀ req, commitNum (Submit r req).1.1 = commitNum r) ∧
  (∀ b reply, in_int (commitNum r) → commitNum r < max_int →
     commitNum r <= commitNum (onPrepareOK r b reply).1.1) ∧
  (∀ args reply now, commitNum (Prepare r args reply now).1 = commitNum r) ∧
  (∀ args reply now, commitNum (Commit r args reply now).1 = commitNum r) ∧
  (∀ args reply now, commitNum (StartViewChange r args reply now).1 = commitNum r) ∧
  (∀ b reply now, commitNum (onStartViewChangeReply r b reply now).1.1 = commitNum r) ∧
  (∀ args reply, commitNum (StartView r args reply).1 = commitNum r) ∧
  (∀ now timeout, commitNum (timerTick r now timeout) = commitNum r) ∧
  commitNum (Stop r) = commitNum r.
Proof.
  repeat split.
  - intros req. unfold Submit. repeat case_match; done.
  - intros b reply Hin Hlt. unfold onPrepareOK.
    repeat case_match; simpl; try lia; rewrite wrap64_succ by done; lia.
  - intros args reply now. unfold Prepare. repeat case_match; done.
  - intros args reply now. unfold Commit. case_match; done.
  - intros args reply now. unfold StartViewChange. repeat case_match; done.
  - intros b reply now. unfold onStartViewChangeReply. repeat case_match; done.
  - intros args reply. unfold StartView. case_match; done.
  - intros now timeout. unfold timerTick, sendDoViewChange.
    repeat case_match; done.
Qed.

(** ** The log invariant *)

Lemma log_invariant_initial (id : Z) (config : gmap Z string) :
  log_invariant (NewReplica id config).
Proof. unfold log_invariant. simpl. split; [lia|reflexivity]. Qed.

(** Appending one entry and incrementing [opNum] keeps the invariant as long
    as the incremented [opNum] fits an [int]. *)
Lemma log_invariant_append (r : Replica) (e : opLogEntry) :
  log_invariant r → len (opLog r) < max_int →
  commitNum r <= wrap64 (opNum r + 1) ∧
  wrap64 (opNum r + 1) = len (opLog r ++ [e]).
Proof.
  intros [Hc Hlen] Hmax.
  pose proof (len_nonneg (opLog r)) as Hpos.
  assert (Hin : in_int (opNum r)).
  { unfold in_int, min_int, max_int in *. lia. }
  rewrite wrap64_succ by (done || lia). rewrite len_app_one. lia.
Qed.

Lemma Submit_log_invariant (r : Replica) (req : clientRequest) :
  log_invariant r → len (opLog r) < max_int → log_invariant (Submit r req).1.1.
Proof.
  intros Hinv Hmax.
  destruct (decide (submit_accepts r req)) as [Hyes|Hno].
  - rewrite Submit_accept by done. unfold log_invariant, submitted. simpl.
    by apply log_invariant_append.
  - by rewrite Submit_reject.
Qed.

Lemma Prepare_log_invariant (r : Replica) (args : PrepareArgs.t)
    (reply : PrepareOKReply.t) (now : Z) :
  log_invariant r → len (opLog r) < max_int →
  log_invariant (Prepare r args reply now).1.
Proof.
  intros Hinv Hmax.
  destruct (decide (status r = Status.Dead)) as [Hd|Hlive].
  { by rewrite Prepare_dead. }
  destruct (Z.lt_total (PrepareArgs.ViewNum args) (viewNum r)) as [Hlt|[Heq|Hgt]].
  - by rewrite Prepare_stale.
  - destruct (decide (opNum r = wrap64 (PrepareArgs.OpNum args - 1))) as [Hnext|Hgap].
    + rewrite Prepare_next by done. unfold log_invariant, prepared. simpl.
      by apply log_invariant_append.
    + by rewrite Prepare_gap.
  - by rewrite Prepare_ahead.
Qed.

Lemma Commit_log_invariant (r : Replica) (args : CommitArgs.t) (reply : Ack.t)
    (now : Z) :
  log_invariant r → log_invariant (Commit r args reply now).1.
Proof. intros Hinv. unfold Commit. by case_match. Qed.

Lemma StartViewChange_log_invariant (r : Replica) (args : StartViewChangeArgs.t)
    (reply : Ack.t) (now : Z) :
  log_invariant r → log_invariant (StartViewChange r args reply now).1.
Proof. intros Hinv. unfold StartViewChange. by repeat case_match. Qed.

Lemma onStartViewChangeReply_log_invariant (r : Replica)
    (b : StartViewChangeBlast) (reply : Ack.t) (now : Z) :
  log_invariant r → log_invariant (onStartViewChangeReply r b reply now).1.1.
Proof. intros Hinv. unfold onStartViewChangeReply. by repeat case_match. Qed.

Lemma timerTick_log_invariant (r : Replica) (now timeout : Z) :
  log_invariant r → log_invariant (timerTick r now timeout).
Proof.
  intros Hinv. unfold timerTick, sendDoViewChange.
  destruct (timerAction r now timeout); try done. by case_match.
Qed.

(** [StartView] installs the log and the operation number of the message and
    keeps the commit number of the replica. *)
Lemma StartView_log_invariant (r : Replica) (args : StartViewArgs.t) (reply : Ack.t) :
  status r ≠ Status.Dead →
  (log_invariant (StartView r args reply).1 ↔
   commitNum r <= StartViewArgs.OpNum args ∧
   StartViewArgs.OpNum args = len (StartViewArgs.OpLog args)).
Proof.
  intros Hlive. unfold StartView, log_invariant.
  by rewrite (bool_decide_eq_false_2 _ Hlive).
Qed.

Lemma step_unlocked (n : Node) (e : Event) :
  mu n = false → step n e = stepUnlocked n e.
Proof. intros H. unfold step. by rewrite H. Qed.

Lemma step_locked (n : Node) (e : Event) : mu n = true → step n e = n.
Proof. intros H. unfold step. by rewrite H. Qed.

Lemma run_app (n : Node) (es1 es2 : list Event) :
  run n (es1 ++ es2) = run (run n es1) es2.
Proof. unfold run. apply fold_left_app. Qed.

Lemma run_cons (n : Node) (e : Event) (es : list Event) :
  run n (e :: es) = run (step n e) es.
Proof. reflexivity. Qed.

Lemma len_cons {A : Type} (x : A) (l : list A) : len (x :: l) = 1 + len l.
Proof. unfold len. simpl. lia. Qed.

Lemma unlatched_app (bs1 bs2 : list PrepareBlast) :
  unlatched (bs1 ++ bs2) = (unlatched bs1 + unlatched bs2)%nat.
Proof. induction bs1 as [|b bs1 IH]; simpl; [done|]. rewrite IH. lia. Qed.

Lemma unlatched_insert (bs : list PrepareBlast) (i : nat) (b b' : PrepareBlast) :
  bs !! i = Some b →
  (unlatched (<[i := b']> bs) + (if commitedAlready b then 0 else 1)
   = unlatched bs + (if commitedAlready b' then 0 else 1))%nat.
Proof.
  revert i. induction bs as [|b0 bs IH]; intros i Hi; [done|].
  destruct i as [|i]; simpl in *.
  - simplify_eq. lia.
  - specialize (IH i Hi). lia.
Qed.

Lemma len_delete {A : Type} (l : list A) (i : nat) (x : A) :
  l !! i = Some x → len (delete i l) = len l - 1.
Proof.
  intros Hi. unfold len. rewrite length_delete by eauto.
  apply lookup_lt_Some in Hi. lia.
Qed.

(** One step that installs no log keeps the budget and lengthens the log by
    at most one entry. *)
Lemma step_commit_budget (n : Node) (e : Event) :
  commit_budget n → len (opLog (replica n)) < max_int → installsLog e = false →
  commit_budget (step n e) ∧
  len (opLog (replica (step n e))) <= len (opLog (replica n)) + 1.
Proof.
  intros (Hlen & Hc0 & Hbudget) Hmax He.
  pose proof (len_nonneg (opLog (replica n))) as Hlog0.
  pose proof (len_nonneg (pending n)) as Hpend0.
  assert (Hop : in_int (opNum (replica n)))
    by (unfold in_int, min_int, max_int in *; lia).
  assert (Hsucc : wrap64 (opNum (replica n) + 1) = opNum (replica n) + 1)
    by (apply wrap64_succ; [done|lia]).
  unfold step. destruct (mu n) eqn:Hmu.
  { split; [done|lia]. }
  unfold commit_budget.
  destruct e; try discriminate He; simpl.
  - (* Submit with its snapshot *)
    destruct (decide (submit_accepts (replica n) req)) as [Hyes|Hno].
    + rewrite Submit_accept by done. simpl.
      rewrite Hsucc, len_app_one, unlatched_app. simpl. lia.
    + rewrite Submit_reject by done. simpl. lia.
  - (* PrepareOK *)
    destruct (prepares n !! i) as [b|] eqn:Hi; [|simpl; lia].
    pose proof (unlatched_insert (prepares n) i b) as Hins.
    destruct (PrepareOKReply.IsReplied reply) eqn:Hrep;
      [destruct (commitedAlready b) eqn:Hlatch|].
    + rewrite onPrepareOK_ignored by auto. simpl.
      specialize (Hins b Hi). rewrite Hlatch in Hins. lia.
    + destruct (repliesQuorum (replica n) (wrap32 (prepareOKsReceived b + 1))) eqn:Hq.
      * rewrite onPrepareOK_at_quorum by done.
        specialize (Hins (counted b true) Hi). simpl in Hins.
        assert (Hcs : wrap64 (commitNum (replica n) + 1) = commitNum (replica n) + 1).
        { apply wrap64_succ; unfold in_int, min_int, max_int in *; lia. }
        destruct (_ =? _); simpl; rewrite Hcs; lia.
      * rewrite onPrepareOK_below_quorum by done. simpl.
        specialize (Hins (counted b false) Hi). simpl in Hins. lia.
    + rewrite onPrepareOK_ignored by auto. simpl.
      specialize (Hins b Hi). destruct (commitedAlready b); lia.
  - (* Prepare *)
    destruct (decide (status (replica n) = Status.Dead)) as [Hd|Hlive].
    { rewrite Prepare_dead by done. simpl. lia. }
    destruct (Z.lt_total (PrepareArgs.ViewNum args) (viewNum (replica n)))
      as [Hlt|[Heq|Hgt]].
    + rewrite Prepare_stale by done. simpl. lia.
    + destruct (decide (opNum (replica n) = wrap64 (PrepareArgs.OpNum args - 1)))
        as [Hnext|Hgap].
      * rewrite Prepare_next by done. unfold prepared. simpl.
        rewrite Hsucc, len_app_one. lia.
      * rewrite Prepare_gap by done. simpl. lia.
    + rewrite Prepare_ahead by done. simpl. lia.
  - (* Commit *)
    unfold Commit. case_match; simpl; lia.
  - (* StartViewChange *)
    unfold StartViewChange. repeat case_match; simpl; lia.
  - (* reply to StartViewChange *)
    destruct (viewChanges n !! i) as [b|]; [|simpl; lia].
    unfold onStartViewChangeReply. repeat case_match; simplify_eq; simpl; lia.
  - (* timer *)
    unfold stepTick, sendDoViewChange. repeat case_match; simplify_eq; simpl; lia.
  - (* Stop *)
    lia.
  - (* Submit alone *)
    destruct (decide (submit_accepts (replica n) req)) as [Hyes|Hno].
    + rewrite Submit_accept by done. simpl.
      rewrite Hsucc, len_app_one. unfold len at 2. rewrite length_app. simpl.
      unfold len in *. lia.
    + rewrite Submit_reject by done. simpl. lia.
  - (* snapshot *)
    destruct (pending n !! i) as [req|] eqn:Hi; [|simpl; lia].
    simpl. rewrite unlatched_app, (len_delete _ _ _ Hi). simpl. lia.
Qed.

Lemma commit_budget_log_invariant (n : Node) :
  commit_budget n → log_invariant (replica n).
Proof.
  intros (Hlen & Hc0 & Hbudget). pose proof (len_nonneg (pending n)).
  split; [lia|done].
Qed.

Lemma run_commit_budget (n : Node) (es : list Event) :
  commit_budget n → len (opLog (replica n)) + len es <= max_int →
  forallb (λ e, negb (installsLog e)) es = true →
  commit_budget (run n es).
Proof.
  revert n. induction es as [|e es IH]; intros n Hn Hmax Hes; [done|].
  rewrite len_cons in Hmax. pose proof (len_nonneg es).
  simpl in Hes. apply andb_prop in Hes as [He Hes].
  apply negb_true_iff in He.
  destruct (step_commit_budget n e Hn ltac:(lia) He) as [Hn' Hlen'].
  rewrite run_cons. apply IH; [done|lia|done].
Qed.

(** From a state with the invariant and an operation still to commit, the
    reply closure of [primaryBlastPrepare] keeps the invariant. *)
Lemma onPrepareOK_log_invariant (r : Replica) (b : PrepareBlast)
    (reply : PrepareOKReply.t) :
  log_invariant r → len (opLog r) < max_int → in_int (commitNum r) →
  commitNum r < opNum r → log_invariant (onPrepareOK r b reply).1.1.
Proof.
  intros [Hc Hlen] Hmax Hin Hlt. unfold onPrepareOK.
  assert (Hcs : wrap64 (commitNum r + 1) = commitNum r + 1)
    by (apply wrap64_succ; [done|lia]).
  repeat case_match; simpl; unfold log_invariant; simpl; rewrite ?Hcs;
    split; (done || lia).
Qed.

(** C7, as the code has it.  The predicate [commitNum ≤ opNum] and
    [opNum = len(log)] holds in the initial state and in every state that a
    replica process reaches from it by steps other than [DoViewChange] and
    [StartView]: [Submit] (with the snapshot of its broadcast taken at once
    or later), [Prepare], [Commit], [StartViewChange], the reply closures of
    both broadcasts, the timer transitions and [Stop], with every message and
    in every order, over fewer than [2^63 - 1] steps.  From any state with
    the predicate and a log of fewer than [2^63 - 1] entries, each of
    [Submit], [Prepare], [Commit], [StartViewChange], the reply closure of
    [blastStartViewChange] and the timer transitions keeps it, and the reply
    closure of [primaryBlastPrepare] keeps it when [commitNum < opNum].
    [StartView] on a live replica yields a state that satisfies it exactly
    when the message has [OpNum = len(OpLog)] and the replica's [commitNum]
    is at most that number. *)
Theorem log_invariant_preserved :
  (∀ id config, log_invariant (NewReplica id config)) ∧
  (∀ id config now (es : list Event),
     forallb (λ e, negb (installsLog e)) es = true → len es < max_int →
     log_invariant (replica (run (startNode id config now) es))) ∧
  (∀ r, log_invariant r → len (opLog r) < max_int →
     (∀ req, log_invariant (Submit r req).1.1) ∧
     (∀ args reply now, log_invariant (Prepare r args reply now).1) ∧
     (∀ args reply now, log_invariant (Commit r args reply now).1) ∧
     (∀ args reply now, log_invariant (StartViewChange r args reply now).1) ∧
     (∀ b reply now, log_invariant (onStartViewChangeReply r b reply now).1.1) ∧
     (∀ b reply, in_int (commitNum r) → commitNum r < opNum r →
        log_invariant (onPrepareOK r b reply).1.1) ∧
     (∀ now timeout, log_invariant (timerTick r now timeout)) ∧
     (∀ now, log_invariant (initiateViewChange r now)) ∧
     (∀ now, log_invariant (initiateDoViewChange r now)) ∧
     (∀ now, log_invariant (initiateStartView r now)) ∧
     log_invariant (sendDoViewChange r).1 ∧
     log_invariant (Stop r)) ∧
  (∀ r args reply, status r ≠ Status.Dead →
     (log_invariant (StartView r args reply).1 ↔
      commitNum r <= StartViewArgs.OpNum args ∧
      StartViewArgs.OpNum args = len (StartViewArgs.OpLog args))).
Proof.
  split; [exact log_invariant_initial|].
  split; [|split; [|exact StartView_log_invariant]].
  - intros id config now es Hes Hlen.
    apply commit_budget_log_invariant, run_commit_budget;
      [|unfold len in *; simpl; lia|done].
    unfold commit_budget, len. simpl. repeat split; lia.
  - intros r Hinv Hmax.
    split; [intros; by apply Submit_log_invariant|].
    split; [intros; by apply Prepare_log_invariant|].
    split; [intros; by apply Commit_log_invariant|].
    split; [intros; by apply StartViewChange_log_invariant|].
    split; [intros; by apply onStartViewChangeReply_log_invariant|].
    split; [intros; by apply onPrepareOK_log_invariant|].
    split; [intros; by apply timerTick_log_invariant|].
    split; [intros; exact Hinv|].
    split; [intros; exact Hinv|].
    split; [intros; exact Hinv|].
    split; [|exact Hinv].
    unfold sendDoViewChange. case_match; exact Hinv.
Qed.

Lemma log_invariant_preserved_witness :
  let es := [EvSubmit req_x; EvSubmitCall req_y; EvPrepareOK 0 (ok_from 1 1);
             EvSnapshot 0; EvPrepareOK 0 (ok_from 2 1);
             EvPrepareOK 1 (ok_from 1 2); EvPrepareOK 1 (ok_from 2 2)] in
  let n := run (startNode 0 config3 0) es in
  (forallb (λ e, negb (installsLog e)) es = true ∧ len es < max_int) ∧
  log_invariant (replica n) ∧
  (commitNum (replica n) = 2 ∧ opNum (replica n) = 2) ∧
  (status (replica n) ≠ Status.Dead ∧
   log_invariant (StartView (replica n) (StartViewArgs.mk 1 log_ab 2 1) Ack.zero).1).
Proof.
  intros es n.
  destruct log_invariant_preserved as (_ & Hrun & _ & Hsv).
  assert (Hes : forallb (λ e, negb (installsLog e)) es = true) by reflexivity.
  assert (Hlen : len es < max_int) by (vm_compute; reflexivity).
  assert (Hlive : status (replica n) ≠ Status.Dead) by (vm_compute; discriminate).
  split; [exact (conj Hes Hlen)|].
  split; [exact (Hrun 0 config3 0 es Hes Hlen)|].
  split; [vm_compute; split; reflexivity|].
  split; [exact Hlive|].
  apply (Hsv (replica n) (StartViewArgs.mk 1 log_ab 2 1) Ack.zero Hlive).
  vm_compute. split; [discriminate | reflexivity].
Defined.

(** C7 as stated covers [StartView] and [DoViewChange] with every message.
    [StartView] installs what the message says: with [OpNum = 5] and an
    empty log the replica ends with [opNum = 5] and no entry.  [DoViewChange]
    at its quorum installs the recorded log and the recorded commit number:
    replica 1 holds [x], the messages carry logs no longer than its own, one
    of them carries [CommitNum = 1], and the replica ends with an empty log
    and [commitNum = 1].  A [StartView] with a well-formed message can also
    prepare a later failure: it empties the log of a primary whose broadcast
    is in flight, the predicate holds right after it, and the two replies
    that complete the quorum then raise [commitNum] to 1 over [opNum = 0]. *)
Lemma log_invariant_counterexample :
  (let r := NewReplica 2 config3 in
   let r' := (StartView r (StartViewArgs.mk 1 [] 5 1) Ack.zero).1 in
   log_invariant r ∧ opNum r' = 5 ∧ len (opLog r') = 0 ∧ ¬ log_invariant r') ∧
  (let n := run (startNode 1 config3 0)
              (EvPrepare (PrepareArgs.mk 0 1 0 req_x) 1 :: becomeNextPrimary) in
   let x := [mkOpLogEntry 0 (IStr "x")] in
   let n1 := step n (EvDoViewChange (DoViewChangeArgs.mk 1 0 0 1 x) (320 * millisecond)) in
   let n2 := step n1 (EvDoViewChange (DoViewChangeArgs.mk 1 0 1 1 x) (321 * millisecond)) in
   (log_invariant (replica n) ∧ opLog (replica n) = x) ∧
   log_invariant (replica n1) ∧
   (commitNum (replica n2) = 1 ∧ opNum (replica n2) = 0 ∧ opLog (replica n2) = []) ∧
   ¬ log_invariant (replica n2)) ∧
  (let n := run (startNode 0 config3 0)
              [EvSubmit req_x; EvStartView (StartViewArgs.mk 1 [] 0 1)] in
   let n2 := run n [EvPrepareOK 0 (ok_from 1 1); EvPrepareOK 0 (ok_from 2 1)] in
   log_invariant (replica n) ∧
   (commitNum (replica n2) = 1 ∧ opNum (replica n2) = 0) ∧
   ¬ log_invariant (replica n2)).
Proof.
  split; [|split].
  - vm_compute. repeat split; try discriminate. intros [_ H]. discriminate H.
  - vm_compute. repeat split; try discriminate. intros [H _]. by apply H.
  - vm_compute. repeat split; try discriminate. intros [H _]. by apply H.
Qed.

(** * Further properties of the handlers *)

(** ** StartViewChange *)

Lemma StartViewChange_dead (r : Replica) (args : StartViewChangeArgs.t)
    (reply : Ack.t) (now : Z) :
  status r = Status.Dead → StartViewChange r args reply now = (r, reply).
Proof. intros Hd. unfold StartViewChange. by rewrite (bool_decide_eq_true_2 _ Hd). Qed.

Lemma StartViewChange_newer (r : Replica) (args : StartViewChangeArgs.t)
    (reply : Ack.t) (now : Z) :
  status r ≠ Status.Dead → StartViewChangeArgs.ViewNum args > viewNum r →
  StartViewChange r args reply now =
    (set_viewChangeResetEvent now
       (set_viewNum (StartViewChangeArgs.ViewNum args)
          (set_oldViewNum (viewNum r) (set_status Status.ViewChange r))),
     Ack.mk true (ID r)).
Proof.
  intros Hlive Hnew. unfold StartViewChange.
  rewrite (bool_decide_eq_false_2 _ Hlive).
  destruct (Z.gtb_spec (StartViewChangeArgs.ViewNum args) (viewNum r)); [done|lia].
Qed.

Lemma StartViewChange_same (r : Replica) (args : StartViewChangeArgs.t)
    (reply : Ack.t) (now : Z) :
  status r ≠ Status.Dead → StartViewChangeArgs.ViewNum args = viewNum r →
  StartViewChange r args reply now = (r, Ack.mk true (ID r)).
Proof.
  intros Hlive Hsame. unfold StartViewChange.
  rewrite (bool_decide_eq_false_2 _ Hlive), Hsame.
  destruct (Z.gtb_spec (viewNum r) (viewNum r)); [lia|]. by rewrite Z.eqb_refl.
Qed.

Lemma StartViewChange_older (r : Replica) (args : StartViewChangeArgs.t)
    (reply : Ack.t) (now : Z) :
  StartViewChangeArgs.ViewNum args < viewNum r →
  StartViewChange r args reply now = (r, reply).
Proof.
  intros Hold. unfold StartViewChange. case_bool_decide; [done|].
  destruct (Z.gtb_spec (StartViewChangeArgs.ViewNum args) (viewNum r)); [lia|].
  destruct (Z.eqb_spec (StartViewChangeArgs.ViewNum args) (viewNum r)); [lia|done].
Qed.

(** X1.  On a live replica [StartViewChange] leaves the replica in the larger
    of its own view and the view of the message.  A newer view moves it to
    [ViewChange], records the view it leaves in [oldViewNum] (so that
    [oldViewNum < viewNum] afterwards), refreshes the timer and is
    acknowledged; the replica's own view is acknowledged with no state change;
    an older view changes nothing and is not acknowledged.  The log, [opNum],
    [commitNum] and the client table are never touched. *)
Theorem StartViewChange_joins_view (r : Replica) (args : StartViewChangeArgs.t)
    (reply : Ack.t) (now : Z) :
  status r ≠ Status.Dead →
  let r' := (StartViewChange r args reply now).1 in
  let reply' := (StartViewChange r args reply now).2 in
  viewNum r' = Z.max (viewNum r) (StartViewChangeArgs.ViewNum args) ∧
  (StartViewChangeArgs.ViewNum args > viewNum r →
     status r' = Status.ViewChange ∧ oldViewNum r' = viewNum r ∧
     oldViewNum r' < viewNum r' ∧ viewChangeResetEvent r' = now ∧
     reply' = Ack.mk true (ID r)) ∧
  (StartViewChangeArgs.ViewNum args = viewNum r →
     r' = r ∧ reply' = Ack.mk true (ID r)) ∧
  (StartViewChangeArgs.ViewNum args < viewNum r → r' = r ∧ reply' = reply) ∧
  opLog r' = opLog r ∧ opNum r' = opNum r ∧ commitNum r' = commitNum r ∧
  clientTable r' = clientTable r.
Proof.
  intros Hlive. simpl.
  destruct (Z.lt_total (StartViewChangeArgs.ViewNum args) (viewNum r))
    as [Hlt|[Heq|Hgt]].
  - rewrite StartViewChange_older by done. simpl.
    repeat split; try done; try lia.
  - rewrite StartViewChange_same by done. simpl.
    repeat split; try done; try lia.
  - rewrite StartViewChange_newer by (done || lia). simpl.
    repeat split; try done; try lia.
Qed.

Lemma StartViewChange_joins_view_witness :
  let r := NewReplica 2 config3 in
  let r' := (StartViewChange r (StartViewChangeArgs.mk 1 1) Ack.zero 7).1 in
  status r ≠ Status.Dead ∧ viewNum r' = 1 ∧ oldViewNum r' = 0.
Proof.
  intros r r'.
  assert (Hlive : status r ≠ Status.Dead) by (vm_compute; discriminate).
  split; [exact Hlive|].
  destruct (StartViewChange_joins_view r (StartViewChangeArgs.mk 1 1) Ack.zero 7 Hlive)
    as (Hmax & Hnew & _).
  split; [exact Hmax|].
  destruct Hnew as (_ & Hold & _); [vm_compute; reflexivity|]. exact Hold.
Defined.

(** X2.  A [StartViewChange] message delivered twice has the effect of one
    delivery: the second delivery finds the replica in the view of the
    message (or [Dead], or ahead) and changes nothing, whenever it arrives. *)
Theorem StartViewChange_idempotent (r : Replica) (args : StartViewChangeArgs.t)
    (reply reply2 : Ack.t) (now now2 : Z) :
  (StartViewChange (StartViewChange r args reply now).1 args reply2 now2).1
    = (StartViewChange r args reply now).1.
Proof.
  destruct (decide (status r = Status.Dead)) as [Hd|Hlive].
  { rewrite (StartViewChange_dead r) by done. simpl.
    by rewrite StartViewChange_dead. }
  destruct (Z.lt_total (StartViewChangeArgs.ViewNum args) (viewNum r))
    as [Hlt|[Heq|Hgt]].
  - rewrite (StartViewChange_older r) by done. simpl.
    by rewrite StartViewChange_older.
  - rewrite (StartViewChange_same r) by done. simpl.
    by rewrite StartViewChange_same.
  - rewrite (StartViewChange_newer r) by (done || lia). simpl.
    by rewrite StartViewChange_same.
Qed.

(** ** Replies *)

(** X3.  What a caller learns from the reply of a live replica, starting from
    the zero reply: [Prepare] sets [IsReplied] exactly for a message of the
    replica's view with the next operation number; [StartViewChange] sets it
    exactly when the view of the message is not older than the replica's;
    [StartView] always sets it; [Commit] and [DoViewChange] never write the
    reply, whatever the message and whatever they do to the state. *)
Theorem reply_contract (r : Replica) :
  status r ≠ Status.Dead →
  (∀ args now,
     PrepareOKReply.IsReplied (Prepare r args PrepareOKReply.zero now).2 = true
     ↔ PrepareArgs.ViewNum args = viewNum r ∧
       opNum r = wrap64 (PrepareArgs.OpNum args - 1)) ∧
  (∀ args now,
     Ack.IsReplied (StartViewChange r args Ack.zero now).2 = true
     ↔ StartViewChangeArgs.ViewNum args >= viewNum r) ∧
  (∀ args reply, (StartView r args reply).2 = Ack.mk true (ID r)) ∧
  (∀ args reply now, (Commit r args reply now).2 = reply) ∧
  (∀ args reply now, (DoViewChange r args reply now).1.2 = reply).
Proof.
  intros Hlive.
  split; [|split; [|split; [|split]]].
  - intros args now.
    destruct (Z.lt_total (PrepareArgs.ViewNum args) (viewNum r)) as [Hlt|[Heq|Hgt]].
    + rewrite Prepare_stale by done. simpl. split; [done|lia].
    + destruct (decide (opNum r = wrap64 (PrepareArgs.OpNum args - 1))) as [Hn|Hg].
      * rewrite Prepare_next by done. simpl. tauto.
      * rewrite Prepare_gap by done. simpl. split; [done|tauto].
    + rewrite Prepare_ahead by done. simpl. split; [done|lia].
  - intros args now.
    destruct (Z.lt_total (StartViewChangeArgs.ViewNum args) (viewNum r))
      as [Hlt|[Heq|Hgt]].
    + rewrite StartViewChange_older by done. simpl. split; [done|lia].
    + rewrite StartViewChange_same by done. simpl. split; [lia|done].
    + rewrite StartViewChange_newer by (done || lia). simpl. split; [lia|done].
  - intros args reply. unfold StartView. by rewrite (bool_decide_eq_false_2 _ Hlive).
  - intros args reply now. unfold Commit. by case_match.
  - intros args reply now. unfold DoViewChange. by repeat case_match.
Qed.

Lemma reply_contract_witness :
  let r := NewReplica 1 config3 in
  status r ≠ Status.Dead ∧
  PrepareOKReply.IsReplied
    (Prepare r (PrepareArgs.mk 0 1 0 req_x) PrepareOKReply.zero 3).2 = true ∧
  (Commit r (CommitArgs.mk 0 0) Ack.zero 3).2 = Ack.zero.
Proof.
  intros r.
  assert (Hlive : status r ≠ Status.Dead) by (vm_compute; discriminate).
  destruct (reply_contract r Hlive) as (Hprep & _ & _ & Hcommit & _).
  split; [exact Hlive|]. split.
  - apply Hprep. vm_compute. split; reflexivity.
  - apply Hcommit.
Defined.

(** ** Stop *)

Lemma with_replica_same (n : Node) : with_replica (replica n) n = n.
Proof. by destruct n. Qed.

Lemma Submit_dead (r : Replica) (req : clientRequest) :
  status r = Status.Dead → Submit r req = (r, false, None).
Proof.
  intros Hd. apply Submit_reject. intros (Hn & _). rewrite Hd in Hn. discriminate.
Qed.

Lemma Commit_dead (r : Replica) (args : CommitArgs.t) (reply : Ack.t) (now : Z) :
  status r = Status.Dead → Commit r args reply now = (r, reply).
Proof. intros Hd. unfold Commit. by rewrite (bool_decide_eq_true_2 _ Hd). Qed.

Lemma step_request_dead (n : Node) (e : Event) :
  status (replica n) = Status.Dead → mu n = false →
  isRequest e = true → isDoViewChange e = false → step n e = n.
Proof.
  intros Hd Hmu He Hdvc. rewrite step_unlocked by done.
  destruct e; try discriminate He; try discriminate Hdvc; simpl.
  - rewrite Submit_dead by done. apply with_replica_same.
  - rewrite Prepare_dead by done. apply with_replica_same.
  - rewrite Commit_dead by done. apply with_replica_same.
  - rewrite StartViewChange_dead by done. apply with_replica_same.
  - rewrite StartView_dead by done. apply with_replica_same.
  - rewrite Submit_dead by done. apply with_replica_same.
Qed.

Lemma run_locked (n : Node) (es : list Event) : mu n = true → run n es = n.
Proof.
  intros Hmu. induction es as [|e es IH]; [done|].
  rewrite run_cons, step_locked by done. exact IH.
Qed.

(** X4.  After [Stop] the replica is inert towards the outside.  [Submit]
    returns false and [Prepare], [Commit], [StartViewChange], [StartView] and
    [Hello] return with the state and the reply untouched, and so does any
    sequence of them: nothing is sent on [commitChan] and no broadcast is
    started.  [DoViewChange] leaves the state and the reply untouched as
    well, but it returns with the mutex still locked: after it no request,
    reply closure or timer tick enters its critical section any more, so the
    process state stays as it is under every sequence of events. *)
Theorem stopped_replica_ignores_requests (n : Node) :
  status (replica n) = Status.Dead → mu n = false →
  (∀ es, forallb isRequest es = true →
         forallb (λ e, negb (isDoViewChange e)) es = true → run n es = n) ∧
  (∀ req, Submit (replica n) req = (replica n, false, None)) ∧
  (∀ args reply now, Prepare (replica n) args reply now = (replica n, reply)) ∧
  (∀ args reply now, Commit (replica n) args reply now = (replica n, reply)) ∧
  (∀ args reply now, StartViewChange (replica n) args reply now = (replica n, reply)) ∧
  (∀ args reply, StartView (replica n) args reply = (replica n, reply)) ∧
  (∀ args reply, Hello (replica n) args reply = (replica n, reply)) ∧
  (∀ args reply now,
     DoViewChange (replica n) args reply now = (replica n, reply, false) ∧
     DoViewChange_keeps_mutex (replica n) = true) ∧
  (∀ args now, step n (EvDoViewChange args now) = lockNode n) ∧
  (∀ es, run (lockNode n) es = lockNode n).
Proof.
  intros Hd Hmu.
  split.
  { intros es. induction es as [|e es IH]; intros Hes Hno; [done|].
    simpl in Hes, Hno. apply andb_prop in Hes as [He Hes].
    apply andb_prop in Hno as [Hne Hno]. apply negb_true_iff in Hne.
    rewrite run_cons, step_request_dead by done. by apply IH. }
  split; [intros; by apply Submit_dead|].
  split; [intros; by apply Prepare_dead|].
  split; [intros; by apply Commit_dead|].
  split; [intros; by apply StartViewChange_dead|].
  split; [intros; by apply StartView_dead|].
  split; [intros; unfold Hello; by rewrite (bool_decide_eq_true_2 _ Hd)|].
  split.
  { intros. split; [by apply DoViewChange_dead|].
    unfold DoViewChange_keeps_mutex. by apply bool_decide_eq_true_2. }
  split.
  { intros args now. rewrite step_unlocked by done. simpl.
    rewrite DoViewChange_dead by done. unfold lockNode, DoViewChange_keeps_mutex.
    by rewrite (bool_decide_eq_true_2 _ Hd). }
  intros es. by apply run_locked.
Qed.

Lemma stopped_replica_ignores_requests_witness :
  let n := step committedPrimaryNode EvStop in
  let es := [EvSubmit req_y; EvPrepare (PrepareArgs.mk 0 2 1 req_y) 5;
             EvStartView (StartViewArgs.mk 3 [] 0 1)] in
  let late := [EvDoViewChange (DoViewChangeArgs.mk 0 0 0 0 []) 6;
               EvTick (900 * millisecond) 0; EvSubmit req_y] in
  (status (replica n) = Status.Dead ∧ mu n = false) ∧
  (forallb isRequest es = true ∧
   forallb (λ e, negb (isDoViewChange e)) es = true) ∧
  run n es = n ∧ run n late = lockNode n.
Proof.
  intros n es late.
  assert (Hd : status (replica n) = Status.Dead) by (vm_compute; reflexivity).
  assert (Hmu : mu n = false) by (vm_compute; reflexivity).
  destruct (stopped_replica_ignores_requests n Hd Hmu)
    as (Hrun & _ & _ & _ & _ & _ & _ & _ & Hlock & Hheld).
  split; [exact (conj Hd Hmu)|]. split; [split; reflexivity|].
  split; [exact (Hrun es eq_refl eq_refl)|].
  subst late. rewrite run_cons, Hlock. apply Hheld.
Defined.

(** ** The view-change timer *)

Lemma timeoutDuration_bounds (k : Z) :
  150 * millisecond <= timeoutDuration k < 300 * millisecond.
Proof.
  unfold timeoutDuration, millisecond.
  pose proof (Z.mod_pos_bound k 150 ltac:(lia)). lia.
Qed.

Lemma timerAction_waiting (r : Replica) (now timeout : Z) :
  awaitsPrimary r →
  timerAction r now timeout =
    if now - viewChangeResetEvent r >=? timeout then InitiateViewChange
    else KeepWaiting.
Proof.
  intros (Hprim & Hvc & Hdvc & Hsv). unfold timerAction.
  rewrite (bool_decide_eq_false_2 _ Hvc), (bool_decide_eq_false_2 _ Hdvc),
    (bool_decide_eq_false_2 _ Hsv).
  repeat case_bool_decide; simpl; try done. tauto.
Qed.

Lemma timerTick_waiting_early (r : Replica) (now k : Z) :
  awaitsPrimary r → now - viewChangeResetEvent r < 150 * millisecond →
  timerTick r now (timeoutDuration k) = r.
Proof.
  intros Hw Hearly. unfold timerTick. rewrite timerAction_waiting by done.
  pose proof (timeoutDuration_bounds k).
  destruct (Z.geb_spec (now - viewChangeResetEvent r) (timeoutDuration k)); [lia|done].
Qed.

Lemma timerTick_waiting_late (r : Replica) (now k : Z) :
  awaitsPrimary r → now - viewChangeResetEvent r >= 300 * millisecond →
  timerTick r now (timeoutDuration k) = initiateViewChange r now.
Proof.
  intros Hw Hlate. unfold timerTick. rewrite timerAction_waiting by done.
  pose proof (timeoutDuration_bounds k).
  destruct (Z.geb_spec (now - viewChangeResetEvent r) (timeoutDuration k)); [done|lia].
Qed.

Lemma awaitsPrimary_dead (r : Replica) : status r = Status.Dead → awaitsPrimary r.
Proof.
  intros Hd. unfold awaitsPrimary. rewrite Hd. repeat split; try discriminate.
  intros [H _]. discriminate H.
Qed.

(** X5.  The timer loop of a replica that waits for its primary (any status
    but [ViewChange], [DoViewChange], [StartView] and [Normal] on the primary)
    never starts a view change while the last liveness evidence is less than
    150 ms old, and always starts one at a tick that finds it 300 ms old or
    older, whatever timeout was drawn; in between the drawn timeout decides.
    Starting it moves the replica to [ViewChange] in the next view with
    [doViewChangeCount = 0] and a fresh timestamp.  A [Normal] primary never
    starts a view change, however old the timestamp is. *)
Theorem timer_starts_view_change :
  (∀ (r : Replica) (now k : Z),
     awaitsPrimary r →
     (now - viewChangeResetEvent r < 150 * millisecond →
        timerTick r now (timeoutDuration k) = r) ∧
     (now - viewChangeResetEvent r >= 300 * millisecond →
        timerTick r now (timeoutDuration k) = initiateViewChange r now) ∧
     (timerTick r now (timeoutDuration k) = r ∨
      timerTick r now (timeoutDuration k) = initiateViewChange r now) ∧
     status (initiateViewChange r now) = Status.ViewChange ∧
     viewNum (initiateViewChange r now) = wrap64 (viewNum r + 1) ∧
     doViewChangeCount (initiateViewChange r now) = 0 ∧
     viewChangeResetEvent (initiateViewChange r now) = now) ∧
  (∀ (r : Replica) (now timeout : Z),
     status r = Status.Normal → primaryID r = ID r →
     timerTick r now timeout = r).
Proof.
  split.
  - intros r now k Hw.
    split; [by apply timerTick_waiting_early|].
    split; [by apply timerTick_waiting_late|].
    split; [|done].
    unfold timerTick. rewrite timerAction_waiting by done.
    destruct (_ >=? _); auto.
  - intros r now timeout Hn Hp. unfold timerTick, timerAction.
    by rewrite (bool_decide_eq_true_2 _ Hn), (bool_decide_eq_true_2 _ Hp).
Qed.

Lemma timer_starts_view_change_witness :
  let r := replica (startNode 1 config3 0) in
  awaitsPrimary r ∧
  timerTick r (100 * millisecond) (timeoutDuration 7) = r ∧
  viewNum (timerTick r (300 * millisecond) (timeoutDuration 7)) = 1 ∧
  timerTick (replica (startNode 0 config3 0)) (900 * millisecond) 5
    = replica (startNode 0 config3 0).
Proof.
  intros r.
  assert (Hw : awaitsPrimary r).
  { unfold awaitsPrimary. vm_compute. repeat split; try discriminate.
    intros [_ H]. discriminate H. }
  destruct timer_starts_view_change as [Hwait Hprim].
  destruct (Hwait r (100 * millisecond) 7 Hw) as (Hearly & _).
  destruct (Hwait r (300 * millisecond) 7 Hw) as (_ & Hlate & _).
  split; [exact Hw|]. split; [apply Hearly; vm_compute; reflexivity|]. split.
  - rewrite Hlate by (vm_compute; discriminate). vm_compute. reflexivity.
  - apply Hprim; vm_compute; reflexivity.
Defined.

(** X6.  [Stop] does not stop the timer loop.  A tick that finds a [Dead]
    replica with a timestamp 300 ms old runs [initiateViewChange]: the
    replica is in [ViewChange] in the next view, no longer [Dead], and serves
    RPCs again, for instance it installs the log of a [StartView] and becomes
    [Normal]. *)
Theorem timer_revives_stopped_replica (r : Replica) (now k : Z) :
  status r = Status.Dead → now - viewChangeResetEvent r >= 300 * millisecond →
  let r' := timerTick r now (timeoutDuration k) in
  r' = initiateViewChange r now ∧
  status r' = Status.ViewChange ∧ viewNum r' = wrap64 (viewNum r + 1) ∧
  (∀ args reply,
     status (StartView r' args reply).1 = Status.Normal ∧
     opLog (StartView r' args reply).1 = StartViewArgs.OpLog args).
Proof.
  intros Hd Hlate. simpl.
  rewrite timerTick_waiting_late by (done || by apply awaitsPrimary_dead).
  repeat split.
Qed.

Lemma timer_revives_stopped_replica_witness :
  let r := Stop (replica (startNode 2 config3 0)) in
  let r' := timerTick r (400 * millisecond) (timeoutDuration 0) in
  (status r = Status.Dead ∧
   400 * millisecond - viewChangeResetEvent r >= 300 * millisecond) ∧
  status r' = Status.ViewChange ∧ viewNum r' = 1.
Proof.
  intros r r'.
  assert (Hd : status r = Status.Dead) by (vm_compute; reflexivity).
  assert (Hlate : 400 * millisecond - viewChangeResetEvent r >= 300 * millisecond)
    by (vm_compute; discriminate).
  destruct (timer_revives_stopped_replica r (400 * millisecond) 0 Hd Hlate)
    as (_ & Hst & Hview & _).
  split; [exact (conj Hd Hlate)|]. split; [exact Hst|].
  refine (eq_trans Hview _). vm_compute. reflexivity.
Defined.

(** X7.  S6 on the code.  The heartbeat [Commit] that a primary sends is
    handled by a live peer by setting [viewChangeResetEvent] to the arrival
    time and nothing else: the peer's [commitNum] stays as it was whatever
    commit number the primary reports.  A waiting peer whose last heartbeat is
    less than 150 ms old does not start a view change at a tick.  The timer
    starts the heartbeat loop exactly in the states in which the loop's own
    test keeps it running. *)
Theorem heartbeat_suppresses_election :
  (∀ (r p : Replica) (reply : Ack.t) (t : Z),
     status r ≠ Status.Dead → awaitsPrimary r →
     let r' := (Commit r (primarySendCommit p) reply t).1 in
     r' = set_viewChangeResetEvent t r ∧ commitNum r' = commitNum r ∧
     (∀ now k, now - t < 150 * millisecond →
        timerTick r' now (timeoutDuration k) = r')) ∧
  (∀ (p : Replica) (now timeout : Z),
     timerAction p now timeout = SendPeriodicCommits ↔ heartbeatStops p = false).
Proof.
  split.
  - intros r p reply t Hlive Hw. simpl. unfold Commit.
    rewrite (bool_decide_eq_false_2 _ Hlive). simpl.
    split; [done|]. split; [done|].
    intros now k Hearly. by apply timerTick_waiting_early.
  - intros p now timeout. unfold timerAction, heartbeatStops.
    destruct (bool_decide (status p = Status.Normal)),
      (bool_decide (primaryID p = ID p)); simpl; [done|..];
      repeat case_match; split; discriminate.
Qed.

Lemma heartbeat_suppresses_election_witness :
  let r := replica (startNode 1 config3 0) in
  let p := replica committedPrimaryNode in
  let r' := (Commit r (primarySendCommit p) Ack.zero (250 * millisecond)).1 in
  (status r ≠ Status.Dead ∧ awaitsPrimary r) ∧
  commitNum p = 1 ∧ commitNum r' = 0 ∧
  timerTick r' (399 * millisecond) (timeoutDuration 0) = r'.
Proof.
  intros r p r'.
  assert (Hlive : status r ≠ Status.Dead) by (vm_compute; discriminate).
  assert (Hw : awaitsPrimary r).
  { unfold awaitsPrimary. vm_compute. repeat split; try discriminate.
    intros [_ H]. discriminate H. }
  destruct heartbeat_suppresses_election as [Hbeat _].
  destruct (Hbeat r p Ack.zero (250 * millisecond) Hlive Hw) as (_ & Hc & Hquiet).
  split; [exact (conj Hlive Hw)|]. split; [vm_compute; reflexivity|].
  split; [exact Hc|]. apply Hquiet. vm_compute. reflexivity.
Defined.

(** ** Quorum thresholds *)

Lemma repliesQuorum_small (r : Replica) (c : Z) :
  maplen (configuration r) < max_int → 0 <= c <= max_int32 →
  repliesQuorum r c = (c * 2 >? maplen (configuration r) + 1).
Proof.
  intros Hn Hc. unfold repliesQuorum.
  pose proof (maplen_nonneg (configuration r)).
  unfold max_int, max_int32 in *.
  rewrite !wrap64_small by (unfold in_int, min_int, max_int; lia). done.
Qed.

Lemma positives_cons (reply : PrepareOKReply.t) (rest : list PrepareOKReply.t) :
  positives (reply :: rest) =
    (if PrepareOKReply.IsReplied reply then 1 else 0) + positives rest.
Proof.
  unfold positives. rewrite filter_cons.
  destruct (PrepareOKReply.IsReplied reply); case_decide; try done.
  unfold len. simpl. lia.
Qed.

Lemma positives_nonneg (replies : list PrepareOKReply.t) : 0 <= positives replies.
Proof. unfold positives. apply len_nonneg. Qed.

(** A broadcast whose latch is unset has left the replica alone. *)
Lemma feedReplies_unlatched (r : Replica) (b : PrepareBlast)
    (replies : list PrepareOKReply.t) :
  commitedAlready (feedReplies r b replies).1.2 = false →
  (feedReplies r b replies).1.1 = r ∧ (feedReplies r b replies).2 = [].
Proof.
  revert b. induction replies as [|reply rest IH]; intros b; [done|].
  simpl.
  destruct (PrepareOKReply.IsReplied reply) eqn:Hrep;
    [destruct (commitedAlready b) eqn:Hlatch|].
  - rewrite onPrepareOK_ignored by auto. specialize (IH b).
    destruct (feedReplies r b rest) as [[r2 b2] out2]. exact IH.
  - destruct (repliesQuorum r (wrap32 (prepareOKsReceived b + 1))) eqn:Hq.
    + rewrite onPrepareOK_at_quorum by done.
      rewrite feedReplies_latched by done. simpl. discriminate.
    + rewrite onPrepareOK_below_quorum by done. specialize (IH (counted b false)).
      destruct (feedReplies r (counted b false) rest) as [[r2 b2] out2]. exact IH.
  - rewrite onPrepareOK_ignored by auto. specialize (IH b).
    destruct (feedReplies r b rest) as [[r2 b2] out2]. exact IH.
Qed.

Lemma feedReplies_threshold (r : Replica) (b : PrepareBlast)
    (replies : list PrepareOKReply.t) :
  maplen (configuration r) < max_int → commitedAlready b = false →
  1 <= prepareOKsReceived b →
  prepareOKsReceived b + len replies <= max_int32 →
  2 * prepareOKsReceived b <= maplen (configuration r) + 1 →
  commitedAlready (feedReplies r b replies).1.2 = true
  ↔ 2 * (prepareOKsReceived b + positives replies) > maplen (configuration r) + 1.
Proof.
  intros Hn. revert b.
  induction replies as [|reply rest IH]; intros b Hlatch Hc Hlen Hbelow.
  - simpl. rewrite Hlatch. unfold positives, len. simpl. split; [done|lia].
  - rewrite len_cons in Hlen. pose proof (len_nonneg rest) as Hrest.
    pose proof (positives_nonneg rest) as Hpos.
    rewrite positives_cons. simpl.
    destruct (PrepareOKReply.IsReplied reply) eqn:Hrep.
    + assert (Hw : wrap32 (prepareOKsReceived b + 1) = prepareOKsReceived b + 1).
      { apply wrap32_small. unfold max_int32 in *. lia. }
      destruct (repliesQuorum r (wrap32 (prepareOKsReceived b + 1))) eqn:Hq.
      * rewrite onPrepareOK_at_quorum by done.
        rewrite feedReplies_latched by done. simpl.
        rewrite Hw, repliesQuorum_small in Hq by (done || unfold max_int32 in *; lia).
        split; [|done]. intros _. lia.
      * rewrite onPrepareOK_below_quorum by done.
        rewrite Hw, repliesQuorum_small in Hq by (done || unfold max_int32 in *; lia).
        specialize (IH (counted b false) eq_refl). simpl in IH. rewrite Hw in IH.
        destruct (feedReplies r (counted b false) rest) as [[r2 b2] out2].
        simpl in *. rewrite IH by lia. lia.
    + rewrite onPrepareOK_ignored by auto.
      specialize (IH b Hlatch Hc ltac:(lia) Hbelow).
      destruct (feedReplies r b rest) as [[r2 b2] out2].
      simpl in *. rewrite IH. lia.
Qed.

(** X8.  The quorum of [primaryBlastPrepare] in numbers.  In a configuration
    of [N >= 1] entries, with no other critical section in between, the
    replies of one broadcast commit the request exactly when the count of the
    primary and the positive replies satisfies [2 * count > N + 1]; otherwise
    the replica is as before and nothing is sent.  For [N = 2f + 1] this asks
    for [f + 2] replicas: with only [f] positive replies, a majority together
    with the primary, the request is not committed. *)
Theorem prepare_quorum_threshold (r : Replica) (req : clientRequest)
    (replies : list PrepareOKReply.t) :
  1 <= maplen (configuration r) < max_int → 1 + len replies <= max_int32 →
  let res := feedReplies r (primaryBlastPrepare r req) replies in
  (commitedAlready res.1.2 = true
   ↔ 2 * (1 + positives replies) > maplen (configuration r) + 1) ∧
  (2 * (1 + positives replies) <= maplen (configuration r) + 1 →
   res.1.1 = r ∧ res.2 = []) ∧
  (∀ f, maplen (configuration r) = 2 * f + 1 → positives replies <= f →
   res.1.1 = r ∧ res.2 = []).
Proof.
  intros [Hn1 Hn] Hlen. simpl.
  pose proof (feedReplies_threshold r (primaryBlastPrepare r req) replies
                Hn eq_refl ltac:(simpl; lia) Hlen ltac:(simpl; lia)) as Hiff.
  simpl in Hiff.
  assert (Hno : 2 * (1 + positives replies) <= maplen (configuration r) + 1 →
                (feedReplies r (primaryBlastPrepare r req) replies).1.1 = r ∧
                (feedReplies r (primaryBlastPrepare r req) replies).2 = []).
  { intros Hle. apply feedReplies_unlatched.
    apply not_true_is_false. intros Hl. apply Hiff in Hl. lia. }
  split; [exact Hiff|]. split; [exact Hno|].
  intros f Hf Hpos. apply Hno. lia.
Qed.

Lemma prepare_quorum_threshold_witness :
  let r := (Submit (NewReplica 0 config3) req_x).1.1 in
  let one := [ok_from 1 1; PrepareOKReply.zero] in
  (1 <= maplen (configuration r) < max_int ∧ 1 + len one <= max_int32) ∧
  (maplen (configuration r) = 2 * 1 + 1 ∧ positives one <= 1) ∧
  (feedReplies r (primaryBlastPrepare r req_x) one).2 = [].
Proof.
  intros r one.
  assert (Hn : 1 <= maplen (configuration r) < max_int)
    by (vm_compute; split; [discriminate|reflexivity]).
  assert (Hlen : 1 + len one <= max_int32) by (vm_compute; discriminate).
  assert (Hf : maplen (configuration r) = 2 * 1 + 1) by (vm_compute; reflexivity).
  assert (Hpos : positives one <= 1) by (vm_compute; discriminate).
  destruct (prepare_quorum_threshold r req_x one Hn Hlen) as (_ & _ & Hmaj).
  split; [exact (conj Hn Hlen)|]. split; [exact (conj Hf Hpos)|].
  exact (proj2 (Hmaj 1 Hf Hpos)).
Defined.

(** *** The reply closure of blastStartViewChange *)

Lemma onStartViewChangeReply_ignored (r : Replica) (b : StartViewChangeBlast)
    (reply : Ack.t) (now : Z) :
  Ack.IsReplied reply = false ∨ sendStartViewChangeAlready b = true →
  onStartViewChangeReply r b reply now = (r, b, false).
Proof.
  intros [H|H]; unfold onStartViewChangeReply; rewrite H; [done|].
  by rewrite andb_false_r.
Qed.

Lemma onStartViewChangeReply_below (r : Replica) (b : StartViewChangeBlast)
    (reply : Ack.t) (now : Z) :
  Ack.IsReplied reply = true → sendStartViewChangeAlready b = false →
  repliesQuorum r (wrap32 (repliesReceived b + 1)) = false →
  onStartViewChangeReply r b reply now =
    (r, mkStartViewChangeBlast (savedCurrentViewNum b)
          (wrap32 (repliesReceived b + 1)) false, false).
Proof.
  intros Hrep Hlatch Hq. unfold onStartViewChangeReply.
  by rewrite Hrep, Hlatch, Hq.
Qed.

Lemma onStartViewChangeReply_quorum (r : Replica) (b : StartViewChangeBlast)
    (reply : Ack.t) (now : Z) :
  Ack.IsReplied reply = true → sendStartViewChangeAlready b = false →
  repliesQuorum r (wrap32 (repliesReceived b + 1)) = true →
  onStartViewChangeReply r b reply now =
    (initiateDoViewChange r now,
     mkStartViewChangeBlast (savedCurrentViewNum b)
       (wrap32 (repliesReceived b + 1)) true, true).
Proof.
  intros Hrep Hlatch Hq. unfold onStartViewChangeReply.
  by rewrite Hrep, Hlatch, Hq.
Qed.

Lemma doViewChangeStarts_latched (b : StartViewChangeBlast)
    (deliveries : list (Replica * Ack.t * Z)) :
  sendStartViewChangeAlready b = true → doViewChangeStarts b deliveries = O.
Proof.
  intros Hlatch. induction deliveries as [|[[r reply] now] rest IH]; [done|].
  simpl. rewrite onStartViewChangeReply_ignored by auto. exact IH.
Qed.

Lemma doViewChangeStarts_at_most_once (b : StartViewChangeBlast)
    (deliveries : list (Replica * Ack.t * Z)) :
  (doViewChangeStarts b deliveries <= 1)%nat.
Proof.
  revert b. induction deliveries as [|[[r reply] now] rest IH]; intros b;
    [simpl; lia|].
  simpl.
  destruct (Ack.IsReplied reply) eqn:Hrep;
    [destruct (sendStartViewChangeAlready b) eqn:Hlatch|].
  - rewrite onStartViewChangeReply_ignored by auto. apply IH.
  - destruct (repliesQuorum r (wrap32 (repliesReceived b + 1))) eqn:Hq.
    + rewrite onStartViewChangeReply_quorum by done.
      rewrite doViewChangeStarts_latched by done. lia.
    + rewrite onStartViewChangeReply_below by done. apply IH.
  - rewrite onStartViewChangeReply_ignored by auto. apply IH.
Qed.

Lemma feedStartViewChangeReplies_latched (r : Replica) (b : StartViewChangeBlast)
    (replies : list (Ack.t * Z)) :
  sendStartViewChangeAlready b = true →
  feedStartViewChangeReplies r b replies = (r, b, O).
Proof.
  intros Hlatch. induction replies as [|[reply now] rest IH]; [done|].
  simpl. rewrite onStartViewChangeReply_ignored by auto. by rewrite IH.
Qed.

Lemma positiveAcks_cons (reply : Ack.t) (now : Z) (rest : list (Ack.t * Z)) :
  positiveAcks ((reply, now) :: rest) =
    (if Ack.IsReplied reply then 1 else 0) + positiveAcks rest.
Proof.
  unfold positiveAcks. rewrite filter_cons. simpl.
  destruct (Ack.IsReplied reply); case_decide; try done.
  unfold len. simpl. lia.
Qed.

Lemma positiveAcks_nonneg (replies : list (Ack.t * Z)) : 0 <= positiveAcks replies.
Proof. unfold positiveAcks. apply len_nonneg. Qed.

Lemma feedStartViewChangeReplies_threshold (r : Replica) (b : StartViewChangeBlast)
    (replies : list (Ack.t * Z)) :
  maplen (configuration r) < max_int → sendStartViewChangeAlready b = false →
  1 <= repliesReceived b →
  repliesReceived b + len replies <= max_int32 →
  2 * repliesReceived b <= maplen (configuration r) + 1 →
  let '(r', b', k) := feedStartViewChangeReplies r b replies in
  (2 * (repliesReceived b + positiveAcks replies) > maplen (configuration r) + 1 →
     k = 1%nat ∧ sendStartViewChangeAlready b' = true ∧
     ∃ t, In t (map snd replies) ∧ r' = initiateDoViewChange r t) ∧
  (2 * (repliesReceived b + positiveAcks replies) <= maplen (configuration r) + 1 →
     k = O ∧ sendStartViewChangeAlready b' = false ∧ r' = r).
Proof.
  intros Hn. revert b.
  induction replies as [|[reply now] rest IH]; intros b Hlatch Hc Hlen Hbelow.
  - simpl. unfold positiveAcks, len. simpl. split; [lia|done].
  - rewrite len_cons in Hlen. pose proof (len_nonneg rest) as Hrest.
    pose proof (positiveAcks_nonneg rest) as Hpos.
    rewrite positiveAcks_cons. simpl.
    destruct (Ack.IsReplied reply) eqn:Hrep.
    + assert (Hw : wrap32 (repliesReceived b + 1) = repliesReceived b + 1).
      { apply wrap32_small. unfold max_int32 in *. lia. }
      destruct (repliesQuorum r (wrap32 (repliesReceived b + 1))) eqn:Hq.
      * rewrite onStartViewChangeReply_quorum by done.
        rewrite feedStartViewChangeReplies_latched by done.
        rewrite Hw, repliesQuorum_small in Hq by (done || unfold max_int32 in *; lia).
        split; [|lia]. intros _. split; [done|]. split; [done|].
        exists now. split; [by left|done].
      * rewrite onStartViewChangeReply_below by done.
        rewrite Hw, repliesQuorum_small in Hq by (done || unfold max_int32 in *; lia).
        rewrite Hw.
        specialize (IH (mkStartViewChangeBlast (savedCurrentViewNum b)
                          (repliesReceived b + 1) false) eq_refl).
        simpl in IH.
        specialize (IH ltac:(lia) ltac:(lia) ltac:(lia)).
        destruct (feedStartViewChangeReplies r _ rest) as [[r2 b2] k2].
        destruct IH as [IHyes IHno]. split.
        -- intros Hq'. destruct IHyes as (-> & Hl & t & Ht & ->); [lia|].
           split; [done|]. split; [done|]. exists t. split; [by right|done].
        -- intros Hq'. destruct IHno as (-> & Hl & ->); [lia|]. done.
    + rewrite onStartViewChangeReply_ignored by auto.
      specialize (IH b Hlatch Hc ltac:(lia) Hbelow).
      destruct (feedStartViewChangeReplies r b rest) as [[r2 b2] k2].
      destruct IH as [IHyes IHno]. split.
      * intros Hq'. destruct IHyes as (-> & Hl & t & Ht & ->); [lia|].
        split; [done|]. split; [done|]. exists t. split; [by right|done].
      * intros Hq'. destruct IHno as (-> & Hl & ->); [lia|]. done.
Qed.

(** X9.  The replies to one [blastStartViewChange].  Whatever runs between
    the replies, the broadcast calls [initiateDoViewChange] at most once.
    With nothing in between, in a configuration of [N >= 1] entries, it calls
    it exactly once when [2 * count > N + 1] for the count of the sender and
    the positive replies: the replica then has status [DoViewChange], its
    timestamp is the arrival time of one of the replies, and its view, log
    and commit number are as before.  Below the threshold the replica is
    unchanged. *)
Theorem StartViewChange_reply_quorum :
  (∀ b deliveries, (doViewChangeStarts b deliveries <= 1)%nat) ∧
  (∀ (r : Replica) (replies : list (Ack.t * Z)),
     1 <= maplen (configuration r) < max_int → 1 + len replies <= max_int32 →
     let '(r', b', k) :=
       feedStartViewChangeReplies r (blastStartViewChange r) replies in
     (2 * (1 + positiveAcks replies) > maplen (configuration r) + 1 →
        k = 1%nat ∧ status r' = Status.DoViewChange ∧
        (∃ t, In t (map snd replies) ∧ viewChangeResetEvent r' = t) ∧
        viewNum r' = viewNum r ∧ opLog r' = opLog r ∧ opNum r' = opNum r ∧
        commitNum r' = commitNum r ∧ doViewChangeCount r' = doViewChangeCount r) ∧
     (2 * (1 + positiveAcks replies) <= maplen (configuration r) + 1 →
        k = O ∧ r' = r)).
Proof.
  split; [exact doViewChangeStarts_at_most_once|].
  intros r replies [Hn1 Hn] Hlen.
  pose proof (feedStartViewChangeReplies_threshold r (blastStartViewChange r)
                replies Hn eq_refl ltac:(simpl; lia) Hlen ltac:(simpl; lia)) as H.
  destruct (feedStartViewChangeReplies r (blastStartViewChange r) replies)
    as [[r' b'] k].
  simpl in H. destruct H as [Hyes Hno]. split.
  - intros Hq. destruct (Hyes Hq) as (-> & _ & t & Ht & ->).
    split; [done|]. split; [done|]. split; [by exists t|]. done.
  - intros Hq. destruct (Hno Hq) as (-> & _ & ->). done.
Qed.

Lemma StartViewChange_reply_quorum_witness :
  let r := replica (run (startNode 1 config3 0)
                      [EvTick (300 * millisecond) 0]) in
  let replies := [(ack 0, 310 * millisecond); (ack 2, 311 * millisecond)] in
  (1 <= maplen (configuration r) < max_int ∧ 1 + len replies <= max_int32) ∧
  2 * (1 + positiveAcks replies) > maplen (configuration r) + 1 ∧
  status (feedStartViewChangeReplies r (blastStartViewChange r) replies).1.1
    = Status.DoViewChange.
Proof.
  intros r replies.
  assert (Hn : 1 <= maplen (configuration r) < max_int)
    by (vm_compute; split; [discriminate|reflexivity]).
  assert (Hlen : 1 + len replies <= max_int32) by (vm_compute; discriminate).
  assert (Hq : 2 * (1 + positiveAcks replies) > maplen (configuration r) + 1)
    by (vm_compute; reflexivity).
  split; [exact (conj Hn Hlen)|]. split; [exact Hq|].
  pose proof (proj2 StartViewChange_reply_quorum r replies Hn Hlen) as H.
  destruct (feedStartViewChangeReplies r (blastStartViewChange r) replies)
    as [[r' b'] k].
  exact (proj1 (proj2 (proj1 H Hq))).
Defined.

(** *** The counter of DoViewChange *)

Lemma recordDoViewChange_count (r : Replica) (args : DoViewChangeArgs.t) :
  doViewChangeCount (recordDoViewChange r args) = doViewChangeCount r ∨
  doViewChangeCount (recordDoViewChange r args) = wrap64 (doViewChangeCount r + 1).
Proof.
  unfold recordDoViewChange.
  destruct (_ =? _); [|by left]. right.
  destruct (_ >=? oldViewNum _); [destruct (_ >? opNum _)|];
    destruct (_ >=? commitNum _); done.
Qed.

Lemma recordDoViewChange_frame (r : Replica) (args : DoViewChangeArgs.t) :
  configuration (recordDoViewChange r args) = configuration r ∧
  clientTable (recordDoViewChange r args) = clientTable r ∧
  viewChangeResetEvent (recordDoViewChange r args) = viewChangeResetEvent r.
Proof.
  unfold recordDoViewChange.
  destruct (_ =? _); [|done].
  destruct (_ >=? oldViewNum _); [destruct (_ >? opNum _)|];
    destruct (_ >=? commitNum _); done.
Qed.

(** X10.  [DoViewChange] installs nothing before its counter exceeds
    [N/2 + 1].  A replica whose counter is [c] goes through any [k] messages
    with [c + k <= N/2 + 1], of any view and content, with its view, log,
    [opNum], [commitNum], status and [primaryID] unchanged; the counter grows
    by at most [k].  After [initiateViewChange] the counter is 0, so in a
    configuration of three the next primary needs three counted messages,
    its own included. *)
Theorem DoViewChange_needs_count (r : Replica) (msgs : list (DoViewChangeArgs.t * Z)) :
  maplen (configuration r) < max_int →
  0 <= doViewChangeCount r →
  doViewChangeCount r + len msgs <= maplen (configuration r) ÷ 2 + 1 →
  let r' := handleDoViewChanges r msgs in
  viewNum r' = viewNum r ∧ opNum r' = opNum r ∧ opLog r' = opLog r ∧
  commitNum r' = commitNum r ∧ status r' = status r ∧
  primaryID r' = primaryID r ∧
  doViewChangeCount r <= doViewChangeCount r' <= doViewChangeCount r + len msgs.
Proof.
  unfold handleDoViewChanges. revert r.
  induction msgs as [|[args now] rest IH]; intros r Hn Hc Hlen.
  - simpl. unfold len. simpl. repeat split; lia.
  - rewrite len_cons in Hlen |- *. pose proof (len_nonneg rest) as Hrest. simpl.
    pose proof (maplen_nonneg (configuration r)) as Hn0.
    assert (Hhalf : 0 <= maplen (configuration r) ÷ 2 <= maplen (configuration r)).
    { split; [apply Z.quot_pos; lia|]. apply Z.quot_le_upper_bound; lia. }
    destruct (decide (status r = Status.Dead)) as [Hd|Hlive].
    { rewrite DoViewChange_dead by done. simpl.
      specialize (IH r Hn Hc ltac:(lia)). simpl in IH.
      destruct IH as (? & ? & ? & ? & ? & ? & ? & ?). repeat split; try done; lia. }
    pose proof (recordDoViewChange_live r args)
      as (Hv & Ho & Hl & Hcm & Hs & _ & _ & Hp).
    pose proof (recordDoViewChange_frame r args) as (Hcfg & _).
    assert (Hcount : doViewChangeCount r
                       <= doViewChangeCount (recordDoViewChange r args)
                       <= doViewChangeCount r + 1).
    { destruct (recordDoViewChange_count r args) as [->| ->]; [lia|].
      rewrite wrap64_small; [lia|]. unfold in_int, min_int, max_int in *. lia. }
    assert (Hq : doViewChangeQuorum (recordDoViewChange r args) = false).
    { unfold doViewChangeQuorum. rewrite Hcfg.
      rewrite wrap64_small by (unfold in_int, min_int, max_int in *; lia).
      destruct (Z.gtb_spec (doViewChangeCount (recordDoViewChange r args))
                  (maplen (configuration r) ÷ 2 + 1)); [lia|done]. }
    rewrite DoViewChange_below_quorum by done. simpl.
    specialize (IH (recordDoViewChange r args)). rewrite Hcfg in IH.
    specialize (IH Hn ltac:(lia) ltac:(lia)). simpl in IH.
    destruct IH as (? & ? & ? & ? & ? & ? & ? & ?).
    repeat split; try congruence; lia.
Qed.

Lemma DoViewChange_needs_count_witness :
  let r := initiateViewChange
             (set_opNum 2 (set_opLog log_ab (NewReplica 1 config3))) 300 in
  let msgs := [(DoViewChangeArgs.mk 1 0 0 3 log_abc, 310);
               (DoViewChangeArgs.mk 1 0 0 3 log_abc, 311)] in
  (maplen (configuration r) < max_int ∧ 0 <= doViewChangeCount r ∧
   doViewChangeCount r + len msgs <= maplen (configuration r) ÷ 2 + 1) ∧
  opLog (handleDoViewChanges r msgs) = log_ab.
Proof.
  intros r msgs.
  assert (Hn : maplen (configuration r) < max_int) by (vm_compute; reflexivity).
  assert (Hc : 0 <= doViewChangeCount r) by (vm_compute; discriminate).
  assert (Hlen : doViewChangeCount r + len msgs <= maplen (configuration r) ÷ 2 + 1)
    by (vm_compute; discriminate).
  destruct (DoViewChange_needs_count r msgs Hn Hc Hlen) as (_ & _ & Hlog & _).
  split; [exact (conj Hn (conj Hc Hlen))|].
  refine (eq_trans Hlog _). vm_compute. reflexivity.
Defined.

(** ** Messages between replicas *)

Lemma nextPrimary_at_last (config : gmap Z string) :
  0 < maplen config < max_int →
  nextPrimary (maplen config - 1) config = maplen config.
Proof.
  intros Hn. unfold nextPrimary, max_int in *.
  rewrite !wrap64_small by (unfold in_int, min_int, max_int; lia).
  destruct (Z.eqb_spec (maplen config - 1 + 1) (maplen config + 1)); lia.
Qed.

(** X11.  Where [sendDoViewChange] sends.  In a configuration whose IDs are
    [0 .. N-1], a replica whose primary is not the last one addresses the
    replica after the primary with its own view, [oldViewNum], commit number,
    [opNum] and log, leaving its state alone, or, when it is that replica
    itself, counts itself and sends nothing.  A replica whose primary is the
    last one, [N - 1], addresses the ID [N], for which the configuration has
    no entry. *)
Theorem sendDoViewChange_destination (r : Replica) :
  contiguous (configuration r) → maplen (configuration r) < max_int →
  is_Some (configuration r !! ID r) →
  let N := maplen (configuration r) in
  let msg := DoViewChangeArgs.mk (viewNum r) (oldViewNum r) (commitNum r)
               (opNum r) (opLog r) in
  (0 <= primaryID r < N - 1 → ID r ≠ primaryID r + 1 →
     sendDoViewChange r = (r, Some (primaryID r + 1, msg)) ∧
     is_Some (configuration r !! (primaryID r + 1))) ∧
  (0 <= primaryID r < N - 1 → ID r = primaryID r + 1 →
     sendDoViewChange r =
       (set_doViewChangeCount (wrap64 (doViewChangeCount r + 1)) r, None)) ∧
  (primaryID r = N - 1 →
     sendDoViewChange r = (r, Some (N, msg)) ∧ configuration r !! N = None).
Proof.
  intros Hcont Hn Hid. simpl.
  apply Hcont in Hid.
  split; [|split].
  - intros Hp Hne. unfold sendDoViewChange.
    rewrite nextPrimary_below_last by done.
    rewrite Z.mod_small by lia.
    destruct (Z.eqb_spec (primaryID r + 1) (ID r)); [lia|].
    split; [done|]. apply Hcont. lia.
  - intros Hp Heq. unfold sendDoViewChange.
    rewrite nextPrimary_below_last by done.
    rewrite Z.mod_small by lia.
    destruct (Z.eqb_spec (primaryID r + 1) (ID r)); [done|lia].
  - intros Hp. unfold sendDoViewChange. rewrite Hp.
    rewrite nextPrimary_at_last by lia.
    destruct (Z.eqb_spec (maplen (configuration r)) (ID r)); [lia|].
    split; [done|]. apply eq_None_not_Some. intros Hsome.
    apply Hcont in Hsome. lia.
Qed.

Lemma contiguous_config3 : contiguous config3.
Proof.
  intros k. rewrite maplen_config3. unfold config3. split.
  - intros Hs.
    destruct (decide (k = 0)) as [->|H0]; [lia|].
    destruct (decide (k = 1)) as [->|H1]; [lia|].
    destruct (decide (k = 2)) as [->|H2]; [lia|].
    rewrite !lookup_insert_ne, lookup_empty in Hs by done.
    by destruct Hs.
  - intros Hk.
    assert (k = 0 ∨ k = 1 ∨ k = 2) as [->|[->| ->]] by lia; by eexists.
Qed.

Lemma sendDoViewChange_destination_witness :
  let r := set_primaryID 2 (initiateDoViewChange (NewReplica 1 config3) 5) in
  (contiguous (configuration r) ∧ maplen (configuration r) < max_int ∧
   is_Some (configuration r !! ID r)) ∧
  primaryID r = maplen (configuration r) - 1 ∧
  (sendDoViewChange r).2 =
    Some (3, DoViewChangeArgs.mk 0 (-1) 0 0 []) ∧
  configuration r !! 3 = None.
Proof.
  intros r.
  assert (Hcont : contiguous (configuration r)) by exact contiguous_config3.
  assert (Hn : maplen (configuration r) < max_int) by (vm_compute; reflexivity).
  assert (Hid : is_Some (configuration r !! ID r)) by (vm_compute; by eexists).
  assert (Hp : primaryID r = maplen (configuration r) - 1) by (vm_compute; reflexivity).
  destruct (sendDoViewChange_destination r Hcont Hn Hid) as (_ & _ & Hlast).
  destruct (Hlast Hp) as [Hsend Hnone].
  split; [exact (conj Hcont (conj Hn Hid))|]. split; [exact Hp|].
  split; [|exact Hnone].
  rewrite Hsend. vm_compute. reflexivity.
Defined.

(** X12.  State transfer by [StartView].  A live replica that handles the
    [StartView] sent by [primaryBlastStartView] of a primary ends [Normal]
    with the primary's view, log and [opNum] and with the primary's ID as
    [primaryID]; [opNum = len(log)] carries over from the primary.  The
    message has no commit number: the receiver keeps its own, and the full
    log invariant holds afterwards when that number does not exceed the
    primary's [opNum]. *)
Theorem StartView_transfers_primary_state (r p : Replica) (reply : Ack.t) :
  status r ≠ Status.Dead →
  let r' := (StartView r (primaryBlastStartView p) reply).1 in
  viewNum r' = viewNum p ∧ opLog r' = opLog p ∧ opNum r' = opNum p ∧
  primaryID r' = ID p ∧ status r' = Status.Normal ∧
  commitNum r' = commitNum r ∧
  (opNum p = len (opLog p) → opNum r' = len (opLog r')) ∧
  (log_invariant p → commitNum r <= opNum p → log_invariant r').
Proof.
  intros Hlive. unfold StartView. rewrite (bool_decide_eq_false_2 _ Hlive).
  simpl. unfold log_invariant. simpl. repeat split; tauto.
Qed.

Lemma StartView_transfers_primary_state_witness :
  let p := replica committedPrimaryNode in
  let r := NewReplica 2 config3 in
  status r ≠ Status.Dead ∧
  opLog (StartView r (primaryBlastStartView p) Ack.zero).1
    = [mkOpLogEntry 0 (IStr "x")] ∧
  commitNum p = 1 ∧
  commitNum (StartView r (primaryBlastStartView p) Ack.zero).1 = 0.
Proof.
  intros p r.
  assert (Hlive : status r ≠ Status.Dead) by (vm_compute; discriminate).
  destruct (StartView_transfers_primary_state r p Ack.zero Hlive)
    as (_ & Hlog & _ & _ & _ & Hc & _).
  split; [exact Hlive|]. split; [|split].
  - refine (eq_trans Hlog _). vm_compute. reflexivity.
  - vm_compute. reflexivity.
  - refine (eq_trans Hc _). vm_compute. reflexivity.
Defined.

Lemma adoptDoViewChange_eq (r : Replica) (now : Z) :
  adoptDoViewChange r now =
    mkReplica (ID r) (oldViewNum r) (tempViewNum r) (tempCommitNum r)
      (tempOpNum r) (tempOpLog r) (ID r) (doViewChangeCount r) (tempViewNum r)
      (tempOpLog r) (tempOpNum r) (tempCommitNum r) Status.StartView
      (configuration r) (clientTable r) now.
Proof. reflexivity. Qed.

(** X13.  The new primary between [DoViewChange] and [StartView].  The
    [DoViewChange] that completes the quorum leaves the replica with status
    [StartView] and itself as primary.  In that state every [Submit] is
    rejected, and the next timer tick sends the [StartView] broadcast.  Its
    own [StartView], delivered to itself, changes nothing but the status,
    which becomes [Normal]; from then on a request above the recorded
    request number of its client is accepted. *)
Theorem new_primary_serves_after_StartView (r : Replica) (args : DoViewChangeArgs.t)
    (reply : Ack.t) (now : Z) :
  status r ≠ Status.Dead →
  doViewChangeQuorum (recordDoViewChange r args) = true →
  let p := (DoViewChange r args reply now).1.1 in
  let p' := (StartView p (primaryBlastStartView p) reply).1 in
  status p = Status.StartView ∧ primaryID p = ID p ∧
  (∀ req, Submit p req = (p, false, None)) ∧
  (∀ t timeout, timerAction p t timeout = BlastStartView) ∧
  p' = set_status Status.Normal p ∧
  (∀ req, reqNum req > clientTableEntry.reqNum (clientTable_get p (clientID req)) →
     (Submit p' req).1.2 = true).
Proof.
  intros Hlive Hq. cbv zeta.
  rewrite DoViewChange_at_quorum by done. cbn [fst snd].
  rewrite adoptDoViewChange_eq.
  generalize (recordDoViewChange r args). intros r1.
  assert (Hsv : ∀ q a rep, status q = Status.StartView →
                  (StartView q a rep).1 =
                  set_status Status.Normal
                    (set_primaryID (StartViewArgs.PrimaryID a)
                       (set_viewNum (StartViewArgs.ViewNum a)
                          (set_opNum (StartViewArgs.OpNum a)
                             (set_opLog (StartViewArgs.OpLog a) q))))).
  { intros q a rep Hst. unfold StartView.
    rewrite bool_decide_eq_false_2; [done|]. rewrite Hst. discriminate. }
  rewrite Hsv by reflexivity.
  split; [reflexivity|]. split; [reflexivity|]. split; [|split; [|split]].
  - intros req. apply Submit_reject. intros (Hn & _). discriminate Hn.
  - intros t timeout. reflexivity.
  - reflexivity.
  - intros req Hnum. rewrite Submit_accept; [reflexivity|].
    split; [reflexivity|]. split; [reflexivity|]. exact Hnum.
Qed.

Lemma new_primary_serves_after_StartView_witness :
  let m := DoViewChangeArgs.mk 1 0 0 1 [mkOpLogEntry 0 (IStr "x")] in
  let r := (DoViewChange (replica nextPrimaryNode) m Ack.zero 320).1.1 in
  let p := (DoViewChange r m Ack.zero 321).1.1 in
  (status r ≠ Status.Dead ∧ doViewChangeQuorum (recordDoViewChange r m) = true) ∧
  Submit p req_x = (p, false, None) ∧
  (Submit (StartView p (primaryBlastStartView p) Ack.zero).1 req_x).1.2 = true.
Proof.
  intros m r p.
  assert (Hlive : status r ≠ Status.Dead) by (vm_compute; discriminate).
  assert (Hq : doViewChangeQuorum (recordDoViewChange r m) = true)
    by (vm_compute; reflexivity).
  destruct (new_primary_serves_after_StartView r m Ack.zero 321 Hlive Hq)
    as (_ & _ & Hrej & _ & _ & Hacc).
  split; [exact (conj Hlive Hq)|]. split; [exact (Hrej req_x)|].
  apply Hacc. vm_compute. reflexivity.
Defined.

(** ** Submit and Prepare together *)

Lemma Submit_true_inv (p p' : Replica) (req : clientRequest)
    (blast : option PrepareBlast) :
  Submit p req = (p', true, blast) →
  submit_accepts p req ∧ p' = submitted p req ∧
  blast = Some (primaryBlastPrepare (submitted p req) req).
Proof.
  intros Hs. destruct (decide (submit_accepts p req)) as [Hyes|Hno].
  - rewrite Submit_accept in Hs by done. by simplify_eq.
  - rewrite Submit_reject in Hs by done. discriminate Hs.
Qed.

Lemma wrap64_pred_ne (x : Z) : in_int x → x ≠ wrap64 (x - 1).
Proof.
  unfold in_int, min_int, max_int, wrap64, wrap.
  change (64 - 1) with 63. intros Hx.
  destruct (Z.eq_dec x (- 2 ^ 63)) as [->|Hne].
  - change ((- 2 ^ 63 - 1 + 2 ^ 63) mod 2 ^ 64) with (2 ^ 64 - 1). lia.
  - rewrite Z.mod_small by lia. lia.
Qed.

Lemma wrap64_succ_ne (x : Z) : in_int x → x ≠ wrap64 (x + 1).
Proof.
  unfold in_int, min_int, max_int, wrap64, wrap.
  change (64 - 1) with 63. intros Hx.
  destruct (Z.eq_dec x (2 ^ 63 - 1)) as [->|Hne].
  - change ((2 ^ 63 - 1 + 1 + 2 ^ 63) mod 2 ^ 64) with 0. lia.
  - rewrite Z.mod_small by lia. lia.
Qed.

(** X14.  One replication step.  [Submit] accepts a request on the primary;
    [primaryBlastPrepare] then takes its snapshot in a critical section of
    its own, in whatever state [q] the primary is by then.  A live backup in
    the primary's view whose [opNum] is the one the primary had before the
    [Submit] handles the [Prepare] built from the snapshot.  When the
    snapshot finds the view and the [opNum] that [Submit] left (nothing in
    between changed them), the backup ends with the primary's new [opNum],
    records the same client-table entry, appends the entry numbered with the
    length of its log (so it holds the primary's log if it held it before),
    refreshes its timestamp and answers [IsReplied = true] with the view and
    the new [opNum].  When a second accepted [Submit] ran before the
    snapshot, the [Prepare] carries the later [opNum]: the backup takes it
    for a gap, moves to [Recovery], appends nothing and does not answer. *)
Theorem Prepare_replicates_Submit (p b : Replica) (req : clientRequest)
    (reply : PrepareOKReply.t) (now : Z) :
  submit_accepts p req →
  status b ≠ Status.Dead → viewNum b = viewNum p → opNum b = opNum p →
  in_int (opNum p) →
  let p' := (Submit p req).1.1 in
  (∀ q, viewNum q = viewNum p' → opNum q = opNum p' →
     let args := prepareArgsOf (primaryBlastPrepare q req) in
     let b' := (Prepare b args reply now).1 in
     let reply' := (Prepare b args reply now).2 in
     opNum b' = opNum p' ∧
     clientTable_get b' (clientID req) = clientTable_get p' (clientID req) ∧
     opLog b' = opLog b ++ [mkOpLogEntry (len (opLog b)) (reqOp req)] ∧
     (opLog b = opLog p → opLog b' = opLog p') ∧
     reply' = PrepareOKReply.mk true (viewNum p) (opNum p') (ID b) (status b) ∧
     viewChangeResetEvent b' = now) ∧
  (∀ req2, submit_accepts p' req2 →
     let q := (Submit p' req2).1.1 in
     Prepare b (prepareArgsOf (primaryBlastPrepare q req)) reply now
       = (set_status Status.Recovery b, reply)).
Proof.
  intros Hacc Hlive Hview Hop Hin. cbv zeta.
  rewrite Submit_accept by done. cbn [fst snd].
  assert (Hnext : opNum b = wrap64 (wrap64 (opNum p + 1) - 1)).
  { rewrite Hop. apply wrap64_pred_succ; [done|apply wrap64_in_int|done]. }
  split.
  - intros q Hqv Hqo. simpl in Hqv, Hqo.
    rewrite Prepare_next; [|done|simpl; congruence|simpl; by rewrite Hqo].
    unfold clientTable_get, prepared, submitted. simpl.
    rewrite !lookup_insert_eq, Hop, Hview.
    repeat split. intros ->. done.
  - intros req2 Hacc2. rewrite Submit_accept by done. cbn [fst snd].
    apply Prepare_gap; [done|simpl; congruence|]. simpl.
    rewrite Hop.
    assert (Hback : wrap64 (opNum p + 1)
                    = wrap64 (wrap64 (wrap64 (opNum p + 1) + 1) - 1)).
    { apply wrap64_pred_succ; [apply wrap64_in_int|apply wrap64_in_int|done]. }
    rewrite <- Hback. by apply wrap64_succ_ne.
Qed.

Lemma Prepare_replicates_Submit_witness :
  let p := NewReplica 0 config3 in
  let b := NewReplica 1 config3 in
  let p' := (Submit p req_x).1.1 in
  let q := (Submit p' req_y).1.1 in
  (submit_accepts p req_x ∧ status b ≠ Status.Dead ∧ viewNum b = viewNum p ∧
   opNum b = opNum p ∧ in_int (opNum p)) ∧
  submit_accepts p' req_y ∧
  opLog (Prepare b (prepareArgsOf (primaryBlastPrepare p' req_x))
           PrepareOKReply.zero 4).1 = opLog p' ∧
  Prepare b (prepareArgsOf (primaryBlastPrepare q req_x)) PrepareOKReply.zero 4
    = (set_status Status.Recovery b, PrepareOKReply.zero).
Proof.
  intros p b p' q.
  assert (Hacc : submit_accepts p req_x).
  { unfold submit_accepts. vm_compute. repeat split. }
  assert (Hacc2 : submit_accepts p' req_y).
  { unfold submit_accepts. vm_compute. repeat split. }
  assert (Hlive : status b ≠ Status.Dead) by (vm_compute; discriminate).
  assert (Hin : in_int (opNum p)) by (vm_compute; split; discriminate).
  destruct (Prepare_replicates_Submit p b req_x PrepareOKReply.zero 4
              Hacc Hlive eq_refl eq_refl Hin) as [Hsame Hlate].
  split; [exact (conj Hacc (conj Hlive (conj eq_refl (conj eq_refl Hin))))|].
  split; [exact Hacc2|]. split.
  - destruct (Hsame p' eq_refl eq_refl) as (_ & _ & _ & Hlog & _).
    exact (Hlog eq_refl).
  - exact (Hlate req_y Hacc2).
Defined.

(** X15.  The primary's own [Prepare].  [primaryBlastPrepare] sends to every
    entry of the configuration.  When the [Prepare] of an accepted request
    reaches the primary that sent it, the primary has already incremented its
    [opNum], takes the message for a gap, and moves to [Recovery] without
    answering; in that status it rejects every further [Submit]. *)
Theorem own_Prepare_moves_primary_to_Recovery (p p' : Replica) (req : clientRequest)
    (blast : PrepareBlast) (reply : PrepareOKReply.t) (now : Z) :
  Submit p req = (p', true, Some blast) →
  Prepare p' (prepareArgsOf blast) reply now
    = (set_status Status.Recovery p', reply) ∧
  (∀ req2, Submit (set_status Status.Recovery p') req2
           = (set_status Status.Recovery p', false, None)).
Proof.
  intros Hs. apply Submit_true_inv in Hs as ((Hn & _) & -> & Hb). simplify_eq.
  split.
  - apply Prepare_gap; simpl.
    + rewrite Hn. discriminate.
    + done.
    + apply wrap64_pred_ne, wrap64_in_int.
  - intros req2. apply Submit_reject. intros (Hn2 & _). discriminate Hn2.
Qed.

Lemma own_Prepare_moves_primary_to_Recovery_witness :
  let p := NewReplica 0 config3 in
  let p' := submitted p req_x in
  let blast := primaryBlastPrepare p' req_x in
  Submit p req_x = (p', true, Some blast) ∧
  status (Prepare p' (prepareArgsOf blast) PrepareOKReply.zero 3).1
    = Status.Recovery.
Proof.
  intros p p' blast.
  assert (Hs : Submit p req_x = (p', true, Some blast)) by (vm_compute; reflexivity).
  split; [exact Hs|].
  rewrite (proj1 (own_Prepare_moves_primary_to_Recovery p p' req_x blast
                    PrepareOKReply.zero 3 Hs)).
  reflexivity.
Defined.

(** ** What a step does to the logs *)

(** The live and the recorded log, with their lengths as the replica counts
    them, before and after each kind of event. *)
Lemma step_logs (n : Node) (e : Event) :
  let r := replica n in
  let r' := replica (step n e) in
  let appended op :=
    opNum r' = wrap64 (opNum r + 1) ∧
    opLog r' = opLog r ++ [mkOpLogEntry (len (opLog r)) op] in
  let kept := opNum r' = opNum r ∧ opLog r' = opLog r in
  let keptTemp := tempOpNum r' = tempOpNum r ∧ tempOpLog r' = tempOpLog r in
  match e with
  | EvSubmit req | EvSubmitCall req => keptTemp ∧ (kept ∨ appended (reqOp req))
  | EvPrepare args _ =>
      keptTemp ∧ (kept ∨ appended (reqOp (PrepareArgs.ClientMessage args)))
  | EvDoViewChange args _ =>
      (keptTemp ∨ (tempOpNum r' = len (DoViewChangeArgs.OpLog args) ∧
                   tempOpLog r' = DoViewChangeArgs.OpLog args)) ∧
      (kept ∨ (opNum r' = tempOpNum r' ∧ opLog r' = tempOpLog r'))
  | EvStartView args =>
      keptTemp ∧ (kept ∨ (opNum r' = StartViewArgs.OpNum args ∧
                          opLog r' = StartViewArgs.OpLog args))
  | _ => keptTemp ∧ kept
  end.
Proof.
  unfold step. destruct (mu n) eqn:Hmu.
  { destruct e; cbv zeta; auto. }
  destruct e; cbv zeta; simpl.
  - destruct (decide (submit_accepts (replica n) req)) as [Hyes|Hno].
    + rewrite Submit_accept by done. simpl. auto.
    + rewrite Submit_reject by done. simpl. auto.
  - destruct (prepares n !! i) as [b|]; [|auto].
    unfold onPrepareOK. repeat case_match; simplify_eq; simpl; auto.
  - unfold Prepare. repeat case_match; simplify_eq; simpl; auto.
  - unfold Commit. case_match; simplify_eq; simpl; auto.
  - unfold StartViewChange. repeat case_match; simplify_eq; simpl; auto.
  - destruct (viewChanges n !! i) as [b|]; [|auto].
    unfold onStartViewChangeReply. repeat case_match; simplify_eq; simpl; auto.
  - unfold DoViewChange, adoptDoViewChange, recordDoViewChange.
    repeat case_match; simplify_eq; simpl; auto.
  - unfold StartView. case_match; simplify_eq; simpl; auto.
  - unfold stepTick, sendDoViewChange. repeat case_match; simplify_eq; simpl; auto.
  - auto.
  - destruct (decide (submit_accepts (replica n) req)) as [Hyes|Hno].
    + rewrite Submit_accept by done. simpl. auto.
    + rewrite Submit_reject by done. simpl. auto.
  - destruct (pending n !! i) as [req|]; simpl; auto.
Qed.

(** *** Entries carry their position *)

Lemma wellIndexed_nil : wellIndexed [].
Proof. intros i e H. by rewrite lookup_nil in H. Qed.

Lemma wellIndexed_app_one (l : list opLogEntry) (op : iface) :
  wellIndexed l → wellIndexed (l ++ [mkOpLogEntry (len l) op]).
Proof.
  intros Hl i e He.
  destruct (decide (i < length l)%nat) as [Hlt|Hge].
  - rewrite lookup_app_l in He by done. by apply Hl.
  - rewrite lookup_app_r in He by lia.
    destruct (i - length l)%nat as [|k] eqn:Hk; [|by destruct k].
    simpl in He. simplify_eq. simpl. unfold len. lia.
Qed.

Lemma step_wellIndexed (n : Node) (e : Event) :
  wellIndexed (opLog (replica n)) ∧ wellIndexed (tempOpLog (replica n)) →
  carriesWellIndexed e →
  wellIndexed (opLog (replica (step n e))) ∧
  wellIndexed (tempOpLog (replica (step n e))).
Proof.
  intros [Hlog Htemp] He. pose proof (step_logs n e) as H. cbv zeta in H.
  destruct e; simpl in He;
    try (destruct H as [[_ ->] [_ ->]]; done).
  - destruct H as [[_ ->] [[_ ->]|[_ ->]]]; [done|].
    split; [by apply wellIndexed_app_one|done].
  - destruct H as [[_ ->] [[_ ->]|[_ ->]]]; [done|].
    split; [by apply wellIndexed_app_one|done].
  - destruct H as [[[_ Ht]|[_ Ht]] [[_ Hl]|[_ Hl]]]; rewrite ?Hl, ?Ht; done.
  - destruct H as [[_ ->] [[_ ->]|[_ ->]]]; done.
  - destruct H as [[_ ->] [[_ ->]|[_ ->]]]; [done|].
    split; [by apply wellIndexed_app_one|done].
Qed.

(** X16.  Every log entry carries its position as [opID].  The property
    holds for the empty logs of a new replica, and every step keeps it for
    the live log and for the log recorded by [DoViewChange], provided the
    logs that arrive in [DoViewChange] and [StartView] messages have it.
    [Submit] and [Prepare] number the entry they append with the length of
    the log. *)
Theorem log_entries_carry_their_position :
  (∀ id config now,
     wellIndexed (opLog (replica (startNode id config now))) ∧
     wellIndexed (tempOpLog (replica (startNode id config now)))) ∧
  (∀ (n : Node) (es : list Event),
     wellIndexed (opLog (replica n)) → wellIndexed (tempOpLog (replica n)) →
     Forall carriesWellIndexed es →
     wellIndexed (opLog (replica (run n es))) ∧
     wellIndexed (tempOpLog (replica (run n es)))).
Proof.
  split.
  - intros id config now. split; apply wellIndexed_nil.
  - intros n es Hlog Htemp Hes. revert n Hlog Htemp.
    induction Hes as [|e es He Hes IH]; intros n Hlog Htemp; [done|].
    rewrite run_cons.
    destruct (step_wellIndexed n e (conj Hlog Htemp) He) as [Hlog' Htemp'].
    by apply IH.
Qed.

Lemma log_entries_carry_their_position_witness :
  let n := startNode 1 config3 0 in
  let es := [EvPrepare (PrepareArgs.mk 0 1 0 req_x) 1;
             EvStartView (StartViewArgs.mk 1 log_ab 2 2);
             EvPrepare (PrepareArgs.mk 1 3 0 req_y) 2] in
  (wellIndexed (opLog (replica n)) ∧ wellIndexed (tempOpLog (replica n)) ∧
   Forall carriesWellIndexed es) ∧
  wellIndexed (opLog (replica (run n es))) ∧
  len (opLog (replica (run n es))) = 3.
Proof.
  intros n es.
  destruct log_entries_carry_their_position as [Hinit Hrun].
  destruct (Hinit 1 config3 0) as [Hlog Htemp].
  assert (Hab : wellIndexed log_ab).
  { apply (wellIndexed_app_one [mkOpLogEntry 0 (IStr "a")] (IStr "b")).
    apply (wellIndexed_app_one [] (IStr "a")). apply wellIndexed_nil. }
  assert (Hes : Forall carriesWellIndexed es).
  { repeat constructor. exact Hab. }
  split; [exact (conj Hlog (conj Htemp Hes))|].
  split; [exact (proj1 (Hrun n es Hlog Htemp Hes))|].
  vm_compute. reflexivity.
Defined.

(** *** The log only grows *)

Lemma step_prefix (n : Node) (e : Event) :
  installsLog e = false →
  opLog (replica n) `prefix_of` opLog (replica (step n e)).
Proof.
  intros He. pose proof (step_logs n e) as H. cbv zeta in H.
  destruct e; try discriminate He;
    try (destruct H as [_ [_ ->]]; done).
  - destruct H as [_ [[_ ->]|[_ ->]]]; [done|]. by apply prefix_app_r.
  - destruct H as [_ [[_ ->]|[_ ->]]]; [done|]. by apply prefix_app_r.
  - destruct H as [_ [[_ ->]|[_ ->]]]; [done|]. by apply prefix_app_r.
Qed.

(** X17.  Outside a view change the log is append-only.  Over any sequence
    of steps without a [DoViewChange] or [StartView] message ([Submit],
    [Prepare], [Commit], [StartViewChange], replies, timer ticks, [Stop]) the
    log at the start is a prefix of the log at the end: no entry is removed,
    reordered or rewritten. *)
Theorem log_append_only (n : Node) (es : list Event) :
  forallb (λ e, negb (installsLog e)) es = true →
  opLog (replica n) `prefix_of` opLog (replica (run n es)).
Proof.
  revert n. induction es as [|e es IH]; intros n Hes; [done|].
  simpl in Hes. apply andb_prop in Hes as [He Hes]. rewrite run_cons.
  etrans; [apply (step_prefix n e); by destruct (installsLog e)|by apply IH].
Qed.

Lemma log_append_only_witness :
  let n := committedPrimaryNode in
  let es := [EvSubmit req_y; EvTick 5 0; EvCommit (CommitArgs.mk 0 0) 6;
             EvPrepareOK 1 (ok_from 1 2); EvStop] in
  forallb (λ e, negb (installsLog e)) es = true ∧
  opLog (replica n) `prefix_of` opLog (replica (run n es)).
Proof.
  intros n es.
  assert (Hes : forallb (λ e, negb (installsLog e)) es = true) by reflexivity.
  split; [exact Hes|]. exact (log_append_only n es Hes).
Defined.

(** *** opNum and the length of the log *)

(** X18.  [opNum] counts the log.  [opNum = len(log)] and
    [tempOpNum = len(tempOpLog)] hold on a new replica, and every step keeps
    both as long as the log has fewer than [2^63 - 1] entries and every
    [StartView] message has [OpNum = len(OpLog)]: [DoViewChange] records the
    length of the message's log, not its [OpNum] field, and installs log and
    length together. *)
Theorem opNum_counts_the_log :
  (∀ id config now, lengths_agree (replica (startNode id config now))) ∧
  (∀ (n : Node) (e : Event),
     lengths_agree (replica n) → len (opLog (replica n)) < max_int →
     carriesLength e → lengths_agree (replica (step n e))).
Proof.
  split; [intros; split; reflexivity|].
  intros n e [Hlive Htemp] Hmax He.
  pose proof (step_logs n e) as H. cbv zeta in H.
  assert (Happ : ∀ op, wrap64 (opNum (replica n) + 1)
                       = len (opLog (replica n) ++ [mkOpLogEntry (len (opLog (replica n))) op])).
  { intros op. rewrite len_app_one, Hlive.
    pose proof (len_nonneg (opLog (replica n))).
    apply wrap64_succ; [|done]. unfold in_int, min_int, max_int in *. lia. }
  unfold lengths_agree.
  destruct e; simpl in He;
    try (destruct H as [[-> ->] [-> ->]]; done).
  - destruct H as [[-> ->] [[-> ->]|[-> ->]]]; [done|]. split; [apply Happ|done].
  - destruct H as [[-> ->] [[-> ->]|[-> ->]]]; [done|]. split; [apply Happ|done].
  - destruct H as [[[Ht1 Ht2]|[Ht1 Ht2]] [[Hl1 Hl2]|[Hl1 Hl2]]];
      rewrite ?Hl1, ?Hl2, ?Ht1, ?Ht2; done.
  - destruct H as [[-> ->] [[-> ->]|[-> ->]]]; done.
  - destruct H as [[-> ->] [[-> ->]|[-> ->]]]; [done|]. split; [apply Happ|done].
Qed.

Lemma opNum_counts_the_log_witness :
  let n := run nextPrimaryNode
             [EvDoViewChange (DoViewChangeArgs.mk 1 0 0 7 log_abc) 320] in
  let e := EvDoViewChange (DoViewChangeArgs.mk 1 0 0 7 log_abc) 321 in
  (lengths_agree (replica n) ∧ len (opLog (replica n)) < max_int ∧ carriesLength e) ∧
  lengths_agree (replica (step n e)) ∧ opNum (replica (step n e)) = 3.
Proof.
  intros n e.
  assert (Hagree : lengths_agree (replica n)) by (vm_compute; split; reflexivity).
  assert (Hmax : len (opLog (replica n)) < max_int) by (vm_compute; reflexivity).
  assert (He : carriesLength e) by exact I.
  split; [exact (conj Hagree (conj Hmax He))|].
  split; [exact (proj2 opNum_counts_the_log n e Hagree Hmax He)|].
  vm_compute. reflexivity.
Defined.

(** ** The client table *)

Lemma Submit_reqNum_monotone (r : Replica) (req : clientRequest) (c : Z) :
  clientTableEntry.reqNum (clientTable_get r c)
    <= clientTableEntry.reqNum (clientTable_get (Submit r req).1.1 c).
Proof.
  destruct (decide (submit_accepts r req)) as [Hyes|Hno].
  - rewrite Submit_accept by done. unfold clientTable_get, submitted. simpl.
    destruct (decide (c = clientID req)) as [->|Hne].
    + rewrite lookup_insert_eq. simpl. destruct Hyes as (_ & _ & Hnum).
      unfold clientTable_get in Hnum. lia.
    + rewrite lookup_insert_ne by done. lia.
  - rewrite Submit_reject by done. simpl. lia.
Qed.

Lemma submitAll_reqNum_monotone (r : Replica) (reqs : list clientRequest) (c : Z) :
  clientTableEntry.reqNum (clientTable_get r c)
    <= clientTableEntry.reqNum (clientTable_get (submitAll r reqs) c).
Proof.
  unfold submitAll. revert r. induction reqs as [|req reqs IH]; intros r; [simpl; lia|].
  simpl. pose proof (Submit_reqNum_monotone r req c). specialize (IH (Submit r req).1.1).
  lia.
Qed.

(** X19.  Duplicate suppression.  Under [Submit] the request number recorded
    for a client never goes down.  Once a request of a client is accepted,
    any request of that client with the same or a smaller number is rejected
    without effect, also after any number of further [Submit] calls. *)
Theorem duplicate_requests_rejected (r : Replica) (req dup : clientRequest)
    (reqs : list clientRequest) :
  submit_accepts r req → clientID dup = clientID req → reqNum dup <= reqNum req →
  let r' := submitAll r (req :: reqs) in
  Submit r' dup = (r', false, None) ∧
  (∀ c, clientTableEntry.reqNum (clientTable_get r c)
        <= clientTableEntry.reqNum (clientTable_get r' c)).
Proof.
  intros Hacc Hc Hnum. simpl. split.
  - apply Submit_reject. intros (_ & _ & Hgt).
    pose proof (submitAll_reqNum_monotone (Submit r req).1.1 reqs (clientID dup)) as Hm.
    unfold submitAll in *. simpl in Hgt.
    rewrite Submit_accept in Hm, Hgt by done. simpl in Hm, Hgt.
    assert (Hrec : clientTableEntry.reqNum
                     (clientTable_get (submitted r req) (clientID dup)) = reqNum req).
    { unfold clientTable_get, submitted. simpl. by rewrite Hc, lookup_insert_eq. }
    lia.
  - intros c. apply (submitAll_reqNum_monotone r (req :: reqs) c).
Qed.

Lemma duplicate_requests_rejected_witness :
  let r := NewReplica 0 config3 in
  let other := mkClientRequest 2 1 (IStr "z") in
  let r' := submitAll r [req_y; other] in
  (submit_accepts r req_y ∧ clientID req_x = clientID req_y ∧
   reqNum req_x <= reqNum req_y) ∧
  Submit r' req_x = (r', false, None).
Proof.
  intros r other r'.
  assert (Hacc : submit_accepts r req_y).
  { unfold submit_accepts. vm_compute. repeat split. }
  assert (Hnum : reqNum req_x <= reqNum req_y) by (vm_compute; discriminate).
  split; [exact (conj Hacc (conj eq_refl Hnum))|].
  exact (proj1 (duplicate_requests_rejected r req_y req_x [other] Hacc eq_refl Hnum)).
Defined.

(** X20.  The first request of a client.  A client without an entry in the
    client table reads as request number 0: a [Normal] primary accepts its
    request exactly when the request number is positive, so a client that
    numbers its requests from 0 has its first request rejected. *)
Theorem first_request_needs_positive_number (r : Replica) (req : clientRequest) :
  status r = Status.Normal → ID r = primaryID r →
  clientTable r !! clientID req = None →
  ((Submit r req).1.2 = true ↔ reqNum req > 0).
Proof.
  intros Hn Hp Hnew.
  assert (Hzero : clientTableEntry.reqNum (clientTable_get r (clientID req)) = 0).
  { unfold clientTable_get. by rewrite Hnew. }
  destruct (decide (submit_accepts r req)) as [Hyes|Hno].
  - rewrite Submit_accept by done. simpl. destruct Hyes as (_ & _ & Hgt).
    rewrite Hzero in Hgt. tauto.
  - rewrite Submit_reject by done. simpl. split; [done|].
    intros Hgt. exfalso. apply Hno. unfold submit_accepts. rewrite Hzero. done.
Qed.

Lemma first_request_needs_positive_number_witness :
  let r := NewReplica 0 config3 in
  let zeroth := mkClientRequest 1 0 (IStr "x") in
  (status r = Status.Normal ∧ ID r = primaryID r ∧
   clientTable r !! clientID zeroth = None) ∧
  (Submit r zeroth).1.2 = false ∧ (Submit r req_x).1.2 = true.
Proof.
  intros r zeroth.
  assert (Hnew : clientTable r !! clientID zeroth = None) by (vm_compute; reflexivity).
  split; [exact (conj eq_refl (conj eq_refl Hnew))|]. split.
  - apply not_true_is_false. intros Ht.
    apply (first_request_needs_positive_number r zeroth eq_refl eq_refl Hnew) in Ht.
    vm_compute in Ht. discriminate Ht.
  - apply (first_request_needs_positive_number r req_x eq_refl eq_refl Hnew).
    vm_compute. reflexivity.
Defined.

(** ** The commit stream of a node *)

Lemma latched_app (bs1 bs2 : list PrepareBlast) :
  latched (bs1 ++ bs2) = (latched bs1 + latched bs2)%nat.
Proof. induction bs1 as [|b bs1 IH]; simpl; [done|]. rewrite IH. lia. Qed.

Lemma latched_le_length (bs : list PrepareBlast) : (latched bs <= length bs)%nat.
Proof. induction bs as [|b bs IH]; simpl; [lia|]. destruct (commitedAlready b); lia. Qed.

Lemma latched_insert (bs : list PrepareBlast) (i : nat) (b b' : PrepareBlast) :
  bs !! i = Some b →
  (latched (<[i := b']> bs) + (if commitedAlready b then 1 else 0)
   = latched bs + (if commitedAlready b' then 1 else 0))%nat.
Proof.
  revert i. induction bs as [|b0 bs IH]; intros i Hi; [done|].
  destruct i as [|i]; simpl in *.
  - simplify_eq. lia.
  - specialize (IH i Hi). lia.
Qed.

Lemma onPrepareOK_latch (r : Replica) (b : PrepareBlast) (reply : PrepareOKReply.t) :
  let '(_, b', out) := onPrepareOK r b reply in
  (out = [] ∧ (commitedAlready b = true → commitedAlready b' = true)) ∨
  (length out = 1%nat ∧ commitedAlready b = false ∧ commitedAlready b' = true).
Proof.
  destruct (PrepareOKReply.IsReplied reply) eqn:Hrep;
    [destruct (commitedAlready b) eqn:Hlatch|].
  - rewrite onPrepareOK_ignored by auto. left. done.
  - destruct (repliesQuorum r (wrap32 (prepareOKsReceived b + 1))) eqn:Hq.
    + rewrite onPrepareOK_at_quorum by done.
      destruct (wrap64 (commitNum r + 1) =? savedCommitNum b); [left|right]; done.
    + rewrite onPrepareOK_below_quorum by done. left. done.
  - rewrite onPrepareOK_ignored by auto. left. done.
Qed.

Lemma step_commits_bounded (n : Node) (e : Event) :
  (length (commitChan n) <= latched (prepares n))%nat →
  (length (commitChan (step n e)) <= latched (prepares (step n e)))%nat.
Proof.
  intros Hn. unfold step. destruct (mu n); [done|]. destruct e; simpl.
  - destruct (Submit (replica n) req) as [[r' ok] [b|]] eqn:Hs; simpl; [|done].
    rewrite latched_app. lia.
  - destruct (prepares n !! i) as [b|] eqn:Hi; [|done].
    pose proof (onPrepareOK_latch (replica n) b reply) as Hl.
    destruct (onPrepareOK (replica n) b reply) as [[r' b'] out]. simpl.
    pose proof (latched_insert (prepares n) i b b' Hi) as Hins.
    rewrite length_app.
    destruct Hl as [[-> Hmono]|(Hout & Hb & Hb')].
    + simpl. destruct (commitedAlready b); [rewrite Hmono in Hins by done|];
        destruct (commitedAlready b'); lia.
    + rewrite Hb, Hb' in Hins. lia.
  - done.
  - done.
  - done.
  - destruct (viewChanges n !! i) as [b|]; [|done].
    by destruct (onStartViewChangeReply (replica n) b reply now) as [[r' b'] st].
  - by destruct (DoViewChange (replica n) args Ack.zero now) as [[r' rep] st].
  - done.
  - unfold stepTick. repeat case_match; done.
  - done.
  - by destruct (Submit (replica n) req) as [[r' [|]] ob].
  - destruct (pending n !! i) as [req|]; [|done]. simpl.
    rewrite latched_app. lia.
Qed.

(** X21.  At most one commit per accepted request, for the whole process.
    In every state a replica process can reach, the number of entries sent on
    [commitChan] is at most the number of broadcasts whose latch is set,
    which is at most the number of broadcasts started, one per accepted
    [Submit]: the view-change handlers, the timer and [Stop] send nothing. *)
Theorem commits_bounded_by_broadcasts (id : Z) (config : gmap Z string) (now : Z)
    (es : list Event) :
  let n := run (startNode id config now) es in
  (length (commitChan n) <= latched (prepares n))%nat ∧
  (latched (prepares n) <= length (prepares n))%nat.
Proof.
  simpl. split; [|apply latched_le_length].
  assert (Hgen : ∀ n0, (length (commitChan n0) <= latched (prepares n0))%nat →
                       (length (commitChan (run n0 es))
                        <= latched (prepares (run n0 es)))%nat).
  { induction es as [|e es IH]; intros n0 H0; [done|].
    rewrite run_cons. apply IH. by apply step_commits_bounded. }
  apply Hgen. simpl. lia.
Qed.

(** ** Membership *)

Lemma step_membership (n : Node) (e : Event) :
  ID (replica (step n e)) = ID (replica n) ∧
  configuration (replica (step n e)) = configuration (replica n).
Proof.
  unfold step. destruct (mu n); [done|]. destruct e; simpl.
  - unfold Submit. repeat case_match; simplify_eq; done.
  - destruct (prepares n !! i) as [b|]; [|done].
    unfold onPrepareOK. repeat case_match; simplify_eq; done.
  - unfold Prepare. repeat case_match; simplify_eq; done.
  - unfold Commit. case_match; done.
  - unfold StartViewChange. repeat case_match; simplify_eq; done.
  - destruct (viewChanges n !! i) as [b|]; [|done].
    unfold onStartViewChangeReply. repeat case_match; simplify_eq; done.
  - unfold DoViewChange, adoptDoViewChange, recordDoViewChange.
    repeat case_match; simplify_eq; done.
  - unfold StartView. case_match; done.
  - unfold stepTick, sendDoViewChange. repeat case_match; simplify_eq; done.
  - done.
  - unfold Submit. repeat case_match; simplify_eq; done.
  - destruct (pending n !! i) as [req|]; done.
Qed.

(** X22.  Membership is fixed.  No step (request, RPC, reply, timer tick or
    [Stop]) changes the replica's [ID] or its configuration: in every
    reachable state they are the ones given to [NewReplica], and the quorum
    thresholds, which depend on the size of the configuration only, are the
    same throughout. *)
Theorem membership_is_fixed (id : Z) (config : gmap Z string) (n : Node) :
  reachable id config n →
  ID (replica n) = id ∧ configuration (replica n) = config ∧
  (∀ c, repliesQuorum (replica n) c = (wrap64 (c * 2) >? wrap64 (maplen config + 1))).
Proof.
  intros (now & es & ->).
  assert (Hgen : ∀ n0, ID (replica (run n0 es)) = ID (replica n0) ∧
                       configuration (replica (run n0 es)) = configuration (replica n0)).
  { induction es as [|e es IH]; intros n0; [done|].
    rewrite run_cons. destruct (IH (step n0 e)) as [-> ->]. apply step_membership. }
  destruct (Hgen (startNode id config now)) as [Hid Hcfg].
  split; [exact Hid|]. split; [exact Hcfg|].
  intros c. unfold repliesQuorum. by rewrite Hcfg.
Qed.

Lemma membership_is_fixed_witness :
  reachable 1 config3 nextPrimaryNode ∧
  ID (replica nextPrimaryNode) = 1 ∧ configuration (replica nextPrimaryNode) = config3.
Proof.
  assert (Hr : reachable 1 config3 nextPrimaryNode).
  { exists 0, becomeNextPrimary. reflexivity. }
  destruct (membership_is_fixed 1 config3 nextPrimaryNode Hr) as (Hid & Hcfg & _).
  split; [exact Hr|]. split; [exact Hid|exact Hcfg].
Defined.

(** ** Starting a view change *)





(** ** What the reply closure does not look at *)

(** X24.  The reply closure of [primaryBlastPrepare] reads [IsReplied] and
    nothing else of the reply, and it does not read the replica's status or
    view: two replies that agree on [IsReplied] have the same effect, whatever
    view, operation number, sender and status they report, and the effect on
    a replica that has left [Normal] (for [Recovery], a view change or
    [Dead]) is the effect on the [Normal] replica, commit included. *)
Theorem PrepareOK_reads_only_IsReplied :
  (∀ r b reply1 reply2,
     PrepareOKReply.IsReplied reply1 = PrepareOKReply.IsReplied reply2 →
     onPrepareOK r b reply1 = onPrepareOK r b reply2) ∧
  (∀ r b reply s v,
     onPrepareOK (set_viewNum v (set_status s r)) b reply =
       let '(r', b', out) := onPrepareOK r b reply in
       (set_viewNum v (set_status s r'), b', out)).
Proof.
  split.
  - intros r b reply1 reply2 Heq. unfold onPrepareOK. by rewrite Heq.
  - intros r b reply s v. unfold onPrepareOK, repliesQuorum. simpl.
    destruct (PrepareOKReply.IsReplied reply && negb (commitedAlready b)); [|done].
    destruct (_ >? _); [|done].
    destruct (negb _); done.
Qed.

Lemma PrepareOK_reads_only_IsReplied_witness :
  let r := (Submit (NewReplica 0 config3) req_x).1.1 in
  let b := counted (primaryBlastPrepare r req_x) false in
  let stale := PrepareOKReply.mk true 7 42 9 Status.Recovery in
  PrepareOKReply.IsReplied stale = PrepareOKReply.IsReplied (ok_from 2 1) ∧
  (onPrepareOK (Stop r) b stale).2 = [CommitEntry.mk 0 1 0 req_x INil].
Proof.
  intros r b stale.
  assert (Heq : PrepareOKReply.IsReplied stale = PrepareOKReply.IsReplied (ok_from 2 1))
    by reflexivity.
  split; [exact Heq|].
  rewrite (proj1 PrepareOK_reads_only_IsReplied (Stop r) b stale (ok_from 2 1) Heq).
  vm_compute. reflexivity.
Defined.
